(** * Cypress Autonomous Agent: analysis, strategy and generation pipeline

    A shallow embedding of the JavaScript sources
    (ProjectAnalyzer.js, TestStrategy.js, TestSpecGenerator.js and the
    controller class CypressAutonomousAgent) together with the properties
    the specification states about them.

    Conventions of the embedding:
    - JavaScript strings are [string]; arrays are [list]; plain objects
      used as dictionaries are [gmap string _] when only lookups matter
      and association lists when the iteration order is observable; a
      table read at a key the caller chooses ([this.strategies],
      [templateMap], [frameworkConfigs]) is read as JavaScript reads
      it, through the prototype chain ([JS.member]); the keys the
      pipeline itself computes never name a member inherited from
      [Object.prototype] (see [pipeline_keys_own]), and the histogram
      of [generateSpecSummary] is modelled at keys that name no such
      member;
    - [Math.floor], [Math.min] and the division by 50 are computed over
      the rationals [Q]: every intermediate value of the spec-count
      formula is a multiple of 1/100, far coarser than the rounding of
      IEEE doubles, so the floor of the exact value is the floor of the
      double (checked against primitive floats further down);
    - a JavaScript exception is the constructor [Throw] of [result];
      stateful code threads its state explicitly and keeps the state
      reached when an exception is raised. *)

From Stdlib Require Import QArith Qround Qminmax Ascii.
From Stdlib Require PrimFloat Uint63.
From stdpp Require Import gmap strings list pretty.
Close Scope Q_scope.

(** ** JavaScript primitives used by the sources *)

Module JS.

(** [s.startsWith(p)] *)
Definition startsWith (s p : string) : bool := String.prefix p s.

(** [s.includes(sub)]: [sub] occurs somewhere in [s]. *)
Fixpoint includes (s sub : string) : bool :=
  String.prefix sub s ||
  match s with
  | EmptyString => false
  | String _ rest => includes rest sub
  end.

(** [s.endsWith(suf)] *)
Definition endsWith (s suf : string) : bool :=
  String.prefix (String.rev suf) (String.rev s).

(** Truthiness of a string value: only the empty string is falsy. *)
Definition truthy (s : string) : bool :=
  match s with EmptyString => false | _ => true end.

(** Truthiness of [obj[key]] on a dictionary of strings: a missing key
    reads as [undefined], which is falsy. *)
Definition truthy_at (m : gmap string string) (k : string) : bool :=
  match m !! k with
  | Some v => truthy v
  | None => false
  end.

(** [arr.some(p)] *)
Definition some {A} (p : A → bool) (l : list A) : bool := existsb p l.

(** [{ ...a, ...b }]: the keys of both, [b] winning on a clash. *)
Definition spread2 (a b : gmap string string) : gmap string string := b ∪ a.

(** Property names every object literal inherits from
    [Object.prototype]. At any other key, [table[key]] is the own entry
    of the table or [undefined]. *)
Definition objectPrototypeProps : list string :=
  [ "constructor"; "__defineGetter__"; "__defineSetter__"; "hasOwnProperty";
    "__lookupGetter__"; "__lookupSetter__"; "isPrototypeOf";
    "propertyIsEnumerable"; "toString"; "valueOf"; "__proto__";
    "toLocaleString" ].

(** [table[k]] on a table given by its entries: [None] is [undefined]. *)
Fixpoint assoc {A} (k : string) (l : list (string * A)) : option A :=
  match l with
  | [] => None
  | (k', v) :: rest => if String.eqb k k' then Some v else assoc k rest
  end.

(** What [table[k]] evaluates to on an object literal given by its
    entries: the own entry; failing that, under the names of
    [objectPrototypeProps], the member inherited from
    [Object.prototype]; failing that, [undefined]. *)
Inductive Member (A : Type) : Type :=
| Own (value : A)
| Inherited (key : string)
| Undefined.
Arguments Own {A} value.
Arguments Inherited {A} key.
Arguments Undefined {A}.

Definition member {A} (k : string) (table : list (string * A)) : Member A :=
  match assoc k table with
  | Some v => Own v
  | None =>
      if bool_decide (k ∈ objectPrototypeProps) then Inherited k else Undefined
  end.

(** An inherited member converted to a string, as [+] with a string
    does: [__proto__] is the prototype object, the others are native
    functions, [constructor] being the function [Object]. *)
Definition inherited_string (key : string) : string :=
  if String.eqb key "__proto__" then "[object Object]"
  else
    "function " +:+ (if String.eqb key "constructor" then "Object" else key)
    +:+ "() { [native code] }".

(** [path.join(a, b)] on normalised operands: an empty operand is
    dropped, the others are joined by a separator. *)
Definition path_join (a b : string) : string :=
  match a, b with
  | EmptyString, _ => b
  | _, EmptyString => a
  | _, _ => a +:+ "/" +:+ b
  end.

(** [s.split("/")] *)
Fixpoint split_slash (s : string) : list string :=
  match s with
  | EmptyString => [EmptyString]
  | String c rest =>
      if Ascii.eqb c "/"%char then EmptyString :: split_slash rest
      else match split_slash rest with
           | seg :: segs => String c seg :: segs
           | [] => [String c EmptyString]
           end
  end.

(** [s.toLowerCase()] on the ASCII letters. *)
Definition lower_char (c : ascii) : ascii :=
  let n := nat_of_ascii c in
  if (65 <=? n) && (n <=? 90) then ascii_of_nat (n + 32) else c.

Fixpoint toLowerCase (s : string) : string :=
  match s with
  | EmptyString => EmptyString
  | String c rest => String (lower_char c) (toLowerCase rest)
  end.

Fixpoint drop_chars (n : nat) (s : string) : string :=
  match n, s with
  | S n', String _ rest => drop_chars n' rest
  | _, _ => s
  end.

(** [s.replace(pat, repl)] with a string pattern: only the first
    occurrence is replaced. *)
Fixpoint replace (s pat repl : string) : string :=
  if String.prefix pat s then repl +:+ drop_chars (String.length pat) s
  else match s with
       | EmptyString => EmptyString
       | String c rest => String c (replace rest pat repl)
       end.

End JS.

(** A computation that either returns or raises an exception carrying a
    message. *)
Inductive result (A : Type) : Type :=
| Ok (a : A)
| Throw (message : string).
Arguments Ok {A} a.
Arguments Throw {A} message.

#[export] Instance result_ret : MRet result := fun _ x => Ok x.
#[export] Instance result_bind : MBind result := fun _ _ f r =>
  match r with
  | Ok x => f x
  | Throw e => Throw e
  end.

(** [b || r]: the right operand is evaluated only when [b] is false. *)
Definition or_else (b : bool) (r : result bool) : result bool :=
  if b then Ok true else r.

(** ** Code that mutates state and may raise

    A computation takes the mutable state as it is and leaves it as it
    made it, also when it raises. *)
Definition Eff (S A : Type) : Type := S → S * result A.

#[export] Instance eff_ret {S} : MRet (Eff S) := fun _ x s => (s, Ok x).
#[export] Instance eff_bind {S} : MBind (Eff S) := fun _ _ f m s =>
  match m s with
  | (s', Ok x) => f x s'
  | (s', Throw e) => (s', Throw e)
  end.

(** An assignment to a part of the state. *)
Definition assign {S} (f : S → S) : Eff S unit := fun s => (f s, Ok tt).

(** Reading the state. *)
Definition current {S} : Eff S S := fun s => (s, Ok s).

(** [await] of a call that leaves the state alone. *)
Definition await {S A} (r : result A) : Eff S A := fun s => (s, r).

(** [throw new Error(message)] *)
Definition throw {S A} (message : string) : Eff S A := fun s => (s, Throw message).

(** [try { body } catch (error) { handler }] *)
Definition try_catch {S A} (body : Eff S A) (handler : string → Eff S A)
  : Eff S A :=
  fun s =>
    match body s with
    | (s', Ok x) => (s', Ok x)
    | (s', Throw e) => handler e s'
    end.

(** [for (const x of xs) { body }] *)
Fixpoint for_of {S A} (xs : list A) (body : A → Eff S unit) : Eff S unit :=
  match xs with
  | [] => mret tt
  | x :: rest => body x ;; for_of rest body
  end.

(** ** Data model *)

(** One element of [analysis.projectStructure]. Directory records carry
    [depth]; file records carry [extension] and [size] instead. *)
Inductive StructureEntry : Type :=
| DirectoryEntry (path : string) (depth : nat) (important : bool)
| FileEntry (path : string) (extension : string) (size : N) (important : bool).

Definition entry_path (e : StructureEntry) : string :=
  match e with
  | DirectoryEntry p _ _ => p
  | FileEntry p _ _ _ => p
  end.

(** A value of the manifest's [scripts] object, by the methods the
    analyzer calls on it: a JSON string has [includes] and
    [toLowerCase]; a JSON array has [includes] only; [null] has no
    members at all; a JSON number, boolean or object has neither
    method. *)
#[warnings="-register-all"]
Inductive ScriptValue : Type :=
| CmdString (s : string)
| CmdArray (items : list ScriptValue)
| CmdNull
| CmdOther.

Record EntryPoint : Type := { ep_path : string; ep_exists : bool }.

Record TestFile : Type :=
  { tf_path : string; tf_type : string; tf_framework : string }.

Record BuildTool : Type := { bt_name : string; bt_configFile : string }.

Record ExecutableScript : Type :=
  { es_command : ScriptValue; es_canExecute : bool; es_type : string }.

Record PackageMeta : Type :=
  { pm_name : option string; pm_version : option string;
    pm_description : option string; pm_main : option string;
    pm_author : option string }.

(** The [analysis] object built by [deepAnalysis]. The last four fields
    are absent from the initial literal and added by the sub-steps. *)
Record Analysis : Type := {
  projectType : string;
  framework : string;
  hasPackageJson : bool;
  dependencies : gmap string string;
  devDependencies : gmap string string;
  dependenciesInstalled : bool;
  cypressInstalled : bool;
  projectStructure : list StructureEntry;
  entryPoints : list EntryPoint;
  testFiles : list TestFile;
  buildTools : list BuildTool;
  executableScripts : list (string * ExecutableScript);
  analysisDate : string;
  scripts : option (list (string * ScriptValue));
  packageJson : option PackageMeta;
  testingFrameworks : option (list string);
  buildScripts : option (list (string * ScriptValue))
}.

(** Assignments [analysis.field = v]: the record with one field replaced. *)

Definition set_projectType (v : string) (a : Analysis) : Analysis :=
  {| projectType := v; framework := framework a;
     hasPackageJson := hasPackageJson a; dependencies := dependencies a;
     devDependencies := devDependencies a;
     dependenciesInstalled := dependenciesInstalled a;
     cypressInstalled := cypressInstalled a;
     projectStructure := projectStructure a; entryPoints := entryPoints a;
     testFiles := testFiles a; buildTools := buildTools a;
     executableScripts := executableScripts a;
     analysisDate := analysisDate a; scripts := scripts a;
     packageJson := packageJson a; testingFrameworks := testingFrameworks a;
     buildScripts := buildScripts a |}.

Definition set_framework (v : string) (a : Analysis) : Analysis :=
  {| projectType := projectType a; framework := v;
     hasPackageJson := hasPackageJson a; dependencies := dependencies a;
     devDependencies := devDependencies a;
     dependenciesInstalled := dependenciesInstalled a;
     cypressInstalled := cypressInstalled a;
     projectStructure := projectStructure a; entryPoints := entryPoints a;
     testFiles := testFiles a; buildTools := buildTools a;
     executableScripts := executableScripts a;
     analysisDate := analysisDate a; scripts := scripts a;
     packageJson := packageJson a; testingFrameworks := testingFrameworks a;
     buildScripts := buildScripts a |}.

Definition set_hasPackageJson (v : bool) (a : Analysis) : Analysis :=
  {| projectType := projectType a; framework := framework a;
     hasPackageJson := v; dependencies := dependencies a;
     devDependencies := devDependencies a;
     dependenciesInstalled := dependenciesInstalled a;
     cypressInstalled := cypressInstalled a;
     projectStructure := projectStructure a; entryPoints := entryPoints a;
     testFiles := testFiles a; buildTools := buildTools a;
     executableScripts := executableScripts a;
     analysisDate := analysisDate a; scripts := scripts a;
     packageJson := packageJson a; testingFrameworks := testingFrameworks a;
     buildScripts := buildScripts a |}.

Definition set_dependencies (v : gmap string string) (a : Analysis) : Analysis :=
  {| projectType := projectType a; framework := framework a;
     hasPackageJson := hasPackageJson a; dependencies := v;
     devDependencies := devDependencies a;
     dependenciesInstalled := dependenciesInstalled a;
     cypressInstalled := cypressInstalled a;
     projectStructure := projectStructure a; entryPoints := entryPoints a;
     testFiles := testFiles a; buildTools := buildTools a;
     executableScripts := executableScripts a;
     analysisDate := analysisDate a; scripts := scripts a;
     packageJson := packageJson a; testingFrameworks := testingFrameworks a;
     buildScripts := buildScripts a |}.

Definition set_devDependencies (v : gmap string string) (a : Analysis) : Analysis :=
  {| projectType := projectType a; framework := framework a;
     hasPackageJson := hasPackageJson a; dependencies := dependencies a;
     devDependencies := v; dependenciesInstalled := dependenciesInstalled a;
     cypressInstalled := cypressInstalled a;
     projectStructure := projectStructure a; entryPoints := entryPoints a;
     testFiles := testFiles a; buildTools := buildTools a;
     executableScripts := executableScripts a;
     analysisDate := analysisDate a; scripts := scripts a;
     packageJson := packageJson a; testingFrameworks := testingFrameworks a;
     buildScripts := buildScripts a |}.

Definition set_dependenciesInstalled (v : bool) (a : Analysis) : Analysis :=
  {| projectType := projectType a; framework := framework a;
     hasPackageJson := hasPackageJson a; dependencies := dependencies a;
     devDependencies := devDependencies a; dependenciesInstalled := v;
     cypressInstalled := cypressInstalled a;
     projectStructure := projectStructure a; entryPoints := entryPoints a;
     testFiles := testFiles a; buildTools := buildTools a;
     executableScripts := executableScripts a;
     analysisDate := analysisDate a; scripts := scripts a;
     packageJson := packageJson a; testingFrameworks := testingFrameworks a;
     buildScripts := buildScripts a |}.

Definition set_cypressInstalled (v : bool) (a : Analysis) : Analysis :=
  {| projectType := projectType a; framework := framework a;
     hasPackageJson := hasPackageJson a; dependencies := dependencies a;
     devDependencies := devDependencies a;
     dependenciesInstalled := dependenciesInstalled a; cypressInstalled := v;
     projectStructure := projectStructure a; entryPoints := entryPoints a;
     testFiles := testFiles a; buildTools := buildTools a;
     executableScripts := executableScripts a;
     analysisDate := analysisDate a; scripts := scripts a;
     packageJson := packageJson a; testingFrameworks := testingFrameworks a;
     buildScripts := buildScripts a |}.

Definition set_projectStructure (v : list StructureEntry) (a : Analysis) : Analysis :=
  {| projectType := projectType a; framework := framework a;
     hasPackageJson := hasPackageJson a; dependencies := dependencies a;
     devDependencies := devDependencies a;
     dependenciesInstalled := dependenciesInstalled a;
     cypressInstalled := cypressInstalled a; projectStructure := v;
     entryPoints := entryPoints a; testFiles := testFiles a;
     buildTools := buildTools a; executableScripts := executableScripts a;
     analysisDate := analysisDate a; scripts := scripts a;
     packageJson := packageJson a; testingFrameworks := testingFrameworks a;
     buildScripts := buildScripts a |}.

Definition set_entryPoints (v : list EntryPoint) (a : Analysis) : Analysis :=
  {| projectType := projectType a; framework := framework a;
     hasPackageJson := hasPackageJson a; dependencies := dependencies a;
     devDependencies := devDependencies a;
     dependenciesInstalled := dependenciesInstalled a;
     cypressInstalled := cypressInstalled a;
     projectStructure := projectStructure a; entryPoints := v;
     testFiles := testFiles a; buildTools := buildTools a;
     executableScripts := executableScripts a;
     analysisDate := analysisDate a; scripts := scripts a;
     packageJson := packageJson a; testingFrameworks := testingFrameworks a;
     buildScripts := buildScripts a |}.

Definition set_testFiles (v : list TestFile) (a : Analysis) : Analysis :=
  {| projectType := projectType a; framework := framework a;
     hasPackageJson := hasPackageJson a; dependencies := dependencies a;
     devDependencies := devDependencies a;
     dependenciesInstalled := dependenciesInstalled a;
     cypressInstalled := cypressInstalled a;
     projectStructure := projectStructure a; entryPoints := entryPoints a;
     testFiles := v; buildTools := buildTools a;
     executableScripts := executableScripts a;
     analysisDate := analysisDate a; scripts := scripts a;
     packageJson := packageJson a; testingFrameworks := testingFrameworks a;
     buildScripts := buildScripts a |}.

Definition set_buildTools (v : list BuildTool) (a : Analysis) : Analysis :=
  {| projectType := projectType a; framework := framework a;
     hasPackageJson := hasPackageJson a; dependencies := dependencies a;
     devDependencies := devDependencies a;
     dependenciesInstalled := dependenciesInstalled a;
     cypressInstalled := cypressInstalled a;
     projectStructure := projectStructure a; entryPoints := entryPoints a;
     testFiles := testFiles a; buildTools := v;
     executableScripts := executableScripts a;
     analysisDate := analysisDate a; scripts := scripts a;
     packageJson := packageJson a; testingFrameworks := testingFrameworks a;
     buildScripts := buildScripts a |}.

Definition set_executableScripts (v : list (string * ExecutableScript)) (a : Analysis) : Analysis :=
  {| projectType := projectType a; framework := framework a;
     hasPackageJson := hasPackageJson a; dependencies := dependencies a;
     devDependencies := devDependencies a;
     dependenciesInstalled := dependenciesInstalled a;
     cypressInstalled := cypressInstalled a;
     projectStructure := projectStructure a; entryPoints := entryPoints a;
     testFiles := testFiles a; buildTools := buildTools a;
     executableScripts := v; analysisDate := analysisDate a;
     scripts := scripts a; packageJson := packageJson a;
     testingFrameworks := testingFrameworks a; buildScripts := buildScripts a |}.

Definition set_scripts (v : option (list (string * ScriptValue))) (a : Analysis) : Analysis :=
  {| projectType := projectType a; framework := framework a;
     hasPackageJson := hasPackageJson a; dependencies := dependencies a;
     devDependencies := devDependencies a;
     dependenciesInstalled := dependenciesInstalled a;
     cypressInstalled := cypressInstalled a;
     projectStructure := projectStructure a; entryPoints := entryPoints a;
     testFiles := testFiles a; buildTools := buildTools a;
     executableScripts := executableScripts a;
     analysisDate := analysisDate a; scripts := v;
     packageJson := packageJson a; testingFrameworks := testingFrameworks a;
     buildScripts := buildScripts a |}.

Definition set_packageJson (v : option PackageMeta) (a : Analysis) : Analysis :=
  {| projectType := projectType a; framework := framework a;
     hasPackageJson := hasPackageJson a; dependencies := dependencies a;
     devDependencies := devDependencies a;
     dependenciesInstalled := dependenciesInstalled a;
     cypressInstalled := cypressInstalled a;
     projectStructure := projectStructure a; entryPoints := entryPoints a;
     testFiles := testFiles a; buildTools := buildTools a;
     executableScripts := executableScripts a;
     analysisDate := analysisDate a; scripts := scripts a; packageJson := v;
     testingFrameworks := testingFrameworks a; buildScripts := buildScripts a |}.

Definition set_testingFrameworks (v : option (list string)) (a : Analysis) : Analysis :=
  {| projectType := projectType a; framework := framework a;
     hasPackageJson := hasPackageJson a; dependencies := dependencies a;
     devDependencies := devDependencies a;
     dependenciesInstalled := dependenciesInstalled a;
     cypressInstalled := cypressInstalled a;
     projectStructure := projectStructure a; entryPoints := entryPoints a;
     testFiles := testFiles a; buildTools := buildTools a;
     executableScripts := executableScripts a;
     analysisDate := analysisDate a; scripts := scripts a;
     packageJson := packageJson a; testingFrameworks := v;
     buildScripts := buildScripts a |}.

Definition set_buildScripts (v : option (list (string * ScriptValue))) (a : Analysis) : Analysis :=
  {| projectType := projectType a; framework := framework a;
     hasPackageJson := hasPackageJson a; dependencies := dependencies a;
     devDependencies := devDependencies a;
     dependenciesInstalled := dependenciesInstalled a;
     cypressInstalled := cypressInstalled a;
     projectStructure := projectStructure a; entryPoints := entryPoints a;
     testFiles := testFiles a; buildTools := buildTools a;
     executableScripts := executableScripts a;
     analysisDate := analysisDate a; scripts := scripts a;
     packageJson := packageJson a; testingFrameworks := testingFrameworks a;
     buildScripts := v |}.

(** The closed enumeration of framework labels of the data model. *)
Definition frameworkEnumeration : list string :=
  ["react"; "vue"; "angular"; "nextjs"; "nuxtjs"; "svelte"; "traditional"; "none"].

(** ** Test Strategy Engine (TestStrategy.js) *)

Module TestStrategy.

Record Profile : Type := {
  p_name : string;
  p_priority : list string;
  p_selectors : list string;
  p_patterns : list string
}.

Definition react : Profile :=
  {| p_name := "React Testing Strategy";
     p_priority := ["component-testing"; "state-management"; "router-testing"; "form-testing"];
     p_selectors := ["data-testid"; "role"; "aria-label"; "className"];
     p_patterns := ["component-rendering"; "user-interactions"; "state-changes"; "api-calls"] |}.

Definition vue : Profile :=
  {| p_name := "Vue Testing Strategy";
     p_priority := ["component-testing"; "vuex-store"; "router-testing"; "form-validation"];
     p_selectors := ["data-test"; "v-test"; "aria-label"; "class"];
     p_patterns := ["component-mounting"; "event-handling"; "computed-properties"; "vuex-actions"] |}.

Definition angular : Profile :=
  {| p_name := "Angular Testing Strategy";
     p_priority := ["component-testing"; "service-testing"; "router-testing"; "form-testing"];
     p_selectors := ["data-cy"; "data-test"; "aria-label"];
     p_patterns := ["component-creation"; "dependency-injection"; "router-navigation"; "http-calls"] |}.

Definition traditional : Profile :=
  {| p_name := "Traditional Web App Strategy";
     p_priority := ["navigation-testing"; "form-testing"; "content-validation"; "user-flows"];
     p_selectors := ["id"; "class"; "name"; "data-*"];
     p_patterns := ["page-navigation"; "form-submission"; "content-verification"; "user-journey"] |}.

(** [this.strategies] *)
Definition strategies : list (string * Profile) :=
  [ ("react", react); ("vue", vue); ("angular", angular);
    ("traditional", traditional) ].

(** The object returned by [generateStrategy]: the profile spread in,
    then the computed fields. *)
Record Strategy : Type := {
  name : string;
  priority : list string;
  selectors : list string;
  patterns : list string;
  s_projectType : string;
  s_framework : string;
  recommendedSpecs : Z;
  focusAreas : list string;
  testPatterns : list string;
  selectorStrategy : list string
}.

Definition baseCount : Z := 3.

Definition structureMultiplier (a : Analysis) : Q :=
  Qmin (inject_Z (Z.of_nat (length (projectStructure a))) / 50) 3.

Definition entryPointsBonus (a : Analysis) : Q :=
  inject_Z (Z.of_nat (length (entryPoints a))) * (5 # 10).

Definition calculateRecommendedSpecs (a : Analysis) : Z :=
  Z.max baseCount
    (Qfloor (inject_Z baseCount + structureMultiplier a + entryPointsBonus a)).

Definition path_signal (a : Analysis) (word : string) : bool :=
  JS.some (fun item => JS.includes (entry_path item) word) (projectStructure a).

Definition determineFocusAreas (a : Analysis) : list string :=
  let focusAreas := [] in
  let focusAreas :=
    if path_signal a "form" then focusAreas ++ ["form-testing"] else focusAreas in
  let focusAreas :=
    if path_signal a "auth" then focusAreas ++ ["authentication"] else focusAreas in
  let focusAreas :=
    if 1 <? length (entryPoints a) then focusAreas ++ ["navigation-testing"]
    else focusAreas in
  let focusAreas :=
    if path_signal a "api" then focusAreas ++ ["api-testing"] else focusAreas in
  if length focusAreas =? 0 then focusAreas ++ ["smoke-testing"; "critical-flows"]
  else focusAreas.

Definition selectTestPatterns (a : Analysis) (basePatterns : list string)
  : list string :=
  let patterns := basePatterns in
  let patterns :=
    if JS.truthy_at (dependencies a) "axios" || JS.truthy_at (dependencies a) "fetch"
    then patterns ++ ["api-testing"] else patterns in
  let patterns :=
    if 1 <? length (entryPoints a) then patterns ++ ["multi-page-testing"]
    else patterns in
  if path_signal a "form" then patterns ++ ["form-validation"] else patterns.

Definition customStrategy (base : Profile) (a : Analysis) : Strategy :=
  {| name := p_name base;
     priority := p_priority base;
     selectors := p_selectors base;
     patterns := p_patterns base;
     s_projectType := projectType a;
     s_framework := framework a;
     recommendedSpecs := calculateRecommendedSpecs a;
     focusAreas := determineFocusAreas a;
     testPatterns := selectTestPatterns a (p_patterns base);
     selectorStrategy := p_selectors base |}.

(** [this.strategies[analysis.framework] || this.strategies.traditional]
    and the object literal built on it. A profile and an inherited
    member are both truthy. An inherited member has no [patterns], and
    the spread [[...basePatterns]] of [selectTestPatterns] raises on
    [undefined]. *)
Definition generateStrategy (a : Analysis) : result Strategy :=
  match JS.member (framework a) strategies with
  | JS.Own baseStrategy => Ok (customStrategy baseStrategy a)
  | JS.Undefined => Ok (customStrategy traditional a)
  | JS.Inherited _ => Throw "basePatterns is not iterable"
  end.

End TestStrategy.


(** ** Project Analyzer (ProjectAnalyzer.js): pure classification *)

Module ProjectAnalyzer.

(** [this.frameworkIndicators], in the order of the object literal, which
    is the order [Object.entries] enumerates it in. *)
Definition frameworkIndicators : list (string * list string) :=
  [ ("react", ["react"; "react-dom"; "next"; "gatsby"]);
    ("vue", ["vue"; "nuxt"; "vuex"; "vue-router"]);
    ("angular", ["@angular/core"; "@angular/common"; "rxjs"]);
    ("nextjs", ["next"; "react"]);
    ("nuxtjs", ["nuxt"; "vue"]);
    ("svelte", ["svelte"; "svelte-kit"]);
    ("traditional", ["jquery"; "bootstrap"; "popper.js"]) ].

(** [indicators.some(indicator => allDeps[indicator])] *)
Definition indicated (allDeps : gmap string string) (indicators : list string)
  : bool :=
  JS.some (fun indicator => JS.truthy_at allDeps indicator) indicators.

(** The [for ... of] loop with its [break]: the first entry of the table
    whose test succeeds, if any. *)
Fixpoint firstIndicated (table : list (string * list string))
  (allDeps : gmap string string) : option string :=
  match table with
  | [] => None
  | (fw, indicators) :: rest =>
      if indicated allDeps indicators then Some fw
      else firstIndicated rest allDeps
  end.

Definition structure_some (a : Analysis) (p : string → bool) : bool :=
  JS.some p (map entry_path (projectStructure a)).

Definition determineProjectType (a : Analysis) (allDeps : gmap string string)
  : string :=
  let fw := framework a in
  if String.eqb fw "react" then
    if JS.truthy_at allDeps "next" then "Next.js Application"
    else if JS.truthy_at allDeps "gatsby" then "Gatsby Application"
    else if structure_some a
              (fun s => JS.includes s "pages/" || JS.includes s "app/")
    then "React SPA"
    else "React Application"
  else if String.eqb fw "vue" then
    if JS.truthy_at allDeps "nuxt" then "Nuxt.js Application"
    else if structure_some a
              (fun s => JS.includes s "pages/" || JS.includes s "views/")
    then "Vue SPA"
    else "Vue Application"
  else if String.eqb fw "angular" then "Angular Application"
  else if String.eqb fw "nextjs" then "Next.js SSR Application"
  else if String.eqb fw "nuxtjs" then "Nuxt.js SSR Application"
  else if String.eqb fw "svelte" then
    if JS.truthy_at allDeps "svelte-kit" then "SvelteKit Application"
    else "Svelte Application"
  else
    if structure_some a (fun s => JS.includes s "index.html")
    then "Traditional Web Application"
    else if structure_some a (fun s => JS.includes s ".php")
    then "PHP Application"
    else "Unknown Project Type".

Definition detectFrameworkAndType (a : Analysis) : Analysis :=
  let allDeps := JS.spread2 (dependencies a) (devDependencies a) in
  let a :=
    match firstIndicated frameworkIndicators allDeps with
    | Some fw => set_framework fw a
    | None => a
    end in
  let a :=
    if String.eqb (framework a) "none" then set_framework "traditional" a
    else a in
  set_projectType (determineProjectType a allDeps) a.

Definition isImportantDirectory (dirName : string) : bool :=
  bool_decide (dirName ∈
    ["src"; "app"; "components"; "pages"; "public"; "tests"; "cypress";
     "e2e"; "spec"; "features"]).

Definition isImportantFile (fileName : string) : bool :=
  bool_decide (fileName ∈
    ["package.json"; "README.md"; "index.html"; "app.js"; "main.js";
     "index.js"; "App.jsx"; "App.tsx"])
  || JS.some (fun ext => JS.endsWith fileName ext)
       [".js"; ".jsx"; ".ts"; ".tsx"; ".vue"; ".svelte"].

(** [path.extname] on a bare name that does not begin with a dot (the
    scanner has skipped those): the part from the last dot on, or the
    empty string. *)
Fixpoint extname (s : string) : string :=
  match s with
  | EmptyString => EmptyString
  | String c rest =>
      match extname rest with
      | EmptyString => if Ascii.eqb c "."%char then s else EmptyString
      | ext => ext
      end
  end.

(** The test that makes the scan skip an item of a directory listing. *)
Definition skipped (item : string) : bool :=
  JS.startsWith item "." || String.eqb item "node_modules"
  || String.eqb item ".git".

(** *** The file system and the manifest, as the analyzer sees them *)

(** What [fs.stat] resolves to. *)
Record Stat : Type := { isDirectory : bool; isFile : bool; st_size : N }.

(** The parsed manifest, a JSON object; absent members read [undefined]. *)
Record PackageJsonFile : Type := {
  pj_name : option string;
  pj_version : option string;
  pj_description : option string;
  pj_main : option string;
  pj_author : option string;
  pj_dependencies : option (gmap string string);
  pj_devDependencies : option (gmap string string);
  pj_scripts : option (list (string * ScriptValue))
}.

(** The functions of [fs-extra] the analyzer calls. The library is not
    part of the repository, so each may return or raise; the tree does
    not change while it is analysed. [fs_depthLimit] is the platform's
    bound on the length of a path, in directory levels: [readdir] fails
    below it, whatever the tree (cyclic links included). *)
Record FileSystem : Type := {
  fs_pathExists : string → result bool;
  fs_readJson : string → result PackageJsonFile;
  fs_readdir : string → result (list string);
  fs_stat : string → result Stat;
  fs_depthLimit : nat
}.

(** A sub-step of the analysis mutates the shared [analysis] object. *)
Abbreviation Step := (Eff Analysis).

Section Analyzer.

Variable fs : FileSystem.
(** [new Date().toISOString()] at the start of the analysis *)
Variable now : string.

Definition analyzePackageJson (repoPath : string) : Step unit :=
  let packageJsonPath := JS.path_join repoPath "package.json" in
  present ← await (fs_pathExists fs packageJsonPath);
  if (present : bool) then
    try_catch
      (pj ← await (fs_readJson fs packageJsonPath);
       assign (set_hasPackageJson true) ;;
       assign (set_dependencies (default ∅ (pj_dependencies pj))) ;;
       assign (set_devDependencies (default ∅ (pj_devDependencies pj))) ;;
       assign (set_scripts (Some (default [] (pj_scripts pj)))) ;;
       assign (set_packageJson (Some
         {| pm_name := pj_name pj; pm_version := pj_version pj;
            pm_description := pj_description pj; pm_main := pj_main pj;
            pm_author := pj_author pj |})))
      (fun _ => mret tt)
  else mret tt.

(** [items.includes(w)] on an array, for a string [w]: some element is
    that string. *)
Definition array_includes (items : list ScriptValue) (w : string) : bool :=
  JS.some (fun item =>
             match item with
             | CmdString s => String.eqb s w
             | _ => false
             end) items.

(** [expr.includes(w)], where the variable [expr] holds [command]:
    strings and arrays have the method. *)
Definition cmd_includes (expr : string) (command : ScriptValue) (w : string)
  : result bool :=
  match command with
  | CmdString s => Ok (JS.includes s w)
  | CmdArray items => Ok (array_includes items w)
  | CmdNull => Throw "Cannot read properties of null (reading 'includes')"
  | CmdOther => Throw (expr +:+ ".includes is not a function")
  end.

Definition executablePatterns : list string :=
  ["start"; "dev"; "serve"; "build"; "test"; "cypress"; "lint";
   "typecheck"; "storybook"; "compile"; "deploy"].

Definition canExecuteScript (command : ScriptValue) : result bool :=
  match command with
  | CmdString s =>
      Ok (JS.some (fun pattern => JS.includes (JS.toLowerCase s) pattern)
            executablePatterns)
  | CmdNull => Throw "Cannot read properties of null (reading 'toLowerCase')"
  | CmdArray _ | CmdOther => Throw "command.toLowerCase is not a function"
  end.

Definition getScriptType (scriptName : string) (command : ScriptValue)
  : result string :=
  t ← or_else (JS.includes scriptName "test") (cmd_includes "command" command "test");
  if (t : bool) then Ok "test" else
  t ← or_else (JS.includes scriptName "build") (cmd_includes "command" command "build");
  if (t : bool) then Ok "build" else
  t ← or_else (JS.includes scriptName "start") (cmd_includes "command" command "start");
  if (t : bool) then Ok "start" else
  t ← or_else (JS.includes scriptName "dev") (cmd_includes "command" command "dev");
  if (t : bool) then Ok "dev" else
  t ← or_else (JS.includes scriptName "cypress") (cmd_includes "command" command "cypress");
  if (t : bool) then Ok "cypress" else
  if JS.includes scriptName "lint" then Ok "lint" else Ok "other".

Fixpoint analyzeExecutableScripts (scripts : list (string * ScriptValue))
  : result (list (string * ExecutableScript)) :=
  match scripts with
  | [] => Ok []
  | (scriptName, scriptCommand) :: rest =>
      can ← canExecuteScript scriptCommand;
      ty ← getScriptType scriptName scriptCommand;
      executable ← analyzeExecutableScripts rest;
      Ok ((scriptName,
           {| es_command := scriptCommand; es_canExecute := can;
              es_type := ty |}) :: executable)
  end.

Definition testingLibs : list (string * string) :=
  [ ("cypress", "Cypress"); ("jest", "Jest"); ("mocha", "Mocha");
    ("jasmine", "Jasmine"); ("vitest", "Vitest");
    ("@testing-library/react", "Testing Library React");
    ("@testing-library/vue", "Testing Library Vue");
    ("@testing-library/angular", "Testing Library Angular");
    ("enzyme", "Enzyme"); ("puppeteer", "Puppeteer");
    ("playwright", "Playwright") ].

Definition detectTestingFrameworks (deps devDeps : gmap string string)
  : list string :=
  let allDeps := JS.spread2 deps devDeps in
  map snd (filter (fun entry => JS.truthy_at allDeps (fst entry) = true) testingLibs).

Definition analyzeInstalledDependencies (repoPath : string) : Step unit :=
  try_catch
    (let nodeModulesPath := JS.path_join repoPath "node_modules" in
     present ← await (fs_pathExists fs nodeModulesPath);
     if negb present then assign (set_dependenciesInstalled false)
     else
       assign (set_dependenciesInstalled true) ;;
       cypress ← await (fs_pathExists fs (JS.path_join nodeModulesPath "cypress"));
       assign (set_cypressInstalled cypress) ;;
       a ← current;
       match scripts a with
       | Some sc =>
           executable ← await (analyzeExecutableScripts sc);
           assign (set_executableScripts executable)
       | None => mret tt
       end ;;
       a ← current;
       assign (set_testingFrameworks
                 (Some (detectTestingFrameworks (dependencies a) (devDependencies a)))))
    (fun _ => assign (set_dependenciesInstalled false)).

(** The body of the loop of [analyzeProjectStructure] for one [item] of
    the listing: the entries it pushes. [recurse] is the recursive call.
    A failing [stat] skips the item. *)
Definition scan_item (recurse : string → nat → list StructureEntry)
  (repoPath currentPath : string) (depth : nat) (item : string)
  : list StructureEntry :=
  if skipped item then []
  else
    let itemPath := JS.path_join currentPath item in
    let fullItemPath := JS.path_join repoPath itemPath in
    match fs_stat fs fullItemPath with
    | Throw _ => []
    | Ok st =>
        if isDirectory st then
          DirectoryEntry itemPath depth (isImportantDirectory item)
          :: (if (depth <? 2) || isImportantDirectory item
              then recurse itemPath (depth + 1)
              else [])
        else if isFile st && (depth <=? 2) then
          [FileEntry itemPath (extname item) (st_size st) (isImportantFile item)]
        else []
    end.

(** The entries one call [analyzeProjectStructure(repoPath, analysis,
    currentPath, depth)] pushes, in the order it pushes them. The
    recursion of the source stops by itself at [depth > 3]; [fuel] counts
    the levels still to go. A failing [readdir] ends the call. *)
Fixpoint scan (fuel : nat) (repoPath currentPath : string) (depth : nat)
  : list StructureEntry :=
  match fuel with
  | O => []
  | S fuel' =>
      if 3 <? depth then []
      else
        match fs_readdir fs (JS.path_join repoPath currentPath) with
        | Throw _ => []
        | Ok items =>
            flat_map (scan_item (scan fuel' repoPath) repoPath currentPath depth)
              items
        end
  end.

(** Levels [depth], ..., 3 do work and level 4 returns at once. *)
Definition scan_fuel (depth : nat) : nat := 5 - depth.

Definition analyzeProjectStructure (repoPath currentPath : string) (depth : nat)
  : Step unit :=
  assign (fun a =>
    set_projectStructure
      (projectStructure a ++ scan (scan_fuel depth) repoPath currentPath depth) a).

Definition possibleEntries : list string :=
  ["index.html"; "src/index.js"; "src/main.js"; "src/index.ts";
   "public/index.html"; "app/index.html"; "src/App.js"; "src/App.tsx";
   "index.php"; "app.php"; "main.js"; "app.js"; "App.jsx"; "App.tsx";
   "src/main.ts"; "src/main.tsx"].

Definition findEntryPoints (repoPath : string) : Step unit :=
  for_of possibleEntries (fun entry =>
    present ← await (fs_pathExists fs (JS.path_join repoPath entry));
    if (present : bool) then
      assign (fun a =>
        set_entryPoints
          (entryPoints a ++ [{| ep_path := entry; ep_exists := true |}]) a)
    else mret tt).

Definition getTestType (filePath : string) : string :=
  if JS.includes filePath "cypress" then "e2e"
  else if JS.includes filePath ".test." || JS.includes filePath ".spec." then "unit"
  else if JS.includes filePath "e2e" then "e2e"
  else if JS.includes filePath "__tests__" then "unit"
  else "unknown".

Definition getTestFramework (filePath : string) : string :=
  if JS.includes filePath "cypress" then "Cypress"
  else if JS.includes filePath "jest" then "Jest"
  else if JS.includes filePath "mocha" then "Mocha"
  else if JS.includes filePath "vitest" then "Vitest"
  else "Unknown".

(** The "simple matching" of [globFind]. *)
Definition glob_matches (pattern item relativePath : string) : bool :=
  if JS.includes pattern "**" then
    let basePattern := JS.replace pattern "**/" "" in
    JS.includes relativePath (JS.replace basePattern "*" "")
  else JS.includes item (JS.replace pattern "*" "").

(** The inner [search] of [globFind]; [relative] is [dir] relative to the
    repository root. One [try] spans the whole listing: a failing [stat]
    abandons the rest of that directory. The walk is bounded only by the
    file system's own depth limit. *)
Fixpoint search (fuel : nat) (pattern dir relative : string) : list string :=
  match fuel with
  | O => []
  | S fuel' =>
      match fs_readdir fs dir with
      | Throw _ => []
      | Ok items =>
          (fix each (items : list string) : list string :=
             match items with
             | [] => []
             | item :: rest =>
                 if String.eqb item "node_modules" || String.eqb item ".git"
                 then each rest
                 else
                   let fullPath := JS.path_join dir item in
                   let relativePath := JS.path_join relative item in
                   match fs_stat fs fullPath with
                   | Throw _ => []
                   | Ok st =>
                       if isDirectory st then
                         search fuel' pattern fullPath relativePath ++ each rest
                       else if isFile st then
                         (if glob_matches pattern item relativePath
                          then [relativePath] else []) ++ each rest
                       else each rest
                   end
             end) items
      end
  end.

Definition globFind (repoPath pattern : string) : list string :=
  search (fs_depthLimit fs) pattern repoPath "".

Definition testPatterns : list string :=
  ["**/*.test.js"; "**/*.spec.js"; "**/*.test.ts"; "**/*.spec.ts";
   "cypress/e2e/**/*.js"; "cypress/e2e/**/*.ts";
   "tests/**/*.js"; "test/**/*.js"; "e2e/**/*.js";
   "**/__tests__/**/*.js"; "**/__tests__/**/*.ts"].

Definition findExistingTests (repoPath : string) : Step unit :=
  for_of testPatterns (fun pattern =>
    try_catch
      (let files := globFind repoPath pattern in
       assign (fun a =>
         set_testFiles
           (testFiles a ++
            map (fun file => {| tf_path := file; tf_type := getTestType file;
                                tf_framework := getTestFramework file |}) files)
           a))
      (fun _ => mret tt)).

Definition buildConfigs : list (string * string) :=
  [ ("webpack.config.js", "Webpack"); ("vite.config.js", "Vite");
    ("vite.config.ts", "Vite"); ("rollup.config.js", "Rollup");
    ("parcel.config.js", "Parcel"); ("angular.json", "Angular CLI");
    ("vue.config.js", "Vue CLI"); ("next.config.js", "Next.js");
    ("nuxt.config.js", "Nuxt.js"); ("svelte.config.js", "Svelte") ].

(** The predicate of the [filter] over the manifest's scripts. *)
Definition isBuildScript (name : string) (cmd : ScriptValue) : result bool :=
  or_else (JS.includes name "build")
    (w ← cmd_includes "cmd" cmd "webpack";
     v ← or_else w (cmd_includes "cmd" cmd "vite");
     or_else v (cmd_includes "cmd" cmd "rollup")).

Fixpoint filterBuildScripts (entries : list (string * ScriptValue))
  : result (list (string * ScriptValue)) :=
  match entries with
  | [] => Ok []
  | (name, cmd) :: rest =>
      keep ← isBuildScript name cmd;
      kept ← filterBuildScripts rest;
      Ok (if (keep : bool) then (name, cmd) :: kept else kept)
  end.

Definition analyzeBuildTools (repoPath : string) : Step unit :=
  assign (set_buildTools []) ;;
  for_of buildConfigs (fun '(configFile, toolName) =>
    present ← await (fs_pathExists fs (JS.path_join repoPath configFile));
    if (present : bool) then
      assign (fun a =>
        set_buildTools
          (buildTools a ++ [{| bt_name := toolName; bt_configFile := configFile |}])
          a)
    else mret tt) ;;
  a ← current;
  match scripts a with
  | Some sc =>
      buildScripts ← await (filterBuildScripts sc);
      if 0 <? length buildScripts
      then assign (set_buildScripts (Some buildScripts))
      else mret tt
  | None => mret tt
  end.

(** The object literal [deepAnalysis] starts from. *)
Definition initialAnalysis : Analysis :=
  {| projectType := "unknown"; framework := "none"; hasPackageJson := false;
     dependencies := ∅; devDependencies := ∅;
     dependenciesInstalled := false; cypressInstalled := false;
     projectStructure := []; entryPoints := []; testFiles := [];
     buildTools := []; executableScripts := []; analysisDate := now;
     scripts := None; packageJson := None; testingFrameworks := None;
     buildScripts := None |}.

(** The body of the [try] block of [deepAnalysis]. *)
Definition deepAnalysis_body (repoPath : string) : Step Analysis :=
  analyzePackageJson repoPath ;;
  analyzeInstalledDependencies repoPath ;;
  analyzeProjectStructure repoPath "" 0 ;;
  assign detectFrameworkAndType ;;
  findEntryPoints repoPath ;;
  findExistingTests repoPath ;;
  analyzeBuildTools repoPath ;;
  current.

(** The seven sub-steps of that body, in the order they run. *)
Definition deepAnalysis_steps (repoPath : string) : list (Step unit) :=
  [ analyzePackageJson repoPath;
    analyzeInstalledDependencies repoPath;
    analyzeProjectStructure repoPath "" 0;
    assign detectFrameworkAndType;
    findEntryPoints repoPath;
    findExistingTests repoPath;
    analyzeBuildTools repoPath ].

(** [deepAnalysis(repoPath)]: what the call returns or raises. *)
Definition deepAnalysis (repoPath : string) : result Analysis :=
  snd (try_catch (deepAnalysis_body repoPath) (fun _ => current) initialAnalysis).

End Analyzer.

End ProjectAnalyzer.

(** ** Test Spec Generator (TestSpecGenerator.js) *)

Module TestSpecGenerator.

(** [this.specTemplates] *)
Definition basic : string :=
"describe('Template Básico', () => {
  beforeEach(() => {
    cy.visit('/')
  })

  it('debería cargar la página principal', () => {
    cy.contains('Bienvenido').should('be.visible')
  })

  it('debería tener el título correcto', () => {
    cy.title().should('not.be.empty')
  })
})".

Definition navigation : string :=
"describe('Navegación', () => {
  beforeEach(() => {
    cy.visit('/')
  })

  it('debería navegar entre páginas', () => {
    cy.get('nav a').first().click()
    cy.url().should('include', '/nueva-pagina')
  })

  it('debería mantener el estado de navegación', () => {
    // Test de navegación compleja
  })
})".

Definition forms : string :=
"describe('Formularios', () => {
  beforeEach(() => {
    cy.visit('/formulario')
  })

  it('debería enviar el formulario correctamente', () => {
    cy.get('#nombre').type('Usuario de Prueba')
    cy.get('#email').type('test@example.com')
    cy.get('form').submit()
    cy.contains('Éxito').should('be.visible')
  })

  it('debería mostrar errores de validación', () => {
    cy.get('form').submit()
    cy.contains('Campo requerido').should('be.visible')
  })
})".

Definition api : string :=
"describe('API Calls', () => {
  it('debería hacer llamadas API exitosas', () => {
    cy.intercept('GET', '/api/data').as('getData')
    cy.visit('/')
    cy.wait('@getData').its('response.statusCode').should('eq', 200)
  })

  it('debería manejar errores de API', () => {
    cy.intercept('GET', '/api/data', { statusCode: 500 }).as('serverError')
    cy.visit('/')
    cy.wait('@serverError')
    cy.contains('Error del servidor').should('be.visible')
  })
})".

Record GeneratedSpec : Type := {
  gs_name : string;
  gs_type : option string;      (* [None] is [undefined] *)
  gs_content : string;
  gs_path : string
}.

Definition templateMap : list (string * string) :=
  [ ("component-testing", basic); ("navigation-testing", navigation);
    ("form-testing", forms); ("api-testing", api);
    ("user-interactions", basic); ("state-changes", basic);
    ("default", basic) ].

(** A value used as a property key or inside a template literal. *)
Definition type_string (specType : option string) : string :=
  default "undefined" specType.

(** What a lookup in [templateMap] can give: one of the template
    strings, or a member every object inherits. *)
Inductive Template : Type :=
| Text (s : string)
| InheritedMember (key : string).

(** [templateMap[specType] || templateMap.default]: the templates are
    non-empty strings, and an inherited member is truthy as well. *)
Definition getBaseTemplate (specType : option string) : Template :=
  match JS.member (type_string specType) templateMap with
  | JS.Own template => Text template
  | JS.Inherited key => InheritedMember key
  | JS.Undefined => Text basic
  end.

(** [customized.replace(pattern, replacement)]: a method of strings. *)
Definition template_replace (customized : Template) (pattern replacement : string)
  : result Template :=
  match customized with
  | Text s => Ok (Text (JS.replace s pattern replacement))
  | InheritedMember _ => Throw "customized.replace is not a function"
  end.

(** [comment + customized]: what is appended to the comment. *)
Definition template_string (customized : Template) : string :=
  match customized with
  | Text s => s
  | InheritedMember key => JS.inherited_string key
  end.

Definition newline : string := String "010"%char EmptyString.

Section Generator.

(** [new Date().toISOString()] while the spec of a given index is built *)
Variable clock : nat → string.

Definition customizeTemplate (template : Template) (a : Analysis)
  (specType : option string) (index : nat) : result string :=
  customized ←
    (if String.eqb (framework a) "react"
     then template_replace template "Bienvenido" "React App"
     else if String.eqb (framework a) "vue"
     then template_replace template "Bienvenido" "Vue App"
     else if String.eqb (framework a) "angular"
     then template_replace template "Bienvenido" "Angular App"
     else Ok template);
  let comment :=
    "// Spec generado automáticamente por Cypress Autonomous Agent" +:+ newline
    +:+ "// Tipo: " +:+ type_string specType +:+ newline
    +:+ "// Framework: " +:+ framework a +:+ newline
    +:+ "// Proyecto: " +:+ projectType a +:+ newline
    +:+ "// Fecha: " +:+ clock index +:+ newline
    +:+ newline in
  Ok (comment +:+ template_string customized).

Definition generateSpecContent (specType : option string) (a : Analysis)
  (index : nat) : result string :=
  let baseTemplate := getBaseTemplate specType in
  customizeTemplate baseTemplate a specType index.

(** [availableTypes[index % availableTypes.length]]. On an empty list
    the remainder is [NaN] and the read is [undefined]; [Nat.modulo]
    by zero returns [index], out of range as well. *)
Definition selectSpecType (s : TestStrategy.Strategy) (index : nat)
  : option string :=
  let availableTypes := TestStrategy.testPatterns s in
  let typeIndex := index mod length availableTypes in
  availableTypes !! typeIndex.

(** The body of the loop of [generateTestSpecs] at index [i]: the spec
    it pushes, unless building the content raises. *)
Definition generateSpec (a : Analysis) (s : TestStrategy.Strategy) (i : nat)
  : result GeneratedSpec :=
  let specType := selectSpecType s i in
  specContent ← generateSpecContent specType a i;
  Ok {| gs_name := "generated-spec-" +:+ pretty (i + 1) +:+ ".cy.js";
        gs_type := specType;
        gs_content := specContent;
        gs_path := "cypress/e2e/generated-spec-" +:+ pretty (i + 1) +:+ ".cy.js" |}.

(** [for (let i = start; i < specCount; i++) specs.push(...)], with
    [count] iterations left. *)
Fixpoint generateLoop (a : Analysis) (s : TestStrategy.Strategy)
  (start count : nat) (specs : list GeneratedSpec)
  : result (list GeneratedSpec) :=
  match count with
  | O => Ok specs
  | S count' =>
      spec ← generateSpec a s start;
      generateLoop a s (S start) count' (specs ++ [spec])
  end.

Definition generateTestSpecs (a : Analysis) (s : TestStrategy.Strategy)
  : result (list GeneratedSpec) :=
  let specCount := TestStrategy.recommendedSpecs s in
  generateLoop a s 0 (Z.to_nat specCount) [].

End Generator.

(** [summary.specTypes[spec.type] = (summary.specTypes[spec.type] || 0) + 1] *)
Definition count_type (specTypes : list (string * Z)) (t : string)
  : list (string * Z) :=
  match JS.assoc t specTypes with
  | Some _ => map (fun kv => if String.eqb (fst kv) t then (t, snd kv + 1)%Z else kv) specTypes
  | None => specTypes ++ [(t, 1%Z)]
  end.

Record SpecSummary : Type := {
  totalSpecs : Z;
  specTypes : list (string * Z);
  estimatedExecutionTime : Z;
  sum_focusAreas : list string
}.

Definition generateSpecSummary (specs : list GeneratedSpec)
  (s : TestStrategy.Strategy) : SpecSummary :=
  {| totalSpecs := Z.of_nat (length specs);
     specTypes :=
       fold_left (fun acc spec => count_type acc (type_string (gs_type spec)))
         specs [];
     estimatedExecutionTime := Z.of_nat (length specs) * 30;
     sum_focusAreas := TestStrategy.focusAreas s |}.

End TestSpecGenerator.

(** ** Pipeline Controller (class CypressAutonomousAgent) *)

Module Agent.

(** What [githubHandler.cloneAndAnalyze] resolves to. *)
Inductive CloneResult : Type :=
| Cloned (repoPath repoName : string) (dependenciesInstalled : bool)
| CloneFailed (error : string).

Section Controller.

(** The state of the machine the agent runs on. *)
Variable World : Type.
(** The record [githubHandler.checkCypressSetup] resolves to. *)
Variable CypressCheck : Type.

(** The collaborators and library calls of the controller; each may
    change the world and may raise. *)
Variable cloneAndAnalyze : string → Eff World CloneResult.
Variable checkCypressSetup : string → Eff World CypressCheck.
Variable ensureDir : string → Eff World unit.
Variable writeFile : string → string → Eff World unit.
Variable remove : string → Eff World unit.

(** The file system and the clock as a world shows them. *)
Variable fileSystem : World → ProjectAnalyzer.FileSystem.
Variable now : World → string.
Variable specClock : World → nat → string.

(** [this.tempDir] and [this.outputDir] *)
Variable tempDir : string.
Variable outputDir : string.

Record Report : Type := {
  repository : string;
  analysis : Analysis;
  cypressCheck : CypressCheck;
  strategy : TestStrategy.Strategy;
  generatedSpecs : list TestSpecGenerator.GeneratedSpec;
  specSummary : TestSpecGenerator.SpecSummary;
  specsSaved : bool;
  outputPath : string;
  r_tempPath : option string;
  timestamp : string
}.

(** The envelope [processRepository] resolves to: [success: true] with
    the report, or [success: false] with the error message. *)
Inductive Envelope : Type :=
| Success (report : Report)
| Failure (error : string) (repository : string).

(** The [try] block of [saveSpecsToDisk]: create the directory, write
    every spec, report success. *)
Definition writeSpecs (specs : list TestSpecGenerator.GeneratedSpec)
  (outputPath : string) : Eff World bool :=
  ensureDir outputPath ;;
  for_of specs (fun spec =>
    let specPath := JS.path_join outputPath (TestSpecGenerator.gs_name spec) in
    writeFile specPath (TestSpecGenerator.gs_content spec)) ;;
  mret true.

(** [TestSpecGenerator.saveSpecsToDisk(specs, outputPath)] *)
Definition saveSpecsToDisk (specs : list TestSpecGenerator.GeneratedSpec)
  (outputPath : string) : Eff World bool :=
  try_catch (writeSpecs specs outputPath) (fun _ => mret false).

(** [cleanup(tempPath)]; the argument is [null] or a string. *)
Definition cleanup (tempPath : option string) : Eff World unit :=
  try_catch
    (match tempPath with
     | Some p =>
         if JS.truthy p && JS.startsWith p tempDir then remove p else mret tt
     | None => mret tt
     end)
    (fun _ => mret tt).

(** The local variables of one call of [processRepository] next to the
    world. *)
Record Frame : Type := { world : World; tempPath : option string }.

Definition in_world {A} (m : Eff World A) : Eff Frame A :=
  fun f =>
    let '(w, r) := m (world f) in
    ({| world := w; tempPath := tempPath f |}, r).

Definition set_tempPath (p : option string) : Eff Frame unit :=
  assign (fun f => {| world := world f; tempPath := p |}).

Definition processRepository_try (githubUrl : string) : Eff Frame Envelope :=
  cloneResult ← in_world (cloneAndAnalyze githubUrl);
  match cloneResult with
  | CloneFailed error => throw ("Error clonando: " +:+ error)
  | Cloned repoPath repoName _ =>
      set_tempPath (Some repoPath) ;;
      f ← current;
      analysis ← await (ProjectAnalyzer.deepAnalysis
                          (fileSystem (world f)) (now (world f)) repoPath);
      cypressCheck ← in_world (checkCypressSetup repoPath);
      strategy ← await (TestStrategy.generateStrategy analysis);
      f ← current;
      generatedSpecs ←
        await (TestSpecGenerator.generateTestSpecs (specClock (world f))
                 analysis strategy);
      specsSaved ← in_world (saveSpecsToDisk generatedSpecs outputDir);
      let specSummary :=
        TestSpecGenerator.generateSpecSummary generatedSpecs strategy in
      f ← current;
      mret (Success
        {| repository := githubUrl; analysis := analysis;
           cypressCheck := cypressCheck; strategy := strategy;
           generatedSpecs := generatedSpecs; specSummary := specSummary;
           specsSaved := specsSaved; outputPath := outputDir;
           r_tempPath := tempPath f; timestamp := now (world f) |})
  end.

Definition processRepository_catch (githubUrl error : string)
  : Eff Frame Envelope :=
  f ← current;
  match tempPath f with
  | Some p => if JS.truthy p then in_world (cleanup (Some p)) else mret tt
  | None => mret tt
  end ;;
  mret (Failure error githubUrl).

(** [processRepository(githubUrl)]: the world it leaves and what it
    resolves to or raises. *)
Definition processRepository (githubUrl : string) : Eff World Envelope :=
  fun w =>
    let '(f, r) :=
      try_catch (processRepository_try githubUrl)
        (processRepository_catch githubUrl)
        {| world := w; tempPath := None |} in
    (world f, r).

End Controller.

End Agent.

(** ** The spec-count formula in IEEE doubles

    The same expression evaluated in binary64, to compare the rational
    embedding with. *)

Module Doubles.

Import PrimFloat.

Definition of_nat (n : nat) : PrimFloat.float :=
  PrimFloat.of_uint63 (Uint63.of_Z (Z.of_nat n)).

(** [Math.min] on two numbers *)
Definition min (x y : PrimFloat.float) : PrimFloat.float :=
  if PrimFloat.ltb y x then y else x.

(** [baseCount + structureMultiplier + entryPointsBonus] for the given
    lengths of [projectStructure] and [entryPoints] *)
Definition spec_count_value (len eps : nat) : PrimFloat.float :=
  PrimFloat.add
    (PrimFloat.add 3%float (min (PrimFloat.div (of_nat len) 50%float) 3%float))
    (PrimFloat.mul (of_nat eps) 0.5%float).

(** [Math.floor(x)] is the integer [r]: [r <= x < r + 1]. *)
Definition floor_is (x : PrimFloat.float) (r : nat) : bool :=
  PrimFloat.leb (of_nat r) x && PrimFloat.ltb x (of_nat (r + 1)).

End Doubles.

(** ** Notions the properties are stated with *)

(** The combined dependency map [{ ...dependencies, ...devDependencies }]
    of an Analysis. *)
Definition combined (a : Analysis) : gmap string string :=
  JS.spread2 (dependencies a) (devDependencies a).

(** An indicator list intersects a map when one of its packages is a key
    of the map, whatever version the key maps to. *)
Definition intersects (indicators : list string) (m : gmap string string)
  : Prop :=
  ∃ indicator, indicator ∈ indicators ∧ is_Some (m !! indicator).

(** The indicator list of a framework in [frameworkIndicators]. *)
Definition indicators_of (fw : string) : list string :=
  default [] (JS.assoc fw ProjectAnalyzer.frameworkIndicators).

(** *** Concrete inputs the properties are exercised on *)

Definition sampleDate : string := "2024-01-01T00:00:00.000Z".

(** The record [deepAnalysis] starts from, nothing detected yet. *)
Definition bareAnalysis : Analysis := ProjectAnalyzer.initialAnalysis sampleDate.

(** A manifest that declares react with an empty version string. *)
Definition emptyVersionReact : Analysis :=
  set_dependencies {[ "react" := "" ]} bareAnalysis.

(** A manifest that declares vue and, among the dev-dependencies, jquery. *)
Definition vueAndJquery : Analysis :=
  set_devDependencies {[ "jquery" := "^3.7.0" ]}
    (set_dependencies {[ "vue" := "^3.4.0" ]} bareAnalysis).

(** A react project with one entry point and 25 structure entries, none
    of them named after forms, authentication or an API. *)
Definition reactWith25Entries : Analysis :=
  set_entryPoints [{| ep_path := "index.html"; ep_exists := true |}]
    (set_projectStructure (replicate 25 (FileEntry "main.css" ".css" 120 false))
       (set_dependencies {[ "react" := "^18.0.0" ]} bareAnalysis)).

(** The same manifest with three structure entries. *)
Definition smallReactProject : Analysis :=
  set_entryPoints [{| ep_path := "index.html"; ep_exists := true |}]
    (set_projectStructure
       [ DirectoryEntry "src" 0 true;
         FileEntry "src/App.jsx" ".jsx" 640 true;
         FileEntry "index.html" ".html" 312 true ]
       (set_dependencies {[ "react" := "^18.0.0" ]} bareAnalysis)).

(** react declared as a dependency and, with an empty version, again as a
    dev-dependency: the later spread wins. *)
Definition shadowedReact : Analysis :=
  set_devDependencies {[ "react" := "" ]} smallReactProject.

(** An Analysis whose framework is outside the profile table. *)
Definition svelteProject : Analysis :=
  set_framework "svelte" (set_dependencies {[ "svelte" := "^4.0.0" ]} bareAnalysis).

(** A strategy with two patterns to share among five specs. *)
Definition twoPatternStrategy : TestStrategy.Strategy :=
  {| TestStrategy.name := "Traditional Web App Strategy";
     TestStrategy.priority := []; TestStrategy.selectors := [];
     TestStrategy.patterns := ["navigation-testing"; "form-testing"];
     TestStrategy.s_projectType := "Unknown Project Type";
     TestStrategy.s_framework := "traditional";
     TestStrategy.recommendedSpecs := 5;
     TestStrategy.focusAreas := ["smoke-testing"; "critical-flows"];
     TestStrategy.testPatterns := ["navigation-testing"; "form-testing"];
     TestStrategy.selectorStrategy := [] |}.

Definition sampleClock (i : nat) : string := sampleDate.

(** Whether [customizeTemplate] calls [replace] on the template. *)
Definition replaces (a : Analysis) : bool :=
  String.eqb (framework a) "react" || String.eqb (framework a) "vue"
  || String.eqb (framework a) "angular".

(** The tag of a spec type finds an inherited member instead of a
    template. *)
Definition inherited_tag (specType : option string) : bool :=
  bool_decide (TestSpecGenerator.type_string specType ∈ JS.objectPrototypeProps).

(** The relative path made of the given directory and file names. *)
Definition join_segments (segs : list string) : string :=
  fold_left JS.path_join segs "".

(** A name some directory listing of the file system holds. *)
Definition listed (fs : ProjectAnalyzer.FileSystem) (name : string) : Prop :=
  ∃ dir items, ProjectAnalyzer.fs_readdir fs dir = Ok items ∧ name ∈ items.

(** The names [segs] lead down the tree from the repository root: each
    is an item of the listing of the directory the names before it lead
    to, which for the first name is the root itself. *)
Definition leads_down (fs : ProjectAnalyzer.FileSystem) (repoPath : string)
  (pre segs : list string) : Prop :=
  ∀ j name, segs !! j = Some name →
    ∃ items,
      ProjectAnalyzer.fs_readdir fs
        (JS.path_join repoPath (join_segments (pre ++ take j segs)))
      = Ok items
      ∧ name ∈ items.

(** An entry records what [stat] answered for its path: a directory, or
    a file and its size. *)
Definition recorded_from (e : StructureEntry) (st : ProjectAnalyzer.Stat)
  : Prop :=
  match e with
  | DirectoryEntry _ _ _ => ProjectAnalyzer.isDirectory st = true
  | FileEntry _ _ size _ =>
      ProjectAnalyzer.isDirectory st = false
      ∧ ProjectAnalyzer.isFile st = true
      ∧ size = ProjectAnalyzer.st_size st
  end.

(** A proper file name: not empty, no separator inside. *)
Definition proper_name (name : string) : Prop :=
  name ≠ "" ∧ JS.includes name "/" = false.

(** A name the structural scan does not skip. *)
Definition allowed_segment (seg : string) : Prop :=
  seg ≠ "node_modules" ∧ seg ≠ ".git" ∧ JS.startsWith seg "." = false.

(** A small repository: [src/components/pages] is an important directory
    two levels down, [docs/guides/setup] is not. *)
Definition sampleListings : list (string * list string) :=
  [ ("/repo", [".git"; "node_modules"; "package.json"; "src"; "docs"]);
    ("/repo/src", ["components"; "index.js"]);
    ("/repo/src/components", ["pages"; "forms"]);
    ("/repo/src/components/pages", ["admin"; "Home.jsx"]);
    ("/repo/src/components/pages/admin", ["users"]);
    ("/repo/src/components/forms", ["Login.tsx"]);
    ("/repo/docs", ["guides"]);
    ("/repo/docs/guides", ["setup"]);
    ("/repo/docs/guides/setup", ["linux"]);
    ("/repo/.git", ["HEAD"]);
    ("/repo/node_modules", ["react"]) ].

Definition sampleFiles : list (string * N) :=
  [ ("/repo/package.json", 412%N); ("/repo/src/index.js", 230%N);
    ("/repo/src/components/pages/Home.jsx", 1024%N);
    ("/repo/src/components/forms/Login.tsx", 2048%N);
    ("/repo/.git/HEAD", 23%N) ].

Definition sampleManifest : ProjectAnalyzer.PackageJsonFile :=
  {| ProjectAnalyzer.pj_name := Some "sample";
     ProjectAnalyzer.pj_version := Some "1.0.0";
     ProjectAnalyzer.pj_description := None;
     ProjectAnalyzer.pj_main := None;
     ProjectAnalyzer.pj_author := None;
     ProjectAnalyzer.pj_dependencies := Some {[ "react" := "^18.0.0" ]};
     ProjectAnalyzer.pj_devDependencies := None;
     ProjectAnalyzer.pj_scripts :=
       Some [ ("build", CmdString "vite build"); ("postinstall", CmdOther) ] |}.

Definition sampleFs : ProjectAnalyzer.FileSystem :=
  {| ProjectAnalyzer.fs_pathExists := fun p =>
       Ok (bool_decide (is_Some (JS.assoc p sampleListings))
           || bool_decide (is_Some (JS.assoc p sampleFiles)));
     ProjectAnalyzer.fs_readJson := fun p =>
       if String.eqb p "/repo/package.json" then Ok sampleManifest
       else Throw "ENOENT";
     ProjectAnalyzer.fs_readdir := fun p =>
       match JS.assoc p sampleListings with
       | Some items => Ok items
       | None => Throw "ENOENT"
       end;
     ProjectAnalyzer.fs_stat := fun p =>
       match JS.assoc p sampleListings, JS.assoc p sampleFiles with
       | Some _, _ =>
           Ok {| ProjectAnalyzer.isDirectory := true;
                 ProjectAnalyzer.isFile := false;
                 ProjectAnalyzer.st_size := 4096 |}
       | None, Some size =>
           Ok {| ProjectAnalyzer.isDirectory := false;
                 ProjectAnalyzer.isFile := true;
                 ProjectAnalyzer.st_size := size |}
       | None, None => Throw "ENOENT"
       end;
     ProjectAnalyzer.fs_depthLimit := 64 |}.

(** The walk of [globFind] from [dir] ends within [h] levels: below
    them [readdir] fails (the path is no directory, or too long). *)
Fixpoint walk_fits (fs : ProjectAnalyzer.FileSystem) (h : nat) (dir : string)
  : bool :=
  match ProjectAnalyzer.fs_readdir fs dir, h with
  | Throw _, _ => true
  | Ok _, O => false
  | Ok items, S h' =>
      forallb (fun item => walk_fits fs h' (JS.path_join dir item)) items
  end.

(** What the scan guarantees of an entry found below the directory
    [pre] at [depth]: the names [rest] that lead to it from there. *)
Definition scan_entry_ok (fs : ProjectAnalyzer.FileSystem)
  (listing : list StructureEntry) (pre : list string)
  (depth : nat) (e : StructureEntry) (rest : list string) : Prop :=
  rest ≠ []
  ∧ entry_path e = join_segments (pre ++ rest)
  ∧ Forall (listed fs) rest
  ∧ Forall allowed_segment rest
  ∧ depth + (length rest - 1) ≤ 3
  ∧ match e with
    | FileEntry _ _ _ _ => depth + (length rest - 1) ≤ 2
    | DirectoryEntry _ d _ => d = depth + (length rest - 1)
    end
  ∧ ∀ j name, S j < length rest → 2 ≤ depth + j → rest !! j = Some name →
      ProjectAnalyzer.isImportantDirectory name = true
      ∧ DirectoryEntry (join_segments (pre ++ take (S j) rest)) (depth + j) true
        ∈ listing.

(** *** Which sub-step of the analysis fills which fields

    The fields a sub-step leaves for later ones hold the values of the
    initial object literal until their sub-step runs. *)

Definition installed_pending (a : Analysis) : Prop :=
  dependenciesInstalled a = false ∧ cypressInstalled a = false
  ∧ executableScripts a = [] ∧ testingFrameworks a = None.

Definition structure_pending (a : Analysis) : Prop := projectStructure a = [].

Definition detection_pending (a : Analysis) : Prop :=
  framework a = "none" ∧ projectType a = "unknown".

Definition entries_pending (a : Analysis) : Prop := entryPoints a = [].

Definition tests_pending (a : Analysis) : Prop := testFiles a = [].

Definition build_pending (a : Analysis) : Prop :=
  buildTools a = [] ∧ buildScripts a = None.

(** The fields of every sub-step after the [k]-th (counted from 0) still
    hold their defaults. *)
Definition pending_after (k : nat) (a : Analysis) : Prop :=
  (k < 1 → installed_pending a)
  ∧ (k < 2 → structure_pending a)
  ∧ (k < 3 → detection_pending a)
  ∧ (k < 4 → entries_pending a)
  ∧ (k < 5 → tests_pending a)
  ∧ (k < 6 → build_pending a).

(** A computation keeps a property of the state, however it ends. *)
Definition preserves {S A} (P : S → Prop) (m : Eff S A) : Prop :=
  ∀ s, P s → P (m s).1.

(** Running the sub-steps of a list one after the other. *)
Definition run_steps {S} (steps : list (Eff S unit)) : Eff S unit :=
  for_of steps (fun step => step).

(** *** A machine to run the controller on *)

(** The directories and files on disk, and whether the disk is full. *)
Record SimWorld : Type := {
  sim_dirs : list string;
  sim_files : list (string * string);
  sim_diskFull : bool
}.

Definition simTempDir : string := "/work/temp-repos".
Definition simOutputDir : string := "/work/generated-specs".
Definition simRepoPath : string := "/work/temp-repos/demo-app-1700000000000".

(** Cloning always succeeds and creates the repository directory. *)
Definition sim_cloneAndAnalyze (githubUrl : string) : Eff SimWorld Agent.CloneResult :=
  fun w =>
    ({| sim_dirs := simRepoPath :: sim_dirs w; sim_files := sim_files w;
        sim_diskFull := sim_diskFull w |},
     Ok (Agent.Cloned simRepoPath "demo-app-1700000000000" false)).

Definition sim_checkCypressSetup (repoPath : string) : Eff SimWorld unit :=
  fun w => (w, Ok tt).

Definition sim_ensureDir (p : string) : Eff SimWorld unit :=
  fun w =>
    ({| sim_dirs := p :: sim_dirs w; sim_files := sim_files w;
        sim_diskFull := sim_diskFull w |}, Ok tt).

(** Writing raises on a full disk. *)
Definition sim_writeFile (p content : string) : Eff SimWorld unit :=
  fun w =>
    if sim_diskFull w then (w, Throw "ENOSPC: no space left on device")
    else ({| sim_dirs := sim_dirs w; sim_files := (p, content) :: sim_files w;
             sim_diskFull := sim_diskFull w |}, Ok tt).

Definition sim_remove (p : string) : Eff SimWorld unit :=
  fun w =>
    ({| sim_dirs := filter (fun d => d ≠ p) (sim_dirs w);
        sim_files := sim_files w; sim_diskFull := sim_diskFull w |}, Ok tt).

(** Removal that always fails. *)
Definition sim_remove_denied (p : string) : Eff SimWorld unit :=
  fun w => (w, Throw "EACCES: permission denied").

Definition fullDisk : SimWorld :=
  {| sim_dirs := ["/work"; "/work/temp-repos"]; sim_files := [];
     sim_diskFull := true |}.

Definition sim_processRepository : string → Eff SimWorld (Agent.Envelope unit) :=
  Agent.processRepository SimWorld unit sim_cloneAndAnalyze
    sim_checkCypressSetup sim_ensureDir sim_writeFile sim_remove
    (fun _ => sampleFs) (fun _ => sampleDate) (fun _ _ => sampleDate)
    simTempDir simOutputDir.

(** One run on the full disk, stage by stage. *)
Definition demoUrl : string := "https://github.com/demo/app".

Definition afterClone : SimWorld := (sim_cloneAndAnalyze demoUrl fullDisk).1.

Definition demoAnalysis : Analysis :=
  (ProjectAnalyzer.deepAnalysis_body sampleFs simRepoPath
     (ProjectAnalyzer.initialAnalysis sampleDate)).1.

(** What a computation returned, [d] when it raised. *)
Definition returned {A} (d : A) (r : result A) : A :=
  match r with
  | Ok x => x
  | Throw _ => d
  end.

Definition demoStrategy : TestStrategy.Strategy :=
  TestStrategy.customStrategy TestStrategy.traditional demoAnalysis.

Definition demoSpecs : list TestSpecGenerator.GeneratedSpec :=
  returned []
    (TestSpecGenerator.generateTestSpecs (fun _ => sampleDate) demoAnalysis
       demoStrategy).

Definition afterWrite : SimWorld :=
  (Agent.writeSpecs SimWorld sim_ensureDir sim_writeFile demoSpecs
     simOutputDir afterClone).1.

(** ** Regular expressions of the sources

    The backtracking matcher of ECMAScript in continuation-passing
    style, as the language specification defines it: a matcher is given
    the input that is left and a continuation; the continuation is given
    the input left after the match and answers the final result, or
    fails, which makes the matcher try its next alternative. The result
    is the text of capture group 1. *)

Module RegExp.

Definition Continuation : Type := string → option string.
Definition Matcher : Type := string → Continuation → option string.

(** One given character. *)
Definition char (c : ascii) : Matcher := fun s k =>
  match s with
  | String d rest => if Ascii.eqb c d then k rest else None
  | EmptyString => None
  end.

(** A sequence of given characters. *)
Fixpoint literal (lit : string) : Matcher :=
  match lit with
  | EmptyString => fun s k => k s
  | String c rest => fun s k => char c s (fun s' => literal rest s' k)
  end.

(** One character of a class. *)
Definition class (p : ascii → bool) : Matcher := fun s k =>
  match s with
  | String d rest => if p d then k rest else None
  | EmptyString => None
  end.

(** [[class]*], greedy: as many characters as possible first. *)
Fixpoint star (p : ascii → bool) (s : string) (k : Continuation)
  : option string :=
  match s with
  | String d rest =>
      if p d then
        match star p rest k with
        | Some r => Some r
        | None => k s
        end
      else k s
  | EmptyString => k s
  end.

(** [[class]+] *)
Definition plus (p : ascii → bool) : Matcher := fun s k =>
  match s with
  | String d rest => if p d then star p rest k else None
  | EmptyString => None
  end.

(** [[class]*?], lazy: as few characters as possible first. *)
Fixpoint lazy_star (p : ascii → bool) (s : string) (k : Continuation)
  : option string :=
  match k s with
  | Some r => Some r
  | None =>
      match s with
      | String d rest => if p d then lazy_star p rest k else None
      | EmptyString => None
      end
  end.

(** [[class]+?] *)
Definition lazy_plus (p : ascii → bool) : Matcher := fun s k =>
  match s with
  | String d rest => if p d then lazy_star p rest k else None
  | EmptyString => None
  end.

(** [(?:m)?], greedy: with [m] first, then without. *)
Definition optional (m : Matcher) : Matcher := fun s k =>
  match m s k with
  | Some r => Some r
  | None => k s
  end.

(** [$] without the m flag *)
Definition end_of_input : Matcher := fun s k =>
  match s with
  | EmptyString => k s
  | String _ _ => None
  end.

(** The text matched between the input [s] and what was left of it,
    [rest]. *)
Definition consumed (s rest : string) : string :=
  String.substring 0 (String.length s - String.length rest) s.

(** [str.match(re)] without the g flag: the match at the leftmost start
    position that has one. *)
Fixpoint search (at_position : string → option string) (s : string)
  : option string :=
  match at_position s with
  | Some r => Some r
  | None =>
      match s with
      | String _ rest => search at_position rest
      | EmptyString => None
      end
  end.

End RegExp.

(** ** GitHub handler (class GitHubHandler) *)

Module GitHubHandler.

(** *** extractRepoName *)

Definition notSlash (c : ascii) : bool := negb (Ascii.eqb c "/"%char).

Definition slashOrColon (c : ascii) : bool :=
  Ascii.eqb c "/"%char || Ascii.eqb c ":"%char.

(** [([^\/]+\/[^\/]+?)(?:\.git)?$], the tail the two patterns share. *)
Definition ownerAndRepo (s0 : string) : option string :=
  RegExp.plus notSlash s0 (fun s1 =>
  RegExp.char "/" s1 (fun s2 =>
  RegExp.lazy_plus notSlash s2 (fun s3 =>
  RegExp.optional (RegExp.literal ".git") s3 (fun s4 =>
  RegExp.end_of_input s4 (fun _ => Some (RegExp.consumed s0 s3)))))).

(** [/github\.com[/:]([^\/]+\/[^\/]+?)(?:\.git)?$/] at a start position *)
Definition httpsPattern (s : string) : option string :=
  RegExp.literal "github.com" s (fun s' =>
  RegExp.class slashOrColon s' ownerAndRepo).

(** [/git@github\.com:([^\/]+\/[^\/]+?)(?:\.git)?$/] at a start position *)
Definition sshPattern (s : string) : option string :=
  RegExp.literal "git@github.com:" s ownerAndRepo.

Definition patterns : list (string → option string) :=
  [httpsPattern; sshPattern].

(** The loop over the patterns: capture group 1 of the first pattern
    that matches. *)
Fixpoint firstMatch (patterns : list (string → option string))
  (githubUrl : string) : option string :=
  match patterns with
  | [] => None
  | pattern :: rest =>
      match RegExp.search pattern githubUrl with
      | Some group1 => Some group1
      | None => firstMatch rest githubUrl
      end
  end.

(** [dateNow] is [Date.now()] as the string concatenation renders it. *)
Definition extractRepoName (githubUrl dateNow : string) : string :=
  match firstMatch patterns githubUrl with
  | Some group1 => JS.replace group1 "/" "-" +:+ "-" +:+ dateNow
  | None => "unknown-repo-" +:+ dateNow
  end.

(** *** checkCypressSetup *)

(** The [results] object; [None] is [null]. *)
Record Results : Type := {
  hasPackageJson : bool;
  hasCypressDependency : bool;
  hasCypressConfig : bool;
  cypressConfigPath : option string;
  scripts : list (string * ScriptValue)
}.

Definition set_hasPackageJson (v : bool) (r : Results) : Results :=
  {| hasPackageJson := v; hasCypressDependency := hasCypressDependency r;
     hasCypressConfig := hasCypressConfig r;
     cypressConfigPath := cypressConfigPath r; scripts := scripts r |}.

Definition set_hasCypressDependency (v : bool) (r : Results) : Results :=
  {| hasPackageJson := hasPackageJson r; hasCypressDependency := v;
     hasCypressConfig := hasCypressConfig r;
     cypressConfigPath := cypressConfigPath r; scripts := scripts r |}.

Definition set_hasCypressConfig (v : bool) (r : Results) : Results :=
  {| hasPackageJson := hasPackageJson r;
     hasCypressDependency := hasCypressDependency r; hasCypressConfig := v;
     cypressConfigPath := cypressConfigPath r; scripts := scripts r |}.

Definition set_cypressConfigPath (v : option string) (r : Results) : Results :=
  {| hasPackageJson := hasPackageJson r;
     hasCypressDependency := hasCypressDependency r;
     hasCypressConfig := hasCypressConfig r; cypressConfigPath := v;
     scripts := scripts r |}.

Definition set_scripts (v : list (string * ScriptValue)) (r : Results) : Results :=
  {| hasPackageJson := hasPackageJson r;
     hasCypressDependency := hasCypressDependency r;
     hasCypressConfig := hasCypressConfig r;
     cypressConfigPath := cypressConfigPath r; scripts := v |}.

(** What [checkCypressSetup] resolves to: the [results] object, or the
    literal of the [catch] block, whose three flags are false. *)
Inductive CypressCheck : Type :=
| Checked (results : Results)
| CheckFailed (error : string).

(** [cypressCheck.hasCypressDependency] *)
Definition check_hasCypressDependency (c : CypressCheck) : bool :=
  match c with
  | Checked results => hasCypressDependency results
  | CheckFailed _ => false
  end.

Definition cypressConfigPaths : list string :=
  ["cypress.config.js"; "cypress.config.ts"; "cypress.json"].

Definition initialResults : Results :=
  {| hasPackageJson := false; hasCypressDependency := false;
     hasCypressConfig := false; cypressConfigPath := None; scripts := [] |}.

Section Checking.

Variable fs : ProjectAnalyzer.FileSystem.

(** The loop over the configuration files, with its [break]. *)
Fixpoint findConfig (repoPath : string) (configPaths : list string)
  : Eff Results unit :=
  match configPaths with
  | [] => mret tt
  | configPath :: rest =>
      let fullPath := JS.path_join repoPath configPath in
      present ← await (ProjectAnalyzer.fs_pathExists fs fullPath);
      if (present : bool) then
        assign (set_hasCypressConfig true) ;;
        assign (set_cypressConfigPath (Some configPath))
      else findConfig repoPath rest
  end.

(** The body of the outer [try] block. *)
Definition checkCypressSetup_try (repoPath : string) : Eff Results unit :=
  let packageJsonPath := JS.path_join repoPath "package.json" in
  present ← await (ProjectAnalyzer.fs_pathExists fs packageJsonPath);
  (if (present : bool) then
     assign (set_hasPackageJson true) ;;
     try_catch
       (packageJson ← await (ProjectAnalyzer.fs_readJson fs packageJsonPath);
        let allDeps :=
          JS.spread2 (default ∅ (ProjectAnalyzer.pj_dependencies packageJson))
            (default ∅ (ProjectAnalyzer.pj_devDependencies packageJson)) in
        assign (set_hasCypressDependency (JS.truthy_at allDeps "cypress")) ;;
        assign (set_scripts
                  (default [] (ProjectAnalyzer.pj_scripts packageJson))))
       (fun _ => mret tt)
   else mret tt) ;;
  findConfig repoPath cypressConfigPaths.

(** [checkCypressSetup(repoPath)] *)
Definition checkCypressSetup (repoPath : string) : result CypressCheck :=
  match checkCypressSetup_try repoPath initialResults with
  | (results, Ok _) => Ok (Checked results)
  | (_, Throw error) => Ok (CheckFailed error)
  end.

End Checking.

(** *** Cloning and installing *)

(** What [installDependencies] resolves to. *)
Inductive InstallResult : Type :=
| Installed
| InstallFailed (error : string).

(** [installResult.success] *)
Definition success (r : InstallResult) : bool :=
  match r with
  | Installed => true
  | InstallFailed _ => false
  end.

Section Cloning.

(** The state of the machine the handler runs on. *)
Variable World : Type.

(** The file system as a world shows it, and [Date.now()] as a string
    concatenation renders it. *)
Variable fileSystem : World → ProjectAnalyzer.FileSystem.
Variable dateNow : World → string.

(** [fs.remove], [simpleGit().clone(url, path, options)] and
    [execSync(command, { cwd })]; each may change the world and may
    raise. *)
Variable remove : string → Eff World unit.
Variable clone : string → string → list string → Eff World unit.
Variable execSync : string → string → Eff World unit.

(** [(await fs.stat(p)).birthtime.getTime()] and [Date.now()], both in
    milliseconds. *)
Variable birthtimeMs : World → string → result Z.
Variable nowMs : World → Z.

(** [this.tempDir] *)
Variable tempDir : string.

(** [await fs.pathExists(p)] *)
Definition pathExists (p : string) : Eff World bool :=
  w ← current; await (ProjectAnalyzer.fs_pathExists (fileSystem w) p).

Definition detectPackageManager (repoPath : string) : Eff World string :=
  yarn ← pathExists (JS.path_join repoPath "yarn.lock");
  if (yarn : bool) then mret "yarn"
  else
    pnpm ← pathExists (JS.path_join repoPath "pnpm-lock.yaml");
    if (pnpm : bool) then mret "pnpm" else mret "npm".

Definition installDependencies (repoPath : string) : Eff World InstallResult :=
  try_catch
    (let packageJsonPath := JS.path_join repoPath "package.json" in
     present ← pathExists packageJsonPath;
     if negb present then mret (InstallFailed "No package.json found")
     else
       packageManager ← detectPackageManager repoPath;
       execSync (packageManager +:+ " install") repoPath ;;
       mret Installed)
    (fun error => mret (InstallFailed error)).

(** The body of the [try] block of [cloneAndAnalyze]; [tempPath] is the
    local variable of that name. *)
Definition cloneAndAnalyze_try (githubUrl : string)
  : Eff (Agent.Frame World) Agent.CloneResult :=
  f ← current;
  let repoName := extractRepoName githubUrl (dateNow (Agent.world World f)) in
  let repoPath := JS.path_join tempDir repoName in
  present ← Agent.in_world World (pathExists repoPath);
  (if (present : bool) then Agent.in_world World (remove repoPath)
   else mret tt) ;;
  Agent.in_world World (clone githubUrl repoPath []) ;;
  Agent.set_tempPath World (Some repoPath) ;;
  installResult ← Agent.in_world World (installDependencies repoPath);
  mret (Agent.Cloned repoPath repoName (success installResult)).

(** The [catch] block: [fs.remove(tempPath).catch(() => {})] when a path
    was recorded. *)
Definition cloneAndAnalyze_catch (error : string)
  : Eff (Agent.Frame World) Agent.CloneResult :=
  f ← current;
  match Agent.tempPath World f with
  | Some p =>
      if JS.truthy p
      then Agent.in_world World (try_catch (remove p) (fun _ => mret tt))
      else mret tt
  | None => mret tt
  end ;;
  mret (Agent.CloneFailed error).

(** [cloneAndAnalyze(githubUrl)] *)
Definition cloneAndAnalyze (githubUrl : string) : Eff World Agent.CloneResult :=
  fun w =>
    let '(f, r) :=
      try_catch (cloneAndAnalyze_try githubUrl) cloneAndAnalyze_catch
        {| Agent.world := w; Agent.tempPath := None |} in
    (Agent.world World f, r).

(** [cleanupOldRepos(maxAgeHours)], for a whole number of hours. *)
Definition cleanupOldRepos (maxAgeHours : Z) : Eff World unit :=
  try_catch
    (present ← pathExists tempDir;
     if negb present then mret tt
     else
       w ← current;
       items ← await (ProjectAnalyzer.fs_readdir (fileSystem w) tempDir);
       w ← current;
       let now := nowMs w in
       let maxAge := (maxAgeHours * 60 * 60 * 1000)%Z in
       for_of items (fun item =>
         let itemPath := JS.path_join tempDir item in
         w ← current;
         born ← await (birthtimeMs w itemPath);
         if (maxAge <? now - born)%Z then remove itemPath else mret tt))
    (fun _ => mret tt).

End Cloning.

End GitHubHandler.

(** ** The n8n interface of the controller (processForN8N) *)

Module N8N.

(** [data.project] *)
Record Project : Type := {
  project_name : string;
  project_type : string;
  project_framework : string;
  project_hasCypress : bool
}.

(** [data.specs] *)
Record Specs : Type := {
  specs_total : Z;
  specs_types : list (string * Z);
  specs_estimatedTime : Z;
  specs_outputPath : string
}.

(** An element of [data.generatedFiles]; [None] is [undefined]. *)
Record GeneratedFile : Type := {
  file_name : string;
  file_type : option string;
  file_path : string
}.

Record Data : Type := {
  project : Project;
  specs : Specs;
  strategy : string;
  generatedFiles : list GeneratedFile
}.

(** The object [processForN8N] resolves to: [success: true] with the
    data, or [success: false] with the error. *)
Inductive Response : Type :=
| Succeeded (data : Data) (summary : string) (timestamp : string)
| Failed (error : string) (timestamp : string).

(** [result.analysis.packageJson?.name || 'Unknown'] *)
Definition projectName (a : Analysis) : string :=
  match packageJson a with
  | Some meta =>
      match pm_name meta with
      | Some name => if JS.truthy name then name else "Unknown"
      | None => "Unknown"
      end
  | None => "Unknown"
  end.

Section Interface.

Variable World : Type.
Variable cloneAndAnalyze : string → Eff World Agent.CloneResult.
Variable checkCypressSetup : string → Eff World GitHubHandler.CypressCheck.
Variable ensureDir : string → Eff World unit.
Variable writeFile : string → string → Eff World unit.
Variable remove : string → Eff World unit.
Variable fileSystem : World → ProjectAnalyzer.FileSystem.
Variable now : World → string.
Variable specClock : World → nat → string.
Variable tempDir : string.
Variable outputDir : string.

Definition processForN8N (githubUrl : string) : Eff World Response :=
  result ← Agent.processRepository World GitHubHandler.CypressCheck
              cloneAndAnalyze checkCypressSetup ensureDir writeFile remove
              fileSystem now specClock tempDir outputDir githubUrl;
  match result with
  | Agent.Success _ report =>
      let analysis := Agent.analysis _ report in
      let specSummary := Agent.specSummary _ report in
      mret (Succeeded
        {| project :=
             {| project_name := projectName analysis;
                project_type := projectType analysis;
                project_framework := framework analysis;
                project_hasCypress :=
                  GitHubHandler.check_hasCypressDependency
                    (Agent.cypressCheck _ report) |};
           specs :=
             {| specs_total := TestSpecGenerator.totalSpecs specSummary;
                specs_types := TestSpecGenerator.specTypes specSummary;
                specs_estimatedTime :=
                  TestSpecGenerator.estimatedExecutionTime specSummary;
                specs_outputPath := Agent.outputPath _ report |};
           strategy := TestStrategy.name (Agent.strategy _ report);
           generatedFiles :=
             map (fun spec =>
                    {| file_name := TestSpecGenerator.gs_name spec;
                       file_type := TestSpecGenerator.gs_type spec;
                       file_path := TestSpecGenerator.gs_path spec |})
               (Agent.generatedSpecs _ report) |}
        ("Generados " +:+ pretty (TestSpecGenerator.totalSpecs specSummary)
         +:+ " specs Cypress para " +:+ projectType analysis)
        (Agent.timestamp _ report))
  | Agent.Failure _ error _ =>
      w ← current;
      mret (Failed error (now w))
  end.

End Interface.

End N8N.

(** ** Cypress configuration (TestStrategy.generateCypressConfig) *)

Module CypressConfig.

(** An entry of [frameworkConfigs]. *)
Record FrameworkConfig : Type := {
  viewportWidth : Z;
  viewportHeight : Z;
  defaultCommandTimeout : Z
}.

Definition react : FrameworkConfig :=
  {| viewportWidth := 1200; viewportHeight := 800;
     defaultCommandTimeout := 10000 |}.

Definition vue : FrameworkConfig :=
  {| viewportWidth := 1200; viewportHeight := 800;
     defaultCommandTimeout := 10000 |}.

Definition angular : FrameworkConfig :=
  {| viewportWidth := 1200; viewportHeight := 800;
     defaultCommandTimeout := 15000 |}.

Definition traditional : FrameworkConfig :=
  {| viewportWidth := 1280; viewportHeight := 720;
     defaultCommandTimeout := 8000 |}.

Definition frameworkConfigs : list (string * FrameworkConfig) :=
  [ ("react", react); ("vue", vue); ("angular", angular);
    ("traditional", traditional) ].

(** [reporterOptions] *)
Record ReporterOptions : Type := {
  reportDir : string;
  overwrite : bool;
  html : bool;
  json : bool
}.

(** The returned [config]: the base configuration (an [e2e] member that
    holds a function only), the framework's three settings spread over
    it, then the reporter. An inherited member found by the lookup is
    truthy and has no enumerable members of its own: the spread then
    adds no settings. *)
Record Config : Type := {
  settings : option FrameworkConfig;
  reporter : string;
  reporterOptions : ReporterOptions
}.

Definition generateCypressConfig (a : Analysis) (s : TestStrategy.Strategy)
  : Config :=
  let frameworkConfig :=
    match JS.member (framework a) frameworkConfigs with
    | JS.Own frameworkConfig => Some frameworkConfig
    | JS.Undefined => Some traditional
    | JS.Inherited _ => None
    end in
  {| settings := frameworkConfig;
     reporter := "mochawesome";
     reporterOptions :=
       {| reportDir := "cypress/reports"; overwrite := false; html := false;
          json := true |} |}.

End CypressConfig.

(** ** Cypress server (the /run-cypress handler) *)

Module CypressServer.

(** The members of the request body the handler reads. [url],
    [testType], [spec] and [browser] are JSON strings or absent;
    [headless] is a JSON boolean or absent. [None] is absent. *)
Record RunRequest : Type := {
  url : option string;
  testType : option string;
  spec : option string;
  browser : option string;
  headless : option bool
}.

Definition quote : string := String (ascii_of_nat 34) EmptyString.

(** [if (value) command += flag(value)] *)
Definition option_flag (value : option string) (flag : string → string)
  (command : string) : string :=
  match value with
  | Some v => if JS.truthy v then command +:+ flag v else command
  | None => command
  end.

(** The [switch] on [testType]. *)
Definition mode_flag (testType : option string) : string :=
  match testType with
  | Some t =>
      if String.eqb t "e2e" then " --e2e"
      else if String.eqb t "component" then " --component"
      else if String.eqb t "smoke" then " --env grep=" +:+ quote +:+ "smoke" +:+ quote
      else if String.eqb t "regression"
      then " --env grep=" +:+ quote +:+ "regression" +:+ quote
      else " --e2e"
  | None => " --e2e"
  end.

(** The command line the handler builds and runs. *)
Definition runCypressCommand (req : RunRequest) : string :=
  let command := "npx cypress run" in
  let command :=
    match headless req with
    | Some false => command
    | _ => command +:+ " --headless"
    end in
  let command := option_flag (browser req) (fun b => " --browser " +:+ b) command in
  let command :=
    option_flag (spec req) (fun s => " --spec " +:+ quote +:+ s +:+ quote) command in
  let command :=
    option_flag (url req) (fun u => " --env targetUrl=" +:+ u) command in
  command +:+ mode_flag (testType req).

End CypressServer.

(** ** The n8n webhook server: getGeneratedFiles *)

Module Webhook.

(** What [fs.stat] resolves to, as far as the function reads it. *)
Record Stats : Type := { size : N; birthtime : string }.

(** The functions of [fs-extra] the function calls. *)
Record OutputFs : Type := {
  pathExists : string → result bool;
  readdir : string → result (list string);
  stat : string → result Stats;
  readFile : string → result string
}.

Record FileDetail : Type := {
  fd_name : string;
  fd_path : string;
  fd_size : N;
  fd_created : string;
  fd_lines : nat
}.

(** [content.split('\n').length] *)
Fixpoint lineCount (content : string) : nat :=
  match content with
  | EmptyString => 1
  | String c rest =>
      if Ascii.eqb c "010"%char then S (lineCount rest) else lineCount rest
  end.

Section Listing.

Variable fs : OutputFs.

(** The loop over the listing; [fileDetails] is the array it pushes to. *)
Fixpoint collect (outputPath : string) (files : list string)
  (fileDetails : list FileDetail) : result (list FileDetail) :=
  match files with
  | [] => Ok fileDetails
  | file :: rest =>
      if JS.endsWith file ".cy.js" then
        let filePath := JS.path_join outputPath file in
        stats ← stat fs filePath;
        content ← readFile fs filePath;
        collect outputPath rest
          (fileDetails
           ++ [{| fd_name := file; fd_path := filePath; fd_size := size stats;
                  fd_created := birthtime stats;
                  fd_lines := lineCount content |}])
      else collect outputPath rest fileDetails
  end.

(** The body of the [try] block. *)
Definition getGeneratedFiles_try (outputPath : string)
  : result (list FileDetail) :=
  present ← pathExists fs outputPath;
  if negb present then Ok []
  else
    files ← readdir fs outputPath;
    collect outputPath files [].

Definition getGeneratedFiles (outputPath : string) : list FileDetail :=
  match getGeneratedFiles_try outputPath with
  | Ok fileDetails => fileDetails
  | Throw _ => []
  end.

End Listing.

End Webhook.

(** ** Quick analysis (ProjectAnalyzer.quickAnalysis)

    The object literal of [quickAnalysis] has nine of the fields of the
    literal of [deepAnalysis], with the same initial values, and
    [analyzePackageJson] adds [scripts] and [packageJson]. The four
    sub-steps it runs neither read nor write the remaining fields of
    [Analysis]; the returned object is the record below. *)

Record QuickAnalysis : Type := {
  qa_projectType : string;
  qa_framework : string;
  qa_hasPackageJson : bool;
  qa_dependencies : gmap string string;
  qa_devDependencies : gmap string string;
  qa_dependenciesInstalled : bool;
  qa_projectStructure : list StructureEntry;
  qa_entryPoints : list EntryPoint;
  qa_analysisDate : string;
  qa_scripts : option (list (string * ScriptValue));
  qa_packageJson : option PackageMeta
}.

Definition quick_fields (a : Analysis) : QuickAnalysis :=
  {| qa_projectType := projectType a; qa_framework := framework a;
     qa_hasPackageJson := hasPackageJson a; qa_dependencies := dependencies a;
     qa_devDependencies := devDependencies a;
     qa_dependenciesInstalled := dependenciesInstalled a;
     qa_projectStructure := projectStructure a;
     qa_entryPoints := entryPoints a; qa_analysisDate := analysisDate a;
     qa_scripts := scripts a; qa_packageJson := packageJson a |}.

(** The body of the [try] block of [quickAnalysis]: the scan starts at
    depth 2. *)
Definition quickAnalysis_body (fs : ProjectAnalyzer.FileSystem)
  (repoPath : string) : ProjectAnalyzer.Step Analysis :=
  ProjectAnalyzer.analyzePackageJson fs repoPath ;;
  ProjectAnalyzer.analyzeProjectStructure fs repoPath "" 2 ;;
  assign ProjectAnalyzer.detectFrameworkAndType ;;
  ProjectAnalyzer.findEntryPoints fs repoPath ;;
  current.

(** [quickAnalysis(repoPath)] *)
Definition quickAnalysis (fs : ProjectAnalyzer.FileSystem) (now repoPath : string)
  : result QuickAnalysis :=
  match try_catch (quickAnalysis_body fs repoPath) (fun _ => current)
          (ProjectAnalyzer.initialAnalysis now) with
  | (_, Ok a) => Ok (quick_fields a)
  | (_, Throw e) => Throw e
  end.

(** ** Further notions *)

(** *** Substrings *)

(** [sub] occurs somewhere in [s]. *)
Definition occurs (sub s : string) : Prop := ∃ pre post, s = pre +:+ sub +:+ post.

(** Some path recorded in [projectStructure] mentions [word]. *)
Definition path_mentions (a : Analysis) (word : string) : Prop :=
  ∃ e, e ∈ projectStructure a ∧ occurs word (entry_path e).

(** *** Labels and probes of the analyzer *)

(** The project-type labels [determineProjectType] gives under each
    framework that detection can leave. *)
Definition projectTypeLabels : list (string * list string) :=
  [ ("react", ["Next.js Application"; "Gatsby Application"; "React SPA";
               "React Application"]);
    ("vue", ["Nuxt.js Application"; "Vue SPA"; "Vue Application"]);
    ("angular", ["Angular Application"]);
    ("svelte", ["SvelteKit Application"; "Svelte Application"]);
    ("traditional", ["Traditional Web Application"; "PHP Application";
                     "Unknown Project Type"]) ].

(** The labels [getScriptType] returns. *)
Definition scriptTypes : list string :=
  ["test"; "build"; "start"; "dev"; "cypress"; "lint"; "other"].

(** [fs.pathExists] answered true for [entry] under [repoPath]. *)
Definition exists_at (fs : ProjectAnalyzer.FileSystem) (repoPath entry : string)
  : bool :=
  match ProjectAnalyzer.fs_pathExists fs (JS.path_join repoPath entry) with
  | Ok true => true
  | _ => false
  end.

(** A script command is a string. *)
Definition is_string (cmd : ScriptValue) : Prop := ∃ s, cmd = CmdString s.

(** A script command on which [includes] can be called: a string or an
    array. *)
Definition has_includes (cmd : ScriptValue) : Prop :=
  match cmd with
  | CmdString _ | CmdArray _ => True
  | CmdNull | CmdOther => False
  end.

(** [cmd.includes(w)] holds: [w] occurs in the string, or is an element
    of the array. *)
Definition cmd_mentions (cmd : ScriptValue) (w : string) : Prop :=
  match cmd with
  | CmdString s => occurs w s
  | CmdArray items => CmdString w ∈ items
  | CmdNull | CmdOther => False
  end.

(** A script command that names one of the bundlers. *)
Definition mentions_bundler (cmd : ScriptValue) : Prop :=
  cmd_mentions cmd "webpack" ∨ cmd_mentions cmd "vite"
  ∨ cmd_mentions cmd "rollup".

(** The literal the "simple matching" of [globFind] reduces each pattern
    of [findExistingTests] to: the first '**/' and then the first '*'
    removed. *)
Definition testFragments : list (string * string) :=
  [ ("**/*.test.js", ".test.js"); ("**/*.spec.js", ".spec.js");
    ("**/*.test.ts", ".test.ts"); ("**/*.spec.ts", ".spec.ts");
    ("cypress/e2e/**/*.js", "cypress/e2e/.js");
    ("cypress/e2e/**/*.ts", "cypress/e2e/.ts");
    ("tests/**/*.js", "tests/.js"); ("test/**/*.js", "test/.js");
    ("e2e/**/*.js", "e2e/.js");
    ("**/__tests__/**/*.js", "__tests__/*/*.js");
    ("**/__tests__/**/*.ts", "__tests__/*/*.ts") ].



(** *** The sample repository, analysed and checked *)

Definition repoAnalysis : Analysis :=
  (ProjectAnalyzer.deepAnalysis_body sampleFs "/repo"
     (ProjectAnalyzer.initialAnalysis sampleDate)).1.

Definition repoResults : GitHubHandler.Results :=
  (GitHubHandler.checkCypressSetup_try sampleFs "/repo"
     GitHubHandler.initialResults).1.

(** *** A disk with a quota *)

(** Writing raises once the disk holds two files. *)
Definition sim_writeFile_quota (p content : string) : Eff SimWorld unit :=
  fun w =>
    if 2 <=? length (sim_files w)
    then (w, Throw "ENOSPC: no space left on device")
    else ({| sim_dirs := sim_dirs w; sim_files := (p, content) :: sim_files w;
             sim_diskFull := sim_diskFull w |}, Ok tt).

Definition emptyDisk : SimWorld :=
  {| sim_dirs := ["/work"]; sim_files := []; sim_diskFull := false |}.

(** Five specs: the first two fit on the disk, the third does not. *)
Definition fiveSpecs : list TestSpecGenerator.GeneratedSpec :=
  returned []
    (TestSpecGenerator.generateTestSpecs sampleClock bareAnalysis
       twoPatternStrategy).

Definition writtenSpecs : list TestSpecGenerator.GeneratedSpec :=
  take 2 fiveSpecs.

Definition failingSpec : TestSpecGenerator.GeneratedSpec :=
  returned
    {| TestSpecGenerator.gs_name := ""; TestSpecGenerator.gs_type := None;
       TestSpecGenerator.gs_content := ""; TestSpecGenerator.gs_path := "" |}
    (TestSpecGenerator.generateSpec sampleClock bareAnalysis twoPatternStrategy 2).

Definition unwrittenSpecs : list TestSpecGenerator.GeneratedSpec :=
  drop 3 fiveSpecs.

Definition quotaAfterDir : SimWorld := (sim_ensureDir simOutputDir emptyDisk).1.

Definition quotaAfterTwo : SimWorld :=
  (for_of writtenSpecs (fun spec =>
     sim_writeFile_quota
       (JS.path_join simOutputDir (TestSpecGenerator.gs_name spec))
       (TestSpecGenerator.gs_content spec)) quotaAfterDir).1.

(** *** The n8n interface on the full disk *)




(** A file of the listing that [getGeneratedFiles] cannot describe:
    [stat] or [readFile] raises on it. *)
Definition unreadable (fs : Webhook.OutputFs) (outputPath file : string) : Prop :=
  (∃ e, Webhook.stat fs (JS.path_join outputPath file) = Throw e)
  ∨ (∃ e, Webhook.readFile fs (JS.path_join outputPath file) = Throw e).

(** A record of the listing describes the file of its name. *)
Definition describes (fs : Webhook.OutputFs) (outputPath : string)
  (d : Webhook.FileDetail) : Prop :=
  JS.endsWith (Webhook.fd_name d) ".cy.js" = true
  ∧ Webhook.fd_path d = JS.path_join outputPath (Webhook.fd_name d)
  ∧ ∃ stats content,
      Webhook.stat fs (Webhook.fd_path d) = Ok stats
      ∧ Webhook.readFile fs (Webhook.fd_path d) = Ok content
      ∧ Webhook.fd_size d = Webhook.size stats
      ∧ Webhook.fd_created d = Webhook.birthtime stats
      ∧ Webhook.fd_lines d = Webhook.lineCount content.

(** *** A clone that fails half way *)

(** The clone creates the directory and then raises. *)
Definition sim_clone_partial (githubUrl repoPath : string) (options : list string)
  : Eff SimWorld unit :=
  fun w =>
    ({| sim_dirs := repoPath :: sim_dirs w; sim_files := sim_files w;
        sim_diskFull := sim_diskFull w |},
     Throw "fatal: early EOF").

Definition sim_execSync (command cwd : string) : Eff SimWorld unit :=
  fun w => (w, Ok tt).

Definition partialRepoPath : string :=
  JS.path_join simTempDir
    (GitHubHandler.extractRepoName demoUrl "1700000000000").

Definition afterPartialClone : SimWorld :=
  (sim_clone_partial demoUrl partialRepoPath [] fullDisk).1.

(** The handler on that machine, and the controller over it. *)
Definition sim_cloneAndAnalyze_partial
  : string → Eff SimWorld Agent.CloneResult :=
  GitHubHandler.cloneAndAnalyze SimWorld (fun _ => sampleFs)
    (fun _ => "1700000000000") sim_remove sim_clone_partial sim_execSync
    simTempDir.

(** * Properties *)

(** ** The spec-count formula *)

Import TestStrategy.

Lemma Qfloor_fraction (n : Z) (d : positive) : Qfloor (n # d) = (n `div` Z.pos d)%Z.
Proof. reflexivity. Qed.

(** The value under [Math.floor], as one fraction over 100. *)
Lemma spec_count_fraction (a : Analysis) :
  let len := Z.of_nat (length (projectStructure a)) in
  let eps := Z.of_nat (length (entryPoints a)) in
  (inject_Z baseCount + structureMultiplier a + entryPointsBonus a
   == (300 + Z.min (2 * len) 300 + 50 * eps) # 100)%Q.
Proof.
  intros len eps. unfold structureMultiplier, entryPointsBonus, baseCount.
  fold len eps.
  destruct (Q.min_spec (inject_Z len / 50) 3) as [[Hlt Hmin] | [Hle Hmin]];
    rewrite Hmin.
  - assert (len < 150)%Z.
    { revert Hlt. unfold Qlt, Qdiv, Qmult, Qinv, inject_Z. cbn. lia. }
    rewrite Z.min_l by lia.
    unfold Qeq, Qplus, Qmult, Qdiv, Qinv, inject_Z. cbn. lia.
  - assert (150 ≤ len)%Z.
    { revert Hle. unfold Qle, Qdiv, Qmult, Qinv, inject_Z. cbn. lia. }
    rewrite Z.min_r by lia.
    unfold Qeq, Qplus, Qmult, Qdiv, Qinv, inject_Z. cbn. lia.
Qed.

(** In integers: three, plus one for every full hundred of
    [2 * min(|projectStructure|, 150) + 50 * |entryPoints|]. *)
Lemma calculateRecommendedSpecs_int (a : Analysis) :
  let len := Z.of_nat (length (projectStructure a)) in
  let eps := Z.of_nat (length (entryPoints a)) in
  calculateRecommendedSpecs a
  = (3 + (Z.min (2 * len) 300 + 50 * eps) `div` 100)%Z.
Proof.
  intros len eps. unfold calculateRecommendedSpecs.
  rewrite (Qfloor_comp _ _ (spec_count_fraction a)), Qfloor_fraction.
  fold len eps. unfold baseCount.
  assert (0 ≤ len)%Z by (unfold len; lia).
  assert (0 ≤ eps)%Z by (unfold eps; lia).
  Z.div_mod_to_equations. lia.
Qed.

(** What [this.strategies[framework]] gives: the four keys of the table
    are not names of inherited members, so the lookup is the own entry,
    an inherited member exactly at the names of [Object.prototype], and
    [undefined] elsewhere. *)
Lemma generateStrategy_run (a : Analysis) :
  generateStrategy a
  = if bool_decide (framework a ∈ JS.objectPrototypeProps)
    then Throw "basePatterns is not iterable"
    else Ok (customStrategy
               (default traditional (JS.assoc (framework a) strategies)) a).
Proof.
  unfold generateStrategy, JS.member.
  destruct (JS.assoc (framework a) strategies) as [base |] eqn:Hbase.
  - rewrite bool_decide_eq_false_2; [reflexivity |].
    intros Hin.
    assert (Hall : Forall (fun k => JS.assoc k strategies = None)
                     JS.objectPrototypeProps) by repeat constructor.
    rewrite Forall_forall in Hall. rewrite (Hall _ Hin) in Hbase. discriminate.
  - by destruct (bool_decide _).
Qed.

(** The engine returns a strategy unless the framework names an
    inherited member. *)
Lemma generateStrategy_own (a : Analysis) :
  framework a ∉ JS.objectPrototypeProps →
  generateStrategy a
  = Ok (customStrategy (default traditional (JS.assoc (framework a) strategies)) a).
Proof. intros H. by rewrite generateStrategy_run, bool_decide_eq_false_2. Qed.

Lemma generateStrategy_Ok (a : Analysis) (s : Strategy) :
  generateStrategy a = Ok s →
  (framework a ∉ JS.objectPrototypeProps)
  ∧ s = customStrategy (default traditional (JS.assoc (framework a) strategies)) a.
Proof.
  rewrite generateStrategy_run. case_bool_decide as H; [discriminate |].
  by intros [= <-].
Qed.

Lemma generateStrategy_inherited (a : Analysis) :
  framework a ∈ JS.objectPrototypeProps →
  generateStrategy a = Throw "basePatterns is not iterable".
Proof. intros H. by rewrite generateStrategy_run, bool_decide_eq_true_2. Qed.

(** C1. For every Analysis the engine computes
    recommendedSpecs = max(3, floor(3 + min(|projectStructure| / 50, 3)
    + |entryPoints| * 0.5)), and the result is at least 3, however sparse
    the Analysis is: every Strategy the engine returns carries that
    number, and the engine returns one unless the framework is the name
    of a member every object inherits, where it raises. *)
Theorem C1_recommendedSpecs_formula (a : Analysis) :
  let n := inject_Z (Z.of_nat (length (projectStructure a))) in
  let m := inject_Z (Z.of_nat (length (entryPoints a))) in
  match generateStrategy a with
  | Ok s =>
      recommendedSpecs s = calculateRecommendedSpecs a
      ∧ (3 ≤ recommendedSpecs s)%Z
  | Throw _ => framework a ∈ JS.objectPrototypeProps
  end
  ∧ calculateRecommendedSpecs a
    = Z.max 3 (Qfloor (3 + Qmin (n / 50) 3 + m * (1 # 2)))
  ∧ (3 ≤ calculateRecommendedSpecs a)%Z.
Proof.
  intros n m. split_and!.
  - rewrite generateStrategy_run. case_bool_decide as Hfw; [exact Hfw |].
    cbn [recommendedSpecs customStrategy]. split; [reflexivity |].
    unfold calculateRecommendedSpecs, baseCount. lia.
  - unfold calculateRecommendedSpecs, structureMultiplier, entryPointsBonus,
      baseCount. fold n m. f_equal. apply Qfloor_comp.
    assert (Hhalf : (5 # 10 == 1 # 2)%Q) by reflexivity.
    now rewrite Hhalf.
  - unfold calculateRecommendedSpecs, baseCount. lia.
Qed.

(** The sparsest Analysis gets exactly the floor. *)
Lemma calculateRecommendedSpecs_sparse (a : Analysis) :
  projectStructure a = [] → entryPoints a = [] →
  calculateRecommendedSpecs a = 3%Z.
Proof.
  intros Hs He. rewrite calculateRecommendedSpecs_int, Hs, He. reflexivity.
Qed.

(** On doubles [Math.floor] returns the floor of the exact value: checked
    for every structure of up to 600 entries and up to 32 entry points
    (the analyzer finds 16 at most, and the structure term is constant from
    150 entries on). *)
Lemma doubles_agree :
  forallb (fun len =>
    forallb (fun eps =>
      Doubles.floor_is (Doubles.spec_count_value len eps)
        (3 + (Nat.min (2 * len) 300 + 50 * eps) / 100))
      (seq 0 33))
    (seq 0 601) = true.
Proof. vm_compute. reflexivity. Qed.

(** ** Framework detection *)

Import ProjectAnalyzer.

Lemma firstIndicated_Some table m fw :
  firstIndicated table m = Some fw →
  ∃ before indicators after,
    table = before ++ (fw, indicators) :: after
    ∧ Forall (fun e => indicated m e.2 = false) before
    ∧ indicated m indicators = true.
Proof.
  induction table as [| [fw' inds] rest IH]; simpl; [discriminate |].
  destruct (indicated m inds) eqn:Hi.
  - intros [= <-]. exists [], inds, rest. auto.
  - intros H. destruct (IH H) as (before & indicators & after & -> & Hb & Ht).
    exists ((fw', inds) :: before), indicators, after. split_and!; auto.
Qed.

Lemma firstIndicated_None table m :
  firstIndicated table m = None →
  Forall (fun e => indicated m e.2 = false) table.
Proof.
  induction table as [| [fw' inds] rest IH]; simpl; [constructor |].
  destruct (indicated m inds) eqn:Hi; [discriminate |].
  intros H. constructor; auto.
Qed.

(** A framework the loop assigns is a key of the table. *)
Lemma firstIndicated_key table m fw :
  firstIndicated table m = Some fw → fw ∈ map fst table.
Proof.
  intros H. destruct (firstIndicated_Some _ _ _ H) as (b & i & a & -> & _).
  rewrite map_app. apply elem_of_app. right. simpl. left.
Qed.

(** The framework [detectFrameworkAndType] leaves in the record. *)
Lemma detectFrameworkAndType_framework (a : Analysis) :
  framework (detectFrameworkAndType a)
  = let fw := default (framework a) (firstIndicated frameworkIndicators (combined a)) in
    if String.eqb fw "none" then "traditional" else fw.
Proof.
  unfold detectFrameworkAndType, combined.
  destruct (firstIndicated _ _); simpl;
    match goal with |- context [String.eqb ?x "none"] =>
      destruct (String.eqb x "none") end; reflexivity.
Qed.

Lemma indicated_true m indicators :
  indicated m indicators = true
  ↔ ∃ i, i ∈ indicators ∧ JS.truthy_at m i = true.
Proof.
  unfold indicated, JS.some. rewrite existsb_exists.
  split; intros (i & Hi & Ht); exists i; split; auto;
    by apply list_elem_of_In.
Qed.

Lemma indicated_subseteq m l1 l2 :
  l1 ⊆ l2 → indicated m l1 = true → indicated m l2 = true.
Proof.
  intros Hsub. rewrite !indicated_true. intros (i & Hi & Ht).
  exists i. split; auto.
Qed.

(** C3, amended. Framework detection walks the table in its declared
    order (react, vue, angular, nextjs, nuxtjs, svelte, traditional) and
    assigns the first framework one of whose indicator packages the
    combined map maps to a truthy (non-empty) version, stopping there;
    when no framework has such an indicator the result is traditional. *)
Theorem C3_first_indicated_framework (a : Analysis) :
  framework a = "none" →
  map fst frameworkIndicators
  = ["react"; "vue"; "angular"; "nextjs"; "nuxtjs"; "svelte"; "traditional"]
  ∧ ((∃ before fw indicators after,
        frameworkIndicators = before ++ (fw, indicators) :: after
        ∧ Forall (fun e => indicated (combined a) e.2 = false) before
        ∧ indicated (combined a) indicators = true
        ∧ framework (detectFrameworkAndType a) = fw)
     ∨ (Forall (fun e => indicated (combined a) e.2 = false) frameworkIndicators
        ∧ framework (detectFrameworkAndType a) = "traditional")).
Proof.
  intros Hnone. split; [reflexivity |].
  rewrite detectFrameworkAndType_framework.
  destruct (firstIndicated frameworkIndicators (combined a)) as [fw |] eqn:Hf;
    simpl.
  - left. destruct (firstIndicated_Some _ _ _ Hf) as (b & i & r & Ht & Hb & Hi).
    exists b, fw, i, r. split_and!; auto.
    apply firstIndicated_key in Hf.
    destruct (String.eqb_spec fw "none") as [-> |]; [| reflexivity].
    exfalso. revert Hf.
    by apply (bool_decide_eq_false_1 ("none" ∈ map fst frameworkIndicators)).
  - right. split; [by apply firstIndicated_None |].
    by rewrite Hnone.
Qed.

(** Settles a closed decidable proposition by evaluating its decision. *)
Ltac by_decision :=
  match goal with
  | |- ?P => apply (bool_decide_eq_true_1 P); vm_compute; reflexivity
  end.

(** Settles [x ∈ l] for an element that occurs in the literal list [l]. *)
Ltac by_membership :=
  repeat first [apply list_elem_of_here | apply list_elem_of_further].

Lemma C3_first_indicated_framework_witness :
  framework vueAndJquery = "none"
  ∧ map fst frameworkIndicators
    = ["react"; "vue"; "angular"; "nextjs"; "nuxtjs"; "svelte"; "traditional"]
  ∧ ((∃ before fw indicators after,
        frameworkIndicators = before ++ (fw, indicators) :: after
        ∧ Forall (fun e => indicated (combined vueAndJquery) e.2 = false) before
        ∧ indicated (combined vueAndJquery) indicators = true
        ∧ framework (detectFrameworkAndType vueAndJquery) = fw)
     ∨ (Forall (fun e => indicated (combined vueAndJquery) e.2 = false)
          frameworkIndicators
        ∧ framework (detectFrameworkAndType vueAndJquery) = "traditional")).
Proof.
  split; [reflexivity |].
  apply (C3_first_indicated_framework vueAndJquery). reflexivity.
Defined.

(** On that manifest vue wins over jquery, the later row. *)
Example detect_vueAndJquery :
  framework (detectFrameworkAndType vueAndJquery) = "vue"
  ∧ projectType (detectFrameworkAndType vueAndJquery) = "Vue Application".
Proof. split; reflexivity. Qed.

(** C3 as stated fails: react's indicator list intersects the combined
    map of a manifest that declares react with an empty version, and
    react is the first row of the table, yet detection does not assign
    react. *)
Lemma C3_counterexample :
  intersects (indicators_of "react") (combined emptyVersionReact)
  ∧ head (map fst frameworkIndicators) = Some "react"
  ∧ framework emptyVersionReact = "none"
  ∧ framework (detectFrameworkAndType emptyVersionReact) = "traditional".
Proof.
  split_and!; try reflexivity.
  exists "react". split; [by_decision |].
  vm_compute. eauto.
Qed.

(** ** nextjs and nuxtjs are never detected *)

Lemma intersects_subseteq l1 l2 m :
  l1 ⊆ l2 → intersects l1 m → intersects l2 m.
Proof. intros Hsub (i & Hi & Hs). exists i. split; auto. Qed.

Lemma firstIndicated_never_ssr (m : gmap string string) :
  firstIndicated frameworkIndicators m ≠ Some "nextjs"
  ∧ firstIndicated frameworkIndicators m ≠ Some "nuxtjs".
Proof.
  unfold frameworkIndicators. cbn [firstIndicated].
  destruct (indicated m ["react"; "react-dom"; "next"; "gatsby"]) eqn:Hreact;
    [split; discriminate |].
  destruct (indicated m ["vue"; "nuxt"; "vuex"; "vue-router"]) eqn:Hvue;
    [split; discriminate |].
  destruct (indicated m ["@angular/core"; "@angular/common"; "rxjs"]);
    [split; discriminate |].
  destruct (indicated m ["next"; "react"]) eqn:Hnext.
  { apply (indicated_subseteq m _ ["react"; "react-dom"; "next"; "gatsby"])
      in Hnext; [congruence | by_decision]. }
  destruct (indicated m ["nuxt"; "vue"]) eqn:Hnuxt.
  { apply (indicated_subseteq m _ ["vue"; "nuxt"; "vuex"; "vue-router"])
      in Hnuxt; [congruence | by_decision]. }
  destruct (indicated m ["svelte"; "svelte-kit"]); [split; discriminate |].
  destruct (indicated m ["jquery"; "bootstrap"; "popper.js"]);
    split; discriminate.
Qed.

(** C9. Framework detection never yields nextjs or nuxtjs: the nextjs
    indicators (next, react) are all indicators of react, the nuxtjs
    indicators (nuxt, vue) are all indicators of vue, so a map that
    intersects the later row intersects the earlier one, and react and
    vue come first in the table. *)
Theorem C9_nextjs_nuxtjs_unreachable (a : Analysis) :
  framework a = "none" →
  framework (detectFrameworkAndType a) ≠ "nextjs"
  ∧ framework (detectFrameworkAndType a) ≠ "nuxtjs"
  ∧ indicators_of "nextjs" = ["next"; "react"]
  ∧ indicators_of "nuxtjs" = ["nuxt"; "vue"]
  ∧ (∀ m, intersects (indicators_of "nextjs") m → intersects (indicators_of "react") m)
  ∧ (∀ m, intersects (indicators_of "nuxtjs") m → intersects (indicators_of "vue") m)
  ∧ (∀ m, indicated m (indicators_of "nextjs") = true
          → indicated m (indicators_of "react") = true)
  ∧ (∀ m, indicated m (indicators_of "nuxtjs") = true
          → indicated m (indicators_of "vue") = true)
  ∧ (∃ rows, map fst frameworkIndicators = "react" :: "vue" :: rows
             ∧ "nextjs" ∈ rows ∧ "nuxtjs" ∈ rows).
Proof.
  intros Hnone.
  assert (Hn : indicators_of "nextjs" ⊆ indicators_of "react") by by_decision.
  assert (Hx : indicators_of "nuxtjs" ⊆ indicators_of "vue") by by_decision.
  rewrite detectFrameworkAndType_framework, Hnone.
  destruct (firstIndicated_never_ssr (combined a)) as [H1 H2].
  split_and!; try reflexivity.
  - destruct (firstIndicated _ _) as [fw |]; simpl; [| discriminate].
    destruct (String.eqb fw "none"); congruence.
  - destruct (firstIndicated _ _) as [fw |]; simpl; [| discriminate].
    destruct (String.eqb fw "none"); congruence.
  - intros m. by apply intersects_subseteq.
  - intros m. by apply intersects_subseteq.
  - intros m. by apply indicated_subseteq.
  - intros m. by apply indicated_subseteq.
  - eexists. split; [reflexivity |]. split; by_decision.
Qed.

Lemma C9_nextjs_nuxtjs_unreachable_witness :
  framework vueAndJquery = "none"
  ∧ framework (detectFrameworkAndType vueAndJquery) ≠ "nextjs"
  ∧ framework (detectFrameworkAndType vueAndJquery) ≠ "nuxtjs".
Proof.
  split; [reflexivity |].
  destruct (C9_nextjs_nuxtjs_unreachable vueAndJquery eq_refl) as (H1 & H2 & _).
  split; assumption.
Defined.

(** ** Strategy profiles *)





(** The labels of the closed enumeration that fall back: all but the
    three frameworks with a profile of their own. *)
Example enumeration_falls_back :
  Forall2 (fun fw label =>
             ∃ s, generateStrategy (set_framework fw bareAnalysis) = Ok s
                  ∧ name s = label)
    frameworkEnumeration
    [ "React Testing Strategy"; "Vue Testing Strategy";
      "Angular Testing Strategy"; "Traditional Web App Strategy";
      "Traditional Web App Strategy"; "Traditional Web App Strategy";
      "Traditional Web App Strategy"; "Traditional Web App Strategy" ].
Proof. repeat constructor; eexists; split; reflexivity. Qed.

(** ** The react scenario *)

Lemma path_signal_false (a : Analysis) (word : string) :
  (∀ e, e ∈ projectStructure a → JS.includes (entry_path e) word = false) →
  path_signal a word = false.
Proof.
  intros H. unfold path_signal, JS.some.
  destruct (existsb _ _) eqn:He; [| reflexivity].
  apply existsb_exists in He as (e & Hin & Hinc).
  apply list_elem_of_In in Hin. rewrite (H e Hin) in Hinc. discriminate.
Qed.

(** What [detectFrameworkAndType] leaves alone. *)
Lemma detectFrameworkAndType_frame (a : Analysis) :
  projectStructure (detectFrameworkAndType a) = projectStructure a
  ∧ entryPoints (detectFrameworkAndType a) = entryPoints a
  ∧ dependencies (detectFrameworkAndType a) = dependencies a
  ∧ devDependencies (detectFrameworkAndType a) = devDependencies a.
Proof.
  unfold detectFrameworkAndType.
  destruct (firstIndicated _ _); simpl;
    match goal with |- context [String.eqb ?x "none"] =>
      destruct (String.eqb x "none") end; auto.
Qed.

Lemma react_declared_detected (a : Analysis) (v : string) :
  dependencies a !! "react" = Some v → JS.truthy v = true →
  devDependencies a !! "react" ≠ Some "" →
  framework (detectFrameworkAndType a) = "react".
Proof.
  intros Hdep Hv Hdev.
  assert (Ht : JS.truthy_at (combined a) "react" = true).
  { unfold JS.truthy_at, combined, JS.spread2. rewrite lookup_union, Hdep.
    destruct (devDependencies a !! "react") as [w |] eqn:Hw; simpl; [| done].
    destruct w; [congruence | done]. }
  assert (Hi : indicated (combined a) ["react"; "react-dom"; "next"; "gatsby"]
               = true).
  { apply indicated_true. exists "react". split; [by_decision | exact Ht]. }
  rewrite detectFrameworkAndType_framework.
  unfold frameworkIndicators. cbn [firstIndicated]. rewrite Hi. reflexivity.
Qed.

(** C8, amended. An Analysis with dependencies = { react: "^18.0.0" }
    whose dev-dependencies do not declare react with an empty version,
    with no projectStructure path containing 'form', 'auth' or 'api',
    exactly one entry point and fewer than 25 projectStructure entries
    yields framework = "react",
    focusAreas = ["smoke-testing", "critical-flows"] and
    recommendedSpecs = 3. *)
Theorem C8_react_scenario (a : Analysis) :
  dependencies a = {[ "react" := "^18.0.0" ]} →
  devDependencies a !! "react" ≠ Some "" →
  (∀ e, e ∈ projectStructure a →
        JS.includes (entry_path e) "form" = false
        ∧ JS.includes (entry_path e) "auth" = false
        ∧ JS.includes (entry_path e) "api" = false) →
  length (entryPoints a) = 1 →
  length (projectStructure a) < 25 →
  framework (detectFrameworkAndType a) = "react"
  ∧ ∃ s, generateStrategy (detectFrameworkAndType a) = Ok s
         ∧ focusAreas s = ["smoke-testing"; "critical-flows"]
         ∧ recommendedSpecs s = 3%Z.
Proof.
  intros Hdeps Hdev Hpaths Hentry Hlen.
  assert (Hfw : framework (detectFrameworkAndType a) = "react").
  { apply (react_declared_detected a "^18.0.0"); auto.
    rewrite Hdeps. apply lookup_singleton_eq. }
  destruct (detectFrameworkAndType_frame a) as (Hps & Hep & _ & _).
  split; [exact Hfw |].
  eexists. split.
  { apply generateStrategy_own. rewrite Hfw. by_decision. }
  split.
  - cbn [focusAreas customStrategy]. unfold determineFocusAreas.
    rewrite !path_signal_false, Hep, Hentry; [reflexivity | ..];
      intros e He; rewrite Hps in He; by apply Hpaths.
  - cbn [recommendedSpecs customStrategy].
    rewrite calculateRecommendedSpecs_int, Hps, Hep, Hentry.
    cbn zeta. Z.div_mod_to_equations. lia.
Qed.

Lemma C8_react_scenario_witness :
  framework (detectFrameworkAndType smallReactProject) = "react"
  ∧ ∃ s, generateStrategy (detectFrameworkAndType smallReactProject) = Ok s
         ∧ focusAreas s = ["smoke-testing"; "critical-flows"]
         ∧ recommendedSpecs s = 3%Z.
Proof.
  apply (C8_react_scenario smallReactProject).
  - reflexivity.
  - vm_compute. discriminate.
  - intros e He.
    repeat (apply elem_of_cons in He as [-> | He]; [by vm_compute |]).
    by apply elem_of_nil in He.
  - reflexivity.
  - vm_compute. lia.
Defined.

(** C8 as stated fails: the premises hold of a project with 25 structure
    entries, and it is recommended 4 specs. *)
Lemma C8_counterexample :
  dependencies reactWith25Entries = {[ "react" := "^18.0.0" ]}
  ∧ Forall (fun e => JS.includes (entry_path e) "form" = false
                     ∧ JS.includes (entry_path e) "auth" = false
                     ∧ JS.includes (entry_path e) "api" = false)
      (projectStructure reactWith25Entries)
  ∧ length (entryPoints reactWith25Entries) = 1
  ∧ framework (detectFrameworkAndType reactWith25Entries) = "react"
  ∧ ∃ s, generateStrategy (detectFrameworkAndType reactWith25Entries) = Ok s
         ∧ focusAreas s = ["smoke-testing"; "critical-flows"]
         ∧ recommendedSpecs s = 4%Z.
Proof.
  split_and!; try reflexivity.
  - apply Forall_forall. intros e He.
    apply elem_of_replicate in He as [-> _]. by vm_compute.
  - eexists. split_and!; reflexivity.
Qed.

(** The premises of C8 also hold of a manifest that repeats react among
    the dev-dependencies with an empty version; there the framework is
    not react. *)
Lemma C8_shadowed_react :
  dependencies shadowedReact = {[ "react" := "^18.0.0" ]}
  ∧ length (entryPoints shadowedReact) = 1
  ∧ framework (detectFrameworkAndType shadowedReact) = "traditional".
Proof. split_and!; reflexivity. Qed.

(** ** Round-robin generation *)

Import TestStrategy TestSpecGenerator.

(** *** What one spec is built from *)


(** The keys of the template map are not names of inherited members:
    the lookup gives a template string unless the tag names such a
    member. *)
Lemma getBaseTemplate_run (specType : option string) :
  getBaseTemplate specType
  = if inherited_tag specType then InheritedMember (type_string specType)
    else Text (default basic (JS.assoc (type_string specType) templateMap)).
Proof.
  unfold getBaseTemplate, JS.member, inherited_tag.
  destruct (JS.assoc (type_string specType) templateMap) as [t |] eqn:Ht.
  - rewrite bool_decide_eq_false_2; [reflexivity |].
    intros Hin.
    assert (Hall : Forall (fun k => JS.assoc k templateMap = None)
                     JS.objectPrototypeProps) by repeat constructor.
    rewrite Forall_forall in Hall. rewrite (Hall _ Hin) in Ht. discriminate.
  - by destruct (bool_decide _).
Qed.

(** Building the content raises exactly when the tag names an inherited
    member and the framework is one whose template gets [replace]d. *)
Lemma generateSpecContent_run clock (specType : option string) (a : Analysis)
  (i : nat) :
  match generateSpecContent clock specType a i with
  | Ok _ => inherited_tag specType && replaces a = false
  | Throw e =>
      inherited_tag specType && replaces a = true
      ∧ e = "customized.replace is not a function"
  end.
Proof.
  unfold generateSpecContent, customizeTemplate, replaces.
  rewrite getBaseTemplate_run.
  destruct (inherited_tag specType);
    destruct (String.eqb (framework a) "react"),
      (String.eqb (framework a) "vue"), (String.eqb (framework a) "angular");
    cbn; auto.
Qed.

Lemma generateSpec_run clock (a : Analysis) (s : Strategy) (i : nat) :
  match generateSpec clock a s i with
  | Ok spec =>
      inherited_tag (selectSpecType s i) && replaces a = false
      ∧ gs_name spec = "generated-spec-" +:+ pretty (i + 1) +:+ ".cy.js"
      ∧ gs_type spec = selectSpecType s i
      ∧ gs_path spec = "cypress/e2e/" +:+ gs_name spec
      ∧ generateSpecContent clock (selectSpecType s i) a i = Ok (gs_content spec)
  | Throw e =>
      inherited_tag (selectSpecType s i) && replaces a = true
      ∧ e = "customized.replace is not a function"
  end.
Proof.
  unfold generateSpec.
  pose proof (generateSpecContent_run clock (selectSpecType s i) a i) as Hc.
  destruct (generateSpecContent clock (selectSpecType s i) a i) as [content | e];
    cbn; [| exact Hc].
  split_and!; [exact Hc | done | done | reflexivity | done].
Qed.

(** The loop appends one spec per index, in order, and stops at the
    first index whose spec cannot be built. *)
Lemma generateLoop_Ok clock (a : Analysis) (s : Strategy) :
  ∀ count start specs out,
    generateLoop clock a s start count specs = Ok out
    ↔ ∃ new,
        out = specs ++ new
        ∧ Forall2 (fun i spec => generateSpec clock a s i = Ok spec)
            (seq start count) new.
Proof.
  induction count as [| count IH]; intros start specs out; simpl.
  - split.
    + intros [= <-]. exists []. by rewrite app_nil_r.
    + intros (new & -> & Hnew). apply Forall2_nil_inv_l in Hnew as ->.
      by rewrite app_nil_r.
  - unfold mbind at 1, result_bind at 1.
    destruct (generateSpec clock a s start) as [spec | e] eqn:Hspec.
    + rewrite IH. split.
      * intros (new & -> & Hnew). exists (spec :: new).
        split; [by rewrite <- app_assoc | by constructor].
      * intros (new & -> & Hnew).
        apply Forall2_cons_inv_l in Hnew as (spec' & new' & Hs & Hnew & ->).
        assert (spec' = spec) as -> by congruence.
        exists new'. split; [by rewrite <- app_assoc | exact Hnew].
    + split; [discriminate |].
      intros (new & _ & Hnew).
      apply Forall2_cons_inv_l in Hnew as (spec' & new' & Hs & _ & _).
      congruence.
Qed.

Lemma generateLoop_Throw clock (a : Analysis) (s : Strategy) :
  ∀ count start specs e,
    generateLoop clock a s start count specs = Throw e →
    ∃ i, start ≤ i < start + count ∧ generateSpec clock a s i = Throw e.
Proof.
  induction count as [| count IH]; intros start specs e; simpl; [discriminate |].
  unfold mbind at 1, result_bind at 1.
  destruct (generateSpec clock a s start) as [spec | e'] eqn:Hspec.
  - intros H. destruct (IH _ _ _ H) as (i & Hi & He).
    exists i. split; [lia | exact He].
  - intros [= <-]. exists start. split; [lia | exact Hspec].
Qed.

Lemma generateTestSpecs_specs clock (a : Analysis) (s : Strategy)
  (specs : list GeneratedSpec) :
  generateTestSpecs clock a s = Ok specs
  ↔ Forall2 (fun i spec => generateSpec clock a s i = Ok spec)
      (seq 0 (Z.to_nat (recommendedSpecs s))) specs.
Proof.
  unfold generateTestSpecs. rewrite generateLoop_Ok. split.
  - by intros (new & -> & Hnew).
  - intros H. by exists specs.
Qed.

(** The generator returns when every spec can be built. *)
Lemma generateTestSpecs_returns clock (a : Analysis) (s : Strategy) :
  (∀ i, i < Z.to_nat (recommendedSpecs s) →
        inherited_tag (selectSpecType s i) && replaces a = false) →
  ∃ specs, generateTestSpecs clock a s = Ok specs.
Proof.
  intros Hsafe.
  destruct (generateTestSpecs clock a s) as [specs | e] eqn:Hgen;
    [by eexists |].
  unfold generateTestSpecs in Hgen.
  apply generateLoop_Throw in Hgen as (i & Hi & He).
  pose proof (generateSpec_run clock a s i) as Hrun. rewrite He in Hrun.
  destruct Hrun as [Hbad _]. rewrite Hsafe in Hbad by lia. discriminate.
Qed.

(** The specs of a run that returned, one by one. *)
Lemma generateTestSpecs_lookup clock (a : Analysis) (s : Strategy)
  (specs : list GeneratedSpec) :
  generateTestSpecs clock a s = Ok specs →
  length specs = Z.to_nat (recommendedSpecs s)
  ∧ ∀ i spec, specs !! i = Some spec → generateSpec clock a s i = Ok spec.
Proof.
  intros Hgen. apply generateTestSpecs_specs in Hgen.
  split; [by rewrite <- (Forall2_length _ _ _ Hgen), length_seq |].
  intros i spec Hspec.
  destruct (Forall2_lookup_r _ _ _ _ _ Hgen Hspec) as (j & Hj & Hs).
  apply lookup_seq in Hj as [-> _]. exact Hs.
Qed.




(** The names and types of five specs over two patterns. *)
Example generateTestSpecs_five_over_two :
  ∃ specs,
    generateTestSpecs sampleClock bareAnalysis twoPatternStrategy = Ok specs
    ∧ map (fun spec => (gs_name spec, gs_type spec)) specs
      = [ ("generated-spec-1.cy.js", Some "navigation-testing");
          ("generated-spec-2.cy.js", Some "form-testing");
          ("generated-spec-3.cy.js", Some "navigation-testing");
          ("generated-spec-4.cy.js", Some "form-testing");
          ("generated-spec-5.cy.js", Some "navigation-testing") ].
Proof. eexists. split; vm_compute; reflexivity. Qed.

(** Every strategy the engine builds has at least the four patterns of
    its profile, none of them the name of an inherited member, and
    recommends the generator a natural number of specs: the generator
    then returns that many. *)
Lemma generateStrategy_patterns (a : Analysis) (s : Strategy) :
  generateStrategy a = Ok s →
  4 ≤ length (testPatterns s)
  ∧ Forall (fun tag => tag ∉ JS.objectPrototypeProps) (testPatterns s).
Proof.
  intros Hs. apply generateStrategy_Ok in Hs as [_ ->].
  cbn [testPatterns customStrategy].
  assert (Hbase : length (p_patterns
            (default traditional (JS.assoc (framework a) strategies))) = 4
          ∧ Forall (fun tag => tag ∉ JS.objectPrototypeProps)
              (p_patterns (default traditional
                             (JS.assoc (framework a) strategies)))).
  { unfold strategies. cbn [JS.assoc].
    repeat (destruct (String.eqb (framework a) _);
            [split; [reflexivity | repeat constructor; by_decision] |]).
    split; [reflexivity | repeat constructor; by_decision]. }
  destruct Hbase as [Hlen Hown].
  unfold selectTestPatterns.
  destruct (_ || _), (1 <? _), (path_signal a "form");
    rewrite ?length_app, ?Forall_app, Hlen; simpl;
    (split; [lia | split_and?; auto; repeat constructor; by_decision]).
Qed.

Lemma selectSpecType_elem (s : Strategy) (i : nat) :
  testPatterns s ≠ [] →
  ∃ tag, selectSpecType s i = Some tag ∧ tag ∈ testPatterns s.
Proof.
  intros Hne. unfold selectSpecType.
  assert (Hlt : i mod length (testPatterns s) < length (testPatterns s)).
  { apply Nat.mod_upper_bound. by destruct (testPatterns s). }
  destruct (lookup_lt_is_Some_2 _ _ Hlt) as [tag Htag].
  exists tag. split; [exact Htag | by eapply list_elem_of_lookup_2].
Qed.

(** The generator returns on every strategy of the engine, with as many
    specs as the strategy recommends. *)
Lemma generateTestSpecs_of_engine clock (a : Analysis) (s : Strategy) :
  generateStrategy a = Ok s →
  ∃ specs,
    generateTestSpecs clock a s = Ok specs
    ∧ Z.of_nat (length specs) = recommendedSpecs s.
Proof.
  intros Hs. destruct (generateStrategy_patterns a s Hs) as [Hlen Hown].
  destruct (generateTestSpecs_returns clock a s) as [specs Hgen].
  { intros i _. apply andb_false_intro1. unfold inherited_tag.
    apply bool_decide_eq_false_2.
    destruct (selectSpecType_elem s i) as (tag & -> & Hin).
    { intros Hnil. rewrite Hnil in Hlen. simpl in Hlen. lia. }
    revert Hin. generalize tag. by apply Forall_forall. }
  exists specs. split; [exact Hgen |].
  destruct (generateTestSpecs_lookup clock a s specs Hgen) as [-> _].
  apply generateStrategy_Ok in Hs as [_ ->].
  cbn [recommendedSpecs customStrategy].
  pose proof (calculateRecommendedSpecs_int a) as H. cbn zeta in H.
  rewrite Z2Nat.id; [reflexivity |]. rewrite H. Z.div_mod_to_equations. lia.
Qed.

(** The framework detection leaves, starting from 'none', is never the
    name of a member inherited from [Object.prototype]. *)
Lemma detected_framework_own (a : Analysis) :
  framework a = "none" →
  framework (detectFrameworkAndType a) ∉ JS.objectPrototypeProps.
Proof.
  intros Hnone. rewrite detectFrameworkAndType_framework, Hnone.
  destruct (firstIndicated frameworkIndicators (combined a)) as [fw |] eqn:Hf;
    simpl; [| by_decision].
  apply firstIndicated_key in Hf.
  destruct (String.eqb fw "none"); [by_decision |].
  revert Hf. generalize fw. apply Forall_forall.
  repeat constructor; by_decision.
Qed.

(** The keys the pipeline reads its tables at are never names of members
    inherited from [Object.prototype]: the framework that detection
    leaves, starting from 'none', and the pattern tags of the engine. So
    the engine and the generator both return there. *)
Lemma pipeline_keys_own clock (a : Analysis) :
  framework a = "none" →
  (framework (detectFrameworkAndType a) ∉ JS.objectPrototypeProps)
  ∧ ∃ s specs,
      generateStrategy (detectFrameworkAndType a) = Ok s
      ∧ Forall (fun tag => tag ∉ JS.objectPrototypeProps) (testPatterns s)
      ∧ generateTestSpecs clock (detectFrameworkAndType a) s = Ok specs.
Proof.
  intros Hnone. pose proof (detected_framework_own a Hnone) as Hown.
  split; [exact Hown |].
  pose proof (generateStrategy_own _ Hown) as Hs.
  destruct (generateTestSpecs_of_engine clock _ _ Hs) as (specs & Hgen & _).
  destruct (generateStrategy_patterns _ _ Hs) as [_ Htags].
  eauto 10.
Qed.

(** ** The structural scan *)

Import ProjectAnalyzer.

Example scan_sample :
  scan sampleFs (scan_fuel 0) "/repo" "" 0
  = [ FileEntry "package.json" ".json" 412 true;
      DirectoryEntry "src" 0 true;
      DirectoryEntry "src/components" 1 true;
      DirectoryEntry "src/components/pages" 2 true;
      DirectoryEntry "src/components/pages/admin" 3 false;
      DirectoryEntry "src/components/forms" 2 false;
      FileEntry "src/index.js" ".js" 230 true;
      DirectoryEntry "docs" 0 false;
      DirectoryEntry "docs/guides" 1 false;
      DirectoryEntry "docs/guides/setup" 2 false ].
Proof. vm_compute. reflexivity. Qed.

Lemma elem_of_flat_map {A B} (f : A → list B) (l : list A) (y : B) :
  y ∈ flat_map f l ↔ ∃ x, x ∈ l ∧ y ∈ f x.
Proof.
  rewrite list_elem_of_In, in_flat_map.
  split; intros (x & Hx & Hy); exists x; by rewrite ?list_elem_of_In in *.
Qed.

Lemma join_segments_snoc (pre : list string) (item : string) :
  JS.path_join (join_segments pre) item = join_segments (pre ++ [item]).
Proof. unfold join_segments. by rewrite fold_left_app. Qed.

Lemma skipped_false (item : string) :
  skipped item = false → allowed_segment item.
Proof.
  unfold skipped, allowed_segment. intros H.
  apply orb_false_elim in H as [H Hgit].
  apply orb_false_elim in H as [Hdot Hnm].
  split_and!; [by apply String.eqb_neq | by apply String.eqb_neq | exact Hdot].
Qed.

(** More fuel than the levels left changes nothing. *)
Lemma scan_fuel_enough fs (repoPath : string) :
  ∀ fuel1 fuel2 currentPath depth,
    scan_fuel depth ≤ fuel1 → scan_fuel depth ≤ fuel2 →
    scan fs fuel1 repoPath currentPath depth
    = scan fs fuel2 repoPath currentPath depth.
Proof.
  unfold scan_fuel.
  induction fuel1 as [| fuel1 IH]; intros [| fuel2] currentPath depth H1 H2;
    simpl; try reflexivity.
  - destruct (3 <? depth) eqn:Hd; [reflexivity |].
    apply Nat.ltb_ge in Hd. lia.
  - destruct (3 <? depth) eqn:Hd; [reflexivity |].
    apply Nat.ltb_ge in Hd. lia.
  - destruct (3 <? depth) eqn:Hd; [reflexivity |].
    destruct (fs_readdir fs _); [| reflexivity].
    apply flat_map_ext. intros item. unfold scan_item.
    destruct (skipped item); [reflexivity |].
    destruct (fs_stat fs _) as [st |]; [| reflexivity].
    destruct (isDirectory st); [| reflexivity].
    destruct (_ || _); [| reflexivity].
    f_equal. apply IH; lia.
Qed.

Lemma scan_entries fs (repoPath : string) :
  ∀ fuel pre depth e,
    e ∈ scan fs fuel repoPath (join_segments pre) depth →
    ∃ rest,
      scan_entry_ok fs (scan fs fuel repoPath (join_segments pre) depth)
        pre depth e rest.
Proof.
  induction fuel as [| fuel IH]; intros pre depth e; simpl.
  { intros H. by apply elem_of_nil in H. }
  destruct (3 <? depth) eqn:Hcap.
  { intros H. by apply elem_of_nil in H. }
  apply Nat.ltb_ge in Hcap.
  destruct (fs_readdir fs _) as [items |] eqn:Hdir;
    [| intros H; by apply elem_of_nil in H].
  intros He. apply elem_of_flat_map in He as (item & Hitem & He).
  assert (Hlisted : Forall (listed fs) [item]).
  { repeat constructor. by exists (JS.path_join repoPath (join_segments pre)), items. }
  assert (Hsub : ∀ x, x ∈ scan_item fs (scan fs fuel repoPath) repoPath
                          (join_segments pre) depth item →
                   x ∈ flat_map (scan_item fs (scan fs fuel repoPath) repoPath
                                   (join_segments pre) depth) items).
  { intros x Hx. apply elem_of_flat_map. eauto. }
  revert He Hsub. unfold scan_item.
  destruct (skipped item) eqn:Hskip; [intros H; by apply elem_of_nil in H |].
  apply skipped_false in Hskip.
  rewrite join_segments_snoc.
  destruct (fs_stat fs _) as [st |]; [| intros H; by apply elem_of_nil in H].
  destruct (isDirectory st).
  - intros He Hsub. apply elem_of_cons in He as [-> | He].
    + (* the directory itself *)
      exists [item]. unfold scan_entry_ok. simpl.
      split_and!; auto; try lia.
    + (* an entry of the recursive call *)
      revert He Hsub.
      destruct ((depth <? 2) || isImportantDirectory item) eqn:Hrec;
        intros He Hsub; [| by apply elem_of_nil in He].
      destruct (IH (pre ++ [item]) (depth + 1) e He)
        as (rest & Hne & Hpath & Hlist & Hall & Hdepth & Hshape & Hanc).
      exists (item :: rest). unfold scan_entry_ok.
      assert (Hlen : 0 < length rest) by (destruct rest; [done | simpl; lia]).
      split_and!.
      * done.
      * by rewrite Hpath, <- app_assoc.
      * by apply (Forall_app _ [item] rest).
      * by constructor.
      * simpl. lia.
      * destruct e; simpl; lia.
      * intros [| j] name Hj Hdeep Hname; simpl in Hname.
        -- injection Hname as <-.
           assert (Himp : isImportantDirectory item = true).
           { destruct (depth <? 2) eqn:Hlt; [| exact Hrec].
             apply Nat.ltb_lt in Hlt. lia. }
           split; [exact Himp |].
           apply Hsub. rewrite Himp, Nat.add_0_r. simpl. left.
        -- simpl in Hj.
           destruct (Hanc j name ltac:(lia) ltac:(lia) Hname) as [Himp Hin].
           split; [exact Himp |].
           apply Hsub. right.
           replace (depth + S j) with (depth + 1 + j) by lia.
           simpl. by rewrite <- app_assoc in Hin.
  - destruct (isFile st && (depth <=? 2)) eqn:Hfile;
      [| intros H; by apply elem_of_nil in H].
    intros He _. apply list_elem_of_singleton in He as ->.
    apply andb_true_iff in Hfile as [_ Hd]. apply Nat.leb_le in Hd.
    exists [item]. unfold scan_entry_ok. simpl.
    split_and!; auto; try lia.
Qed.

(** C7, amended. Every entry the structural scan emits into
    projectStructure has a path none of whose segments is
    'node_modules', '.git' or a dot-prefixed name; file entries appear at
    depth 2 at most; an entry lies below a directory of depth 2 or more
    (beyond the normal recursion depth) only if every such directory
    strictly above it on its path is itself an emitted entry flagged
    important, whereas the entry itself need not be important; and no
    entry lies deeper than depth 3, three levels below a scan started at
    depth 0. *)
Theorem C7_structural_scan_invariant fs (repoPath : string) (start : nat)
  (e : StructureEntry) :
  e ∈ scan fs (scan_fuel start) repoPath "" start →
  ∃ segs,
    segs ≠ []
    ∧ entry_path e = join_segments segs
    ∧ Forall (listed fs) segs
    ∧ Forall allowed_segment segs
    ∧ length segs ≤ 4
    ∧ start + (length segs - 1) ≤ 3
    ∧ match e with
      | FileEntry _ _ _ _ => start + (length segs - 1) ≤ 2
      | DirectoryEntry _ depth _ => depth = start + (length segs - 1)
      end
    ∧ ∀ j name, S j < length segs → 2 ≤ start + j → segs !! j = Some name →
        isImportantDirectory name = true
        ∧ DirectoryEntry (join_segments (take (S j) segs)) (start + j) true
          ∈ scan fs (scan_fuel start) repoPath "" start.
Proof.
  intros He.
  destruct (scan_entries fs repoPath (scan_fuel start) [] start e He)
    as (segs & Hne & Hpath & Hlist & Hall & Hdepth & Hshape & Hanc).
  exists segs. split_and!; auto. lia.
Qed.

(** ** Paths as strings

    When the file system lists proper names only, the names that lead to
    an entry are the segments of its path string. *)

Lemma split_slash_nonempty (s : string) : JS.split_slash s ≠ [].
Proof.
  induction s as [| c s IH]; simpl; [done |].
  destruct (Ascii.eqb c "/"); [done |].
  by destruct (JS.split_slash s).
Qed.

Lemma includes_slash_cons (c : ascii) (s : string) :
  JS.includes (String c s) "/" = false →
  Ascii.eqb c "/" = false ∧ JS.includes s "/" = false.
Proof.
  simpl. intros H. apply orb_false_elim in H as [Hpre Hrest].
  split; [| exact Hrest].
  destruct (Ascii.eqb_spec c "/") as [-> |]; [| reflexivity].
  by destruct s.
Qed.

Lemma split_slash_name (x : string) :
  JS.includes x "/" = false → JS.split_slash x = [x].
Proof.
  induction x as [| c x IH]; [reflexivity |].
  intros H. apply includes_slash_cons in H as [Hc Hx].
  simpl. rewrite Hc, (IH Hx). reflexivity.
Qed.

Lemma split_slash_snoc (s x : string) :
  JS.includes x "/" = false →
  JS.split_slash (s +:+ String "/" x) = JS.split_slash s ++ [x].
Proof.
  intros Hx. induction s as [| c s IH]; simpl.
  - by rewrite (split_slash_name x Hx).
  - rewrite IH. destruct (Ascii.eqb c "/"); [reflexivity |].
    pose proof (split_slash_nonempty s).
    by destruct (JS.split_slash s).
Qed.

Lemma join_segments_nonempty (segs : list string) :
  segs ≠ [] → Forall proper_name segs → join_segments segs ≠ "".
Proof.
  induction segs as [| x pre IH] using rev_ind; [done |].
  intros _ Hall. apply Forall_app in Hall as [Hpre Hx].
  apply Forall_singleton in Hx as [Hx _].
  rewrite <- join_segments_snoc. unfold JS.path_join.
  destruct (join_segments pre), x; done.
Qed.

Lemma split_join_segments (segs : list string) :
  segs ≠ [] → Forall proper_name segs →
  JS.split_slash (join_segments segs) = segs.
Proof.
  induction segs as [| x pre IH] using rev_ind; [done |].
  intros _ Hall. apply Forall_app in Hall as [Hpre Hx].
  apply Forall_singleton in Hx as [Hx Hslash].
  rewrite <- join_segments_snoc.
  destruct pre as [| y pre].
  - simpl. by apply split_slash_name.
  - pose proof (join_segments_nonempty (y :: pre) ltac:(done) Hpre) as Hne.
    specialize (IH ltac:(done) Hpre).
    unfold JS.path_join.
    destruct (join_segments (y :: pre)) as [| c s] eqn:Hj; [done |].
    destruct x as [| d x]; [done |].
    change ("/" +:+ String d x) with (String "/" (String d x)).
    rewrite split_slash_snoc by exact Hslash. by rewrite IH.
Qed.

(** The invariant of the scan, read off the path string of an entry. *)
Corollary scan_path_segments fs (repoPath : string) (start : nat)
  (e : StructureEntry) :
  (∀ name, listed fs name → proper_name name) →
  e ∈ scan fs (scan_fuel start) repoPath "" start →
  Forall allowed_segment (JS.split_slash (entry_path e))
  ∧ start + (length (JS.split_slash (entry_path e)) - 1) ≤ 3
  ∧ match e with
    | FileEntry _ _ _ _ =>
        start + (length (JS.split_slash (entry_path e)) - 1) ≤ 2
    | DirectoryEntry _ depth _ =>
        depth = start + (length (JS.split_slash (entry_path e)) - 1)
    end.
Proof.
  intros Hproper He.
  destruct (scan_entries fs repoPath (scan_fuel start) [] start e He)
    as (segs & Hne & Hpath & Hlist & Hall & Hdepth & Hshape & _).
  assert (Hsplit : JS.split_slash (entry_path e) = segs).
  { rewrite Hpath. apply split_join_segments; [done |].
    apply (Forall_impl _ _ _ Hlist). exact Hproper. }
  rewrite Hsplit. destruct e; auto.
Qed.

(** ** The walk of [globFind]

    A file-system depth limit beyond the height of the tree does not show
    in the result: the bounded walk is the walk. *)
Lemma search_fuel_enough fs (pattern : string) :
  ∀ h dir relative fuel1 fuel2,
    walk_fits fs h dir = true → h < fuel1 → h < fuel2 →
    search fs fuel1 pattern dir relative = search fs fuel2 pattern dir relative.
Proof.
  induction h as [| h IH]; intros dir relative [| fuel1] [| fuel2] Hfits H1 H2;
    try lia; simpl in *.
  - destruct (fs_readdir fs dir); [discriminate | reflexivity].
  - destruct (fs_readdir fs dir) as [items |]; [| reflexivity].
    induction items as [| item items IHitems]; [reflexivity |].
    simpl in Hfits. apply andb_true_iff in Hfits as [Hitem Hitems].
    rewrite (IHitems Hitems).
    destruct (_ || _); [reflexivity |].
    destruct (fs_stat fs _) as [st |]; [| reflexivity].
    destruct (isDirectory st); [| reflexivity].
    f_equal. apply IH; [exact Hitem | lia | lia].
Qed.

Corollary globFind_exact fs (repoPath pattern : string) (h fuel : nat) :
  walk_fits fs h repoPath = true → h < fs_depthLimit fs → h < fuel →
  globFind fs repoPath pattern = search fs fuel pattern repoPath "".
Proof. intros Hfits Hlimit Hfuel. by apply (search_fuel_enough fs pattern h). Qed.

(** The sample repository is five levels high. *)
Example globFind_sample :
  walk_fits sampleFs 5 "/repo" = true
  ∧ globFind sampleFs "/repo" "**/*.jsx" = ["src/components/pages/Home.jsx"].
Proof. split; vm_compute; reflexivity. Qed.

(** ** Fail-soft analysis *)

Section Preserves.

Context {S : Type} (P : S → Prop).

Lemma preserves_ret {A} (x : A) : preserves P (mret x : Eff S A).
Proof. intros s Hs. exact Hs. Qed.

Lemma preserves_await {A} (r : result A) : preserves P (await r).
Proof. intros s Hs. exact Hs. Qed.

Lemma preserves_current : preserves P current.
Proof. intros s Hs. exact Hs. Qed.

Lemma preserves_assign (f : S → S) :
  (∀ s, P s → P (f s)) → preserves P (assign f).
Proof. intros Hf s Hs. by apply Hf. Qed.

Lemma preserves_bind {A B} (m : Eff S A) (f : A → Eff S B) :
  preserves P m → (∀ x, preserves P (f x)) → preserves P (m ≫= f).
Proof.
  intros Hm Hf s Hs. specialize (Hm s Hs).
  unfold mbind, eff_bind. destruct (m s) as [s' [x | e]]; simpl in *.
  - by apply Hf.
  - exact Hm.
Qed.

Lemma preserves_try_catch {A} (body : Eff S A) (handler : string → Eff S A) :
  preserves P body → (∀ e, preserves P (handler e)) →
  preserves P (try_catch body handler).
Proof.
  intros Hb Hh s Hs. specialize (Hb s Hs).
  unfold try_catch. destruct (body s) as [s' [x | e]]; simpl in *.
  - exact Hb.
  - by apply Hh.
Qed.

Lemma preserves_for_of {A} (xs : list A) (body : A → Eff S unit) :
  (∀ x, preserves P (body x)) → preserves P (for_of xs body).
Proof.
  intros Hb. induction xs as [| x xs IH]; simpl.
  - apply preserves_ret.
  - apply preserves_bind; auto.
Qed.

End Preserves.

Lemma preserves_and {S A} (P Q : S → Prop) (m : Eff S A) :
  preserves P m → preserves Q m → preserves (fun s => P s ∧ Q s) m.
Proof. intros HP HQ s [Hp Hq]. split; auto. Qed.

Lemma preserves_guard {S A} (C : Prop) (P : S → Prop) (m : Eff S A) :
  (C → preserves P m) → preserves (fun s => C → P s) m.
Proof. intros H s Hs Hc. apply H; auto. Qed.

(** Takes a sub-step apart down to its assignments. *)
Ltac frame :=
  repeat first
    [ apply preserves_ret
    | apply preserves_await
    | apply preserves_current
    | apply preserves_bind; [| intros ?]
    | apply preserves_try_catch; [| intros ?]
    | apply preserves_for_of; intros ?
    | apply preserves_assign; let H := fresh in intros ? H; exact H
    | match goal with
      | |- preserves _ (if ?b then _ else _) => destruct b
      | |- preserves _ (match ?x with _ => _ end) => destruct x
      end ].

Lemma detectFrameworkAndType_others (a : Analysis) :
  entryPoints (detectFrameworkAndType a) = entryPoints a
  ∧ testFiles (detectFrameworkAndType a) = testFiles a
  ∧ buildTools (detectFrameworkAndType a) = buildTools a
  ∧ buildScripts (detectFrameworkAndType a) = buildScripts a.
Proof.
  unfold detectFrameworkAndType.
  destruct (firstIndicated _ _); simpl;
    match goal with |- context [String.eqb ?x "none"] =>
      destruct (String.eqb x "none") end; auto.
Qed.

Section Frames.

Variable fs : FileSystem.
Variable repoPath : string.

Lemma analyzePackageJson_frame :
  preserves installed_pending (analyzePackageJson fs repoPath)
  ∧ preserves structure_pending (analyzePackageJson fs repoPath)
  ∧ preserves detection_pending (analyzePackageJson fs repoPath)
  ∧ preserves entries_pending (analyzePackageJson fs repoPath)
  ∧ preserves tests_pending (analyzePackageJson fs repoPath)
  ∧ preserves build_pending (analyzePackageJson fs repoPath).
Proof. unfold analyzePackageJson. split_and!; frame. Qed.

Lemma analyzeInstalledDependencies_frame :
  preserves structure_pending (analyzeInstalledDependencies fs repoPath)
  ∧ preserves detection_pending (analyzeInstalledDependencies fs repoPath)
  ∧ preserves entries_pending (analyzeInstalledDependencies fs repoPath)
  ∧ preserves tests_pending (analyzeInstalledDependencies fs repoPath)
  ∧ preserves build_pending (analyzeInstalledDependencies fs repoPath).
Proof. unfold analyzeInstalledDependencies. split_and!; frame. Qed.

Lemma analyzeProjectStructure_frame (currentPath : string) (depth : nat) :
  preserves detection_pending (analyzeProjectStructure fs repoPath currentPath depth)
  ∧ preserves entries_pending (analyzeProjectStructure fs repoPath currentPath depth)
  ∧ preserves tests_pending (analyzeProjectStructure fs repoPath currentPath depth)
  ∧ preserves build_pending (analyzeProjectStructure fs repoPath currentPath depth).
Proof. unfold analyzeProjectStructure. split_and!; frame. Qed.

Lemma detectFrameworkAndType_step_frame :
  preserves entries_pending (assign detectFrameworkAndType)
  ∧ preserves tests_pending (assign detectFrameworkAndType)
  ∧ preserves build_pending (assign detectFrameworkAndType).
Proof.
  split_and!; apply preserves_assign; intros a;
    destruct (detectFrameworkAndType_others a) as (He & Ht & Hb & Hs);
    unfold entries_pending, tests_pending, build_pending; congruence.
Qed.

Lemma findEntryPoints_frame :
  preserves tests_pending (findEntryPoints fs repoPath)
  ∧ preserves build_pending (findEntryPoints fs repoPath).
Proof. unfold findEntryPoints. split_and!; frame. Qed.

Lemma findExistingTests_frame :
  preserves build_pending (findExistingTests fs repoPath).
Proof. unfold findExistingTests. frame. Qed.

End Frames.

Lemma preserves_for_of_in {S A} (P : S → Prop) (xs : list A)
  (body : A → Eff S unit) :
  (∀ x, x ∈ xs → preserves P (body x)) → preserves P (for_of xs body).
Proof.
  induction xs as [| x xs IH]; intros Hb; simpl.
  - apply preserves_ret.
  - apply preserves_bind.
    + apply Hb. left.
    + intros _. apply IH. intros y Hy. apply Hb. by right.
Qed.

(** When the steps before the [k]-th return and the [k]-th raises, the
    whole run raises there, leaving the state the [k]-th step left. *)
Lemma run_steps_throw {S} (steps : list (Eff S unit)) :
  ∀ k step s0 before s e,
    steps !! k = Some step →
    run_steps (take k steps) s0 = (before, Ok tt) →
    step before = (s, Throw e) →
    run_steps steps s0 = (s, Throw e).
Proof.
  unfold run_steps.
  induction steps as [| x rest IH]; intros [| k] step s0 before s e Hk Hpre Hstep;
    simpl in *; try discriminate.
  - injection Hk as ->. injection Hpre as ->.
    unfold mbind, eff_bind. by rewrite Hstep.
  - revert Hpre. unfold mbind, eff_bind.
    destruct (x s0) as [s1 [[] | e1]]; [| discriminate].
    intros Hpre. by eapply IH.
Qed.

Section FailSoft.

Variable fs : FileSystem.
Variable now : string.
Variable repoPath : string.

(** A sub-step leaves the fields of the sub-steps after it, and of any
    later point, as they were. *)
Lemma step_preserves_pending (j k : nat) (step : Step unit) :
  deepAnalysis_steps fs repoPath !! j = Some step → j ≤ k →
  preserves (pending_after k) step.
Proof.
  destruct (analyzePackageJson_frame fs repoPath) as (Ka1 & Ka2 & Ka3 & Ka4 & Ka5 & Ka6).
  destruct (analyzeInstalledDependencies_frame fs repoPath)
    as (Kb2 & Kb3 & Kb4 & Kb5 & Kb6).
  destruct (analyzeProjectStructure_frame fs repoPath "" 0) as (Kc3 & Kc4 & Kc5 & Kc6).
  destruct detectFrameworkAndType_step_frame as (Kd4 & Kd5 & Kd6).
  destruct (findEntryPoints_frame fs repoPath) as (Ke5 & Ke6).
  pose proof (findExistingTests_frame fs repoPath) as Kf6.
  intros Hj Hle a (H1 & H2 & H3 & H4 & H5 & H6).
  destruct j as [| [| [| [| [| [| [| j]]]]]]]; simpl in Hj;
    try discriminate; injection Hj as <-;
    (split_and!; intros Hk; try lia);
    first [ apply (Ka1 a) | apply (Ka2 a) | apply (Ka3 a) | apply (Ka4 a)
          | apply (Ka5 a) | apply (Ka6 a)
          | apply (Kb2 a) | apply (Kb3 a) | apply (Kb4 a) | apply (Kb5 a)
          | apply (Kb6 a)
          | apply (Kc3 a) | apply (Kc4 a) | apply (Kc5 a) | apply (Kc6 a)
          | apply (Kd4 a) | apply (Kd5 a) | apply (Kd6 a)
          | apply (Ke5 a) | apply (Ke6 a) | apply (Kf6 a) ];
    auto.
Qed.

Lemma pending_after_initial (k : nat) : pending_after k (initialAnalysis now).
Proof. unfold pending_after. split_and!; intros _; repeat split. Qed.

(** The body of [deepAnalysis] ends where its sub-steps end, and what it
    returns is the object itself. *)
Lemma deepAnalysis_body_run (a0 : Analysis) :
  (deepAnalysis_body fs repoPath a0).1
  = (run_steps (deepAnalysis_steps fs repoPath) a0).1
  ∧ ∀ v, (deepAnalysis_body fs repoPath a0).2 = Ok v →
         v = (deepAnalysis_body fs repoPath a0).1.
Proof.
  unfold deepAnalysis_body, run_steps, deepAnalysis_steps. simpl for_of.
  unfold mbind, eff_bind.
  destruct (analyzePackageJson fs repoPath a0) as [a1 [[] | e]];
    [| split; [reflexivity | discriminate]].
  destruct (analyzeInstalledDependencies fs repoPath a1) as [a2 [[] | e]];
    [| split; [reflexivity | discriminate]].
  destruct (analyzeProjectStructure fs repoPath "" 0 a2) as [a3 [[] | e]];
    [| split; [reflexivity | discriminate]].
  destruct (assign detectFrameworkAndType a3) as [a4 [[] | e]];
    [| split; [reflexivity | discriminate]].
  destruct (findEntryPoints fs repoPath a4) as [a5 [[] | e]];
    [| split; [reflexivity | discriminate]].
  destruct (findExistingTests fs repoPath a5) as [a6 [[] | e]];
    [| split; [reflexivity | discriminate]].
  destruct (analyzeBuildTools fs repoPath a6) as [a7 [[] | e]];
    [| split; [reflexivity | discriminate]].
  simpl. split; [reflexivity |]. by intros v [= <-].
Qed.

(** [deepAnalysis] returns the object as the sub-steps left it. *)
Lemma deepAnalysis_returns :
  deepAnalysis fs now repoPath
  = Ok (deepAnalysis_body fs repoPath (initialAnalysis now)).1.
Proof.
  destruct (deepAnalysis_body_run (initialAnalysis now)) as [_ Hv].
  unfold deepAnalysis, try_catch.
  destruct (deepAnalysis_body fs repoPath (initialAnalysis now))
    as [a' [v | e]]; simpl in *.
  - by rewrite (Hv v eq_refl).
  - reflexivity.
Qed.

End FailSoft.

(** C6. For every filesystem root the deep analysis never raises. It
    returns the Analysis object as its sub-steps left it: when a sub-step
    raises (the ones before it having returned), that is the partially
    populated record accumulated up to the failure, in which every field
    filled by a later sub-step still holds its empty or false default. *)
Theorem C6_deepAnalysis_fail_soft fs (now repoPath : string) :
  ∃ final,
    deepAnalysis fs now repoPath = Ok final
    ∧ final = (deepAnalysis_body fs repoPath (initialAnalysis now)).1
    ∧ ∀ k step before a e,
        deepAnalysis_steps fs repoPath !! k = Some step →
        run_steps (take k (deepAnalysis_steps fs repoPath)) (initialAnalysis now)
        = (before, Ok tt) →
        step before = (a, Throw e) →
        final = a ∧ pending_after k a.
Proof.
  eexists. split; [apply deepAnalysis_returns |]. split; [reflexivity |].
  intros k step before a e Hk Hpre Hstep.
  split.
  - destruct (deepAnalysis_body_run fs repoPath (initialAnalysis now)) as [-> _].
    by rewrite (run_steps_throw _ _ _ _ _ _ _ Hk Hpre Hstep).
  - assert (Hprefix : preserves (pending_after k)
                        (run_steps (take k (deepAnalysis_steps fs repoPath)))).
    { apply preserves_for_of_in. intros x Hx.
      apply list_elem_of_lookup in Hx as [j Hj].
      apply lookup_take_Some in Hj as [Hj Hlt].
      apply (step_preserves_pending fs repoPath j k x Hj). lia. }
    pose proof (Hprefix _ (pending_after_initial now k)) as Hbefore.
    rewrite Hpre in Hbefore.
    pose proof (step_preserves_pending fs repoPath k k step Hk (le_n k)
                  before Hbefore) as Ha.
    by rewrite Hstep in Ha.
Qed.

(** What the returned Analysis holds in [projectStructure]: nothing, when
    the analysis ended before the scan, or the entries of the scan. *)
Corollary deepAnalysis_projectStructure fs (now repoPath : string) (a : Analysis) :
  deepAnalysis fs now repoPath = Ok a →
  projectStructure a = []
  ∨ projectStructure a = scan fs (scan_fuel 0) repoPath "" 0.
Proof.
  rewrite deepAnalysis_returns. intros [= <-].
  set (found := scan fs (scan_fuel 0) repoPath "" 0).
  assert (K0 : preserves (fun a => projectStructure a = [])
                 (analyzePackageJson fs repoPath))
    by (unfold analyzePackageJson; frame).
  assert (K1 : preserves (fun a => projectStructure a = [])
                 (analyzeInstalledDependencies fs repoPath))
    by (unfold analyzeInstalledDependencies; frame).
  assert (K3 : preserves (fun a => projectStructure a = found)
                 (assign detectFrameworkAndType)).
  { apply preserves_assign. intros a0 H.
    by destruct (detectFrameworkAndType_frame a0) as [-> _]. }
  assert (K4 : preserves (fun a => projectStructure a = found)
                 (findEntryPoints fs repoPath))
    by (unfold findEntryPoints; frame).
  assert (K5 : preserves (fun a => projectStructure a = found)
                 (findExistingTests fs repoPath))
    by (unfold findExistingTests; frame).
  assert (K6 : preserves (fun a => projectStructure a = found)
                 (analyzeBuildTools fs repoPath))
    by (unfold analyzeBuildTools; frame).
  unfold deepAnalysis_body, mbind, eff_bind.
  specialize (K0 (initialAnalysis now) eq_refl).
  destruct (analyzePackageJson fs repoPath (initialAnalysis now))
    as [a1 [[] | e]]; simpl in K0; [| by left].
  specialize (K1 a1 K0).
  destruct (analyzeInstalledDependencies fs repoPath a1) as [a2 [[] | e]];
    simpl in K1; [| by left].
  assert (H3 : projectStructure
                 (analyzeProjectStructure fs repoPath "" 0 a2).1 = found).
  { simpl. by rewrite K1. }
  destruct (analyzeProjectStructure fs repoPath "" 0 a2) as [a3 [[] | e]];
    simpl in H3; [| by right].
  specialize (K3 a3 H3).
  destruct (assign detectFrameworkAndType a3) as [a4 [[] | e]];
    simpl in K3; [| by right].
  specialize (K4 a4 K3).
  destruct (findEntryPoints fs repoPath a4) as [a5 [[] | e]];
    simpl in K4; [| by right].
  specialize (K5 a5 K4).
  destruct (findExistingTests fs repoPath a5) as [a6 [[] | e]];
    simpl in K5; [| by right].
  specialize (K6 a6 K5).
  destruct (analyzeBuildTools fs repoPath a6) as [a7 [[] | e]];
    simpl in K6; by right.
Qed.

(** Detection keeps the framework off the names of inherited members:
    it assigns a key of the indicator table or 'traditional', or leaves
    the framework as it was. *)
Lemma detectFrameworkAndType_own (a : Analysis) :
  framework a ∉ JS.objectPrototypeProps →
  framework (detectFrameworkAndType a) ∉ JS.objectPrototypeProps.
Proof.
  intros Hown. rewrite detectFrameworkAndType_framework.
  destruct (firstIndicated frameworkIndicators (combined a)) as [fw |] eqn:Hf;
    simpl.
  - apply firstIndicated_key in Hf.
    destruct (String.eqb fw "none"); [by_decision |].
    revert Hf. generalize fw. apply Forall_forall.
    repeat constructor; by_decision.
  - destruct (String.eqb (framework a) "none"); [by_decision | exact Hown].
Qed.

(** The framework of the Analysis [deepAnalysis] returns is never the
    name of a member inherited from [Object.prototype]: it is the 'none'
    of the initial object or what detection left. *)
Lemma deepAnalysis_framework fs (now repoPath : string) (a : Analysis) :
  deepAnalysis fs now repoPath = Ok a →
  framework a ∉ JS.objectPrototypeProps.
Proof.
  rewrite deepAnalysis_returns. intros [= <-].
  assert (K : preserves (fun a => framework a ∉ JS.objectPrototypeProps)
                (deepAnalysis_body fs repoPath)).
  { unfold deepAnalysis_body.
    apply preserves_bind; [unfold analyzePackageJson; frame | intros _].
    apply preserves_bind;
      [unfold analyzeInstalledDependencies; frame | intros _].
    apply preserves_bind; [unfold analyzeProjectStructure; frame | intros _].
    apply preserves_bind;
      [apply preserves_assign; intros ? ?; by apply detectFrameworkAndType_own
      | intros _].
    apply preserves_bind; [unfold findEntryPoints; frame | intros _].
    apply preserves_bind; [unfold findExistingTests; frame | intros _].
    apply preserves_bind; [unfold analyzeBuildTools; frame | intros _].
    apply preserves_current. }
  apply K. by_decision.
Qed.

(** On the sample repository the manifest holds a script whose value is
    a number: [analyzeBuildTools] raises on it, and [deepAnalysis]
    still returns, with what the six sub-steps before had found. *)
Example deepAnalysis_sample :
  ∃ before a,
    run_steps (take 6 (deepAnalysis_steps sampleFs "/repo"))
      (initialAnalysis sampleDate) = (before, Ok tt)
    ∧ analyzeBuildTools sampleFs "/repo" before
      = (a, Throw "cmd.includes is not a function")
    ∧ deepAnalysis sampleFs sampleDate "/repo" = Ok a
    ∧ framework a = "react" ∧ projectType a = "React SPA"
    ∧ entryPoints a = [{| ep_path := "src/index.js"; ep_exists := true |}]
    ∧ length (projectStructure a) = 10
    ∧ buildTools a = [] ∧ buildScripts a = None.
Proof.
  eexists _, _. split; [vm_compute; reflexivity |].
  split; [vm_compute; reflexivity |].
  split_and!; vm_compute; reflexivity.
Qed.

Lemma C7_structural_scan_invariant_witness :
  DirectoryEntry "src/components/pages/admin" 3 false
    ∈ scan sampleFs (scan_fuel 0) "/repo" "" 0
  ∧ ∃ segs,
      segs ≠ []
      ∧ "src/components/pages/admin" = join_segments segs
      ∧ Forall (listed sampleFs) segs
      ∧ Forall allowed_segment segs
      ∧ length segs ≤ 4
      ∧ 0 + (length segs - 1) ≤ 3
      ∧ 3 = 0 + (length segs - 1)
      ∧ ∀ j name, S j < length segs → 2 ≤ 0 + j → segs !! j = Some name →
          isImportantDirectory name = true
          ∧ DirectoryEntry (join_segments (take (S j) segs)) (0 + j) true
            ∈ scan sampleFs (scan_fuel 0) "/repo" "" 0.
Proof.
  assert (Hin : DirectoryEntry "src/components/pages/admin" 3 false
                  ∈ scan sampleFs (scan_fuel 0) "/repo" "" 0).
  { rewrite scan_sample. by_membership. }
  split; [exact Hin |].
  exact (C7_structural_scan_invariant sampleFs "/repo" 0 _ Hin).
Defined.

(** C7 as stated fails: the scan of the sample repository emits the
    directory src/components/pages/admin at depth 3, beyond the normal
    recursion depth of 2, and that directory, the last one on its own
    path, is not flagged important. What the scan requires is that its
    parent, src/components/pages at depth 2, is important. *)
Lemma C7_counterexample :
  DirectoryEntry "src/components/pages/admin" 3 false
    ∈ scan sampleFs (scan_fuel 0) "/repo" "" 0
  ∧ JS.split_slash "src/components/pages/admin"
    = ["src"; "components"; "pages"; "admin"]
  ∧ isImportantDirectory "admin" = false
  ∧ isImportantDirectory "pages" = true
  ∧ DirectoryEntry "src/components/pages" 2 true
    ∈ scan sampleFs (scan_fuel 0) "/repo" "" 0.
Proof.
  rewrite scan_sample.
  split_and!; [by_membership | reflexivity | reflexivity | reflexivity
              | by_membership].
Qed.

(** ** The controller *)

Lemma prefix_extension (p s : string) :
  String.prefix p s = true ↔ ∃ rest, s = p +:+ rest.
Proof.
  revert s. induction p as [| c p IH]; intros s; simpl.
  - split; [intros _; by exists s | by destruct s].
  - destruct s as [| d s]; simpl.
    + split; [discriminate | intros [rest Hr]; discriminate].
    + destruct (ascii_dec c d) as [-> | Hne].
      * rewrite IH. split; intros [rest Hr]; exists rest.
        -- by rewrite Hr.
        -- by injection Hr.
      * split; [discriminate | intros [rest Hr]; by injection Hr].
Qed.

Section ControllerFacts.

Context (World CypressCheck : Type).
Context (cloneAndAnalyze : string → Eff World Agent.CloneResult).
Context (checkCypressSetup : string → Eff World CypressCheck).
Context (ensureDir : string → Eff World unit).
Context (writeFile : string → string → Eff World unit).
Context (remove : string → Eff World unit).
Context (fileSystem : World → FileSystem).
Context (now : World → string) (specClock : World → nat → string).
Context (tempDir outputDir : string).

Local Abbreviation cleanup := (Agent.cleanup World remove tempDir).
Local Abbreviation writeSpecs := (Agent.writeSpecs World ensureDir writeFile).
Local Abbreviation saveSpecsToDisk := (Agent.saveSpecsToDisk World ensureDir writeFile).
Local Abbreviation processRepository :=
  (Agent.processRepository World CypressCheck cloneAndAnalyze checkCypressSetup
     ensureDir writeFile remove fileSystem now specClock tempDir outputDir).

(** Whatever [fs.remove] does, [cleanup] returns. *)
Lemma cleanup_returns (p : option string) (w : World) :
  ∃ w', cleanup p w = (w', Ok tt).
Proof.
  unfold Agent.cleanup, try_catch.
  destruct p as [path |]; [| by eexists].
  destruct (JS.truthy path && JS.startsWith path tempDir); [| by eexists].
  destruct (remove path w) as [w' [[] | e]]; by eexists.
Qed.

(** [cleanup] calls [fs.remove] on prefix extensions of [tempDir] only. *)
Lemma cleanup_outside (p : option string) (w : World) :
  (∀ path, p = Some path → ¬ ∃ rest, path = tempDir +:+ rest) →
  cleanup p w = (w, Ok tt).
Proof.
  intros Hout. unfold Agent.cleanup, try_catch.
  destruct p as [path |]; [| reflexivity].
  destruct (JS.startsWith path tempDir) eqn:Hpre.
  - exfalso. apply (Hout path eq_refl). by apply prefix_extension.
  - by rewrite andb_false_r.
Qed.

Lemma cleanup_inside (path : string) (w : World) :
  JS.truthy path = true → (∃ rest, path = tempDir +:+ rest) →
  (cleanup (Some path) w).1 = (remove path w).1.
Proof.
  intros Ht Hpre. apply prefix_extension in Hpre.
  unfold Agent.cleanup, try_catch, JS.startsWith. rewrite Ht, Hpre. simpl.
  by destruct (remove path w) as [w' [[] | e]].
Qed.

(** [saveSpecsToDisk] answers [false] exactly when its [try] block
    raised, and never raises itself. *)
Lemma saveSpecsToDisk_false specs (w w' : World) (e : string) :
  writeSpecs specs outputDir w = (w', Throw e) →
  saveSpecsToDisk specs outputDir w = (w', Ok false).
Proof. intros H. unfold Agent.saveSpecsToDisk, try_catch. by rewrite H. Qed.

Lemma saveSpecsToDisk_returns specs (w : World) :
  ∃ w' saved, saveSpecsToDisk specs outputDir w = (w', Ok saved).
Proof.
  unfold Agent.saveSpecsToDisk, try_catch.
  destruct (writeSpecs specs outputDir w) as [w' [saved | e]]; by eexists _, _.
Qed.

(** The envelope of a run in which every stage returned. *)
Lemma processRepository_success (githubUrl : string) (w w1 w2 w3 : World)
  repoPath repoName installed a check s specs saved :
  cloneAndAnalyze githubUrl w = (w1, Ok (Agent.Cloned repoPath repoName installed)) →
  deepAnalysis (fileSystem w1) (now w1) repoPath = Ok a →
  checkCypressSetup repoPath w1 = (w2, Ok check) →
  generateStrategy a = Ok s →
  generateTestSpecs (specClock w2) a s = Ok specs →
  saveSpecsToDisk specs outputDir w2 = (w3, Ok saved) →
  processRepository githubUrl w
  = (w3, Ok (Agent.Success CypressCheck
       {| Agent.repository := githubUrl; Agent.analysis := a;
          Agent.cypressCheck := check; Agent.strategy := s;
          Agent.generatedSpecs := specs;
          Agent.specSummary := generateSpecSummary specs s;
          Agent.specsSaved := saved; Agent.outputPath := outputDir;
          Agent.r_tempPath := Some repoPath; Agent.timestamp := now w3 |})).
Proof.
  intros Hclone Han Hcheck Hstrat Hgen Hsave.
  unfold Agent.processRepository, try_catch, Agent.processRepository_try,
    Agent.in_world, Agent.set_tempPath, mbind, eff_bind, assign, current, await,
    mret, eff_ret.
  simpl. rewrite Hclone. simpl. rewrite Han. simpl. rewrite Hcheck. simpl.
  rewrite Hstrat. simpl. rewrite Hgen. simpl. rewrite Hsave. reflexivity.
Qed.

(** On the Analysis [deepAnalysis] returns, the engine and the generator
    both return. *)
Lemma pipeline_returns fs (date repoPath : string) (a : Analysis)
  (clock : nat → string) :
  deepAnalysis fs date repoPath = Ok a →
  ∃ s specs,
    generateStrategy a = Ok s
    ∧ generateTestSpecs clock a s = Ok specs
    ∧ Z.of_nat (length specs) = recommendedSpecs s.
Proof.
  intros Han. apply deepAnalysis_framework in Han.
  pose proof (generateStrategy_own a Han) as Hs.
  destruct (generateTestSpecs_of_engine clock a _ Hs) as (specs & Hgen & Hlen).
  eauto.
Qed.

(** The controller never raises: a stage that raises is answered with the
    failure envelope. *)
Lemma processRepository_returns (githubUrl : string) (w : World) :
  ∃ w' envelope, processRepository githubUrl w = (w', Ok envelope).
Proof.
  unfold Agent.processRepository, try_catch.
  destruct (Agent.processRepository_try _ _ _ _ _ _ _ _ _ _ _ _)
    as [f [envelope | e]]; [by eexists _, _ |].
  unfold Agent.processRepository_catch, mbind, eff_bind, current.
  destruct (Agent.tempPath World f) as [p |]; [| by eexists _, _].
  destruct (JS.truthy p); [| by eexists _, _].
  unfold Agent.in_world.
  destruct (cleanup_returns (Some p) (Agent.world World f)) as [w' ->].
  by eexists _, _.
Qed.

(** A clone that fails is answered with the failure envelope; no path was
    recorded yet, so nothing is cleaned up. *)
Lemma processRepository_clone_failed (githubUrl error : string) (w w1 : World) :
  cloneAndAnalyze githubUrl w = (w1, Ok (Agent.CloneFailed error)) →
  processRepository githubUrl w
  = (w1, Ok (Agent.Failure CypressCheck ("Error clonando: " +:+ error) githubUrl)).
Proof.
  intros Hclone.
  unfold Agent.processRepository, try_catch, Agent.processRepository_try,
    Agent.in_world, mbind, eff_bind.
  simpl. rewrite Hclone. reflexivity.
Qed.

(** C10. Whatever path it is given, the cleanup routine returns without
    raising, also when the removal fails; given null, or a path that is
    not a string-prefix extension of the temp-repos root, it leaves the
    filesystem as it was; and it changes the filesystem only by removing
    a path that extends the root as a string. *)
Theorem C10_cleanup_confined (p : option string) (w : World) :
  (∃ w', cleanup p w = (w', Ok tt))
  ∧ ((∀ path, p = Some path → ¬ ∃ rest, path = tempDir +:+ rest) →
     cleanup p w = (w, Ok tt))
  ∧ ((cleanup p w).1 ≠ w →
     ∃ path rest, p = Some path ∧ path = tempDir +:+ rest
                  ∧ (cleanup p w).1 = (remove path w).1).
Proof.
  split; [apply cleanup_returns |]. split; [apply cleanup_outside |].
  intros Hchanged. destruct p as [path |].
  - destruct (JS.truthy path && JS.startsWith path tempDir) eqn:Hgo.
    + apply andb_true_iff in Hgo as [Ht Hpre].
      apply prefix_extension in Hpre as [rest Hrest].
      exists path, rest. split_and!; auto.
      apply cleanup_inside; eauto.
    + exfalso. apply Hchanged. unfold Agent.cleanup, try_catch.
      by rewrite Hgo.
  - exfalso. by apply Hchanged.
Qed.

(** C5, amended. When saving the generated artifacts fails (a write of a
    spec file raises), [saveSpecsToDisk] answers false and the controller
    goes on: it returns the success envelope with the save flag false,
    and leaves the machine as the failed write left it, the temporary
    clone included. *)
Theorem C5_save_failure_flagged (githubUrl : string) (w w1 w2 w3 : World)
  repoPath repoName installed a check s specs e :
  cloneAndAnalyze githubUrl w = (w1, Ok (Agent.Cloned repoPath repoName installed)) →
  deepAnalysis (fileSystem w1) (now w1) repoPath = Ok a →
  checkCypressSetup repoPath w1 = (w2, Ok check) →
  generateStrategy a = Ok s →
  generateTestSpecs (specClock w2) a s = Ok specs →
  writeSpecs specs outputDir w2 = (w3, Throw e) →
  saveSpecsToDisk specs outputDir w2 = (w3, Ok false)
  ∧ processRepository githubUrl w
    = (w3, Ok (Agent.Success CypressCheck
         {| Agent.repository := githubUrl; Agent.analysis := a;
            Agent.cypressCheck := check; Agent.strategy := s;
            Agent.generatedSpecs := specs;
            Agent.specSummary := generateSpecSummary specs s;
            Agent.specsSaved := false; Agent.outputPath := outputDir;
            Agent.r_tempPath := Some repoPath; Agent.timestamp := now w3 |})).
Proof.
  intros Hclone Han Hcheck Hstrat Hgen Hwrite.
  pose proof (saveSpecsToDisk_false _ _ _ _ Hwrite) as Hsave.
  split; [exact Hsave |].
  by eapply processRepository_success.
Qed.

End ControllerFacts.

Lemma C5_save_failure_flagged_witness :
  sim_cloneAndAnalyze demoUrl fullDisk
  = (afterClone, Ok (Agent.Cloned simRepoPath "demo-app-1700000000000" false))
  ∧ deepAnalysis sampleFs sampleDate simRepoPath = Ok demoAnalysis
  ∧ sim_checkCypressSetup simRepoPath afterClone = (afterClone, Ok tt)
  ∧ generateStrategy demoAnalysis = Ok demoStrategy
  ∧ generateTestSpecs (fun _ => sampleDate) demoAnalysis demoStrategy
    = Ok demoSpecs
  ∧ Agent.writeSpecs SimWorld sim_ensureDir sim_writeFile demoSpecs
      simOutputDir afterClone
    = (afterWrite, Throw "ENOSPC: no space left on device")
  ∧ Agent.saveSpecsToDisk SimWorld sim_ensureDir sim_writeFile demoSpecs
      simOutputDir afterClone = (afterWrite, Ok false)
  ∧ sim_processRepository demoUrl fullDisk
    = (afterWrite, Ok (Agent.Success unit
         {| Agent.repository := demoUrl; Agent.analysis := demoAnalysis;
            Agent.cypressCheck := tt; Agent.strategy := demoStrategy;
            Agent.generatedSpecs := demoSpecs;
            Agent.specSummary := generateSpecSummary demoSpecs demoStrategy;
            Agent.specsSaved := false; Agent.outputPath := simOutputDir;
            Agent.r_tempPath := Some simRepoPath;
            Agent.timestamp := sampleDate |})).
Proof.
  assert (Hclone : sim_cloneAndAnalyze demoUrl fullDisk
            = (afterClone,
               Ok (Agent.Cloned simRepoPath "demo-app-1700000000000" false)))
    by reflexivity.
  assert (Han : deepAnalysis sampleFs sampleDate simRepoPath = Ok demoAnalysis)
    by apply deepAnalysis_returns.
  assert (Hcheck : sim_checkCypressSetup simRepoPath afterClone
                   = (afterClone, Ok tt)) by reflexivity.
  assert (Hwrite : Agent.writeSpecs SimWorld sim_ensureDir sim_writeFile
                     demoSpecs simOutputDir afterClone
                   = (afterWrite, Throw "ENOSPC: no space left on device"))
    by (vm_compute; reflexivity).
  assert (Hstrat : generateStrategy demoAnalysis = Ok demoStrategy)
    by (vm_compute; reflexivity).
  assert (Hgen : generateTestSpecs (fun _ => sampleDate) demoAnalysis demoStrategy
                 = Ok demoSpecs)
    by (vm_compute; reflexivity).
  pose proof (C5_save_failure_flagged SimWorld unit sim_cloneAndAnalyze
                sim_checkCypressSetup sim_ensureDir sim_writeFile sim_remove
                (fun _ => sampleFs) (fun _ => sampleDate) (fun _ _ => sampleDate)
                simTempDir simOutputDir demoUrl fullDisk afterClone afterClone
                afterWrite simRepoPath "demo-app-1700000000000" false
                demoAnalysis tt demoStrategy demoSpecs
                "ENOSPC: no space left on device"
                Hclone Han Hcheck Hstrat Hgen Hwrite) as [Hsave Hrun].
  exact (conj Hclone (conj Han (conj Hcheck (conj Hstrat (conj Hgen
           (conj Hwrite (conj Hsave Hrun))))))).
Defined.

(** C5 as stated fails: on a full disk every write raises, yet the
    controller returns a success envelope (save flag false) and the
    temporary clone is still on disk. *)
Lemma C5_counterexample :
  ∃ w' report,
    (∀ p content w, sim_diskFull w = true →
       (sim_writeFile p content w).2 = Throw "ENOSPC: no space left on device")
    ∧ sim_diskFull fullDisk = true
    ∧ sim_processRepository demoUrl fullDisk
      = (w', Ok (Agent.Success unit report))
    ∧ Agent.specsSaved unit report = false
    ∧ length (Agent.generatedSpecs unit report) = 3
    ∧ sim_files w' = []
    ∧ simRepoPath ∈ sim_dirs w'.
Proof.
  eexists _, _. split_and!.
  - intros p content w Hfull. unfold sim_writeFile. by rewrite Hfull.
  - reflexivity.
  - vm_compute. reflexivity.
  - reflexivity.
  - reflexivity.
  - reflexivity.
  - by_membership.
Qed.

(** Removal that fails does not make [cleanup] raise; a path outside the
    root is not removed. *)
Example cleanup_sample :
  Agent.cleanup SimWorld sim_remove_denied simTempDir (Some simRepoPath) fullDisk
  = (fullDisk, Ok tt)
  ∧ Agent.cleanup SimWorld sim_remove simTempDir (Some "/work") fullDisk
    = (fullDisk, Ok tt)
  ∧ sim_dirs (Agent.cleanup SimWorld sim_remove simTempDir
                (Some "/work/temp-repos") fullDisk).1 = ["/work"].
Proof. split_and!; vm_compute; reflexivity. Qed.

(** * Further properties of the sources *)

(** ** Strings *)

Lemma string_app_cons (c : ascii) (a b : string) :
  String c a +:+ b = String c (a +:+ b).
Proof. reflexivity. Qed.

Lemma string_app_nil_l (a : string) : "" +:+ a = a.
Proof. reflexivity. Qed.

Lemma string_app_assoc (a b c : string) : (a +:+ b) +:+ c = a +:+ (b +:+ c).
Proof.
  induction a as [| x a IH]; [reflexivity |].
  by rewrite !string_app_cons, IH.
Qed.

Lemma string_app_nil_r (a : string) : a +:+ "" = a.
Proof.
  induction a as [| x a IH]; [reflexivity |]. by rewrite string_app_cons, IH.
Qed.

Lemma string_length_app (a b : string) :
  String.length (a +:+ b) = String.length a + String.length b.
Proof.
  induction a as [| x a IH]; [reflexivity |].
  rewrite string_app_cons. simpl. by rewrite IH.
Qed.

Lemma string_app_inv_tail (a b s : string) : a +:+ s = b +:+ s → a = b.
Proof.
  revert b. induction a as [| x a IH]; intros [| y b] H.
  - reflexivity.
  - apply (f_equal String.length) in H.
    rewrite !string_length_app in H. simpl in H. lia.
  - apply (f_equal String.length) in H.
    rewrite !string_length_app in H. simpl in H. lia.
  - rewrite !string_app_cons in H. injection H as -> H. by rewrite (IH b H).
Qed.

Lemma includes_occurs (s sub : string) :
  JS.includes s sub = true ↔ occurs sub s.
Proof.
  split.
  - induction s as [| c s IH]; cbn [JS.includes]; intros H.
    + apply orb_true_iff in H as [H | H]; [| discriminate].
      apply prefix_extension in H as [rest H]. by exists "", rest.
    + apply orb_true_iff in H as [H | H].
      * apply prefix_extension in H as [rest H]. by exists "", rest.
      * destruct (IH H) as (pre & post & ->). by exists (String c pre), post.
  - intros (pre & post & ->). induction pre as [| c pre IH].
    + assert (H : String.prefix sub (sub +:+ post) = true)
        by (apply prefix_extension; by exists post).
      change ("" +:+ sub +:+ post) with (sub +:+ post).
      destruct (sub +:+ post); cbn [JS.includes]; by rewrite H.
    + rewrite string_app_cons. cbn [JS.includes]. by rewrite IH, orb_true_r.
Qed.

Lemma includes_false (s sub : string) :
  JS.includes s sub = false ↔ ¬ occurs sub s.
Proof.
  rewrite <- includes_occurs. by destruct (JS.includes s sub).
Qed.

Lemma rev_app_rev (a b : string) : String.rev_app a b = String.rev a +:+ b.
Proof.
  revert b. induction a as [| c a IH]; intros b; [reflexivity |].
  unfold String.rev. simpl. rewrite (IH (String c b)), (IH (String c "")).
  by rewrite string_app_assoc.
Qed.

Lemma string_rev_app (a b : string) :
  String.rev (a +:+ b) = String.rev b +:+ String.rev a.
Proof.
  induction a as [| c a IH].
  - change ("" +:+ b) with b. by rewrite string_app_nil_r.
  - rewrite string_app_cons. unfold String.rev. simpl.
    rewrite !(rev_app_rev _ (String c "")), IH.
    by rewrite string_app_assoc.
Qed.

Lemma string_rev_involutive (a : string) : String.rev (String.rev a) = a.
Proof.
  induction a as [| c a IH]; [reflexivity |].
  unfold String.rev at 2. simpl. rewrite rev_app_rev, string_rev_app, IH.
  reflexivity.
Qed.

Lemma endsWith_suffix (s suf : string) :
  JS.endsWith s suf = true ↔ ∃ pre, s = pre +:+ suf.
Proof.
  unfold JS.endsWith. rewrite prefix_extension. split.
  - intros [rest H]. exists (String.rev rest).
    rewrite <- (string_rev_involutive s), H, string_rev_app.
    by rewrite string_rev_involutive.
  - intros [pre ->]. exists (String.rev pre). apply string_rev_app.
Qed.

(** ** Focus areas and test patterns of the strategy engine *)

Import TestStrategy TestSpecGenerator.

Lemma path_signal_mentions (a : Analysis) (word : string) :
  path_signal a word = true ↔ path_mentions a word.
Proof.
  unfold path_signal, JS.some, path_mentions. rewrite existsb_exists.
  split; intros (e & He & H); exists e.
  - by rewrite list_elem_of_In, <- includes_occurs.
  - by rewrite <- list_elem_of_In, includes_occurs.
Qed.

Lemma path_signal_silent (a : Analysis) (word : string) :
  path_signal a word = false ↔ ¬ path_mentions a word.
Proof.
  rewrite <- path_signal_mentions. by destruct (path_signal a word).
Qed.

Lemma elem_of_decide (x : string) (l : list string) :
  x ∈ l ↔ bool_decide (x ∈ l) = true.
Proof. by rewrite bool_decide_eq_true. Qed.

Ltac decide_elem :=
  match goal with
  | |- (?x ∈ ?l) ↔ _ => rewrite (elem_of_decide x l)
  end.

Ltac by_sublist :=
  repeat first [apply sublist_nil | apply sublist_skip | apply sublist_cons].

(** The focus areas, by the four tests of the source. *)
Lemma determineFocusAreas_cases (a : Analysis) :
  let areas := determineFocusAreas a in
  areas ≠ []
  ∧ areas `sublist_of`
      ["form-testing"; "authentication"; "navigation-testing"; "api-testing";
       "smoke-testing"; "critical-flows"]
  ∧ ("form-testing" ∈ areas ↔ path_signal a "form" = true)
  ∧ ("authentication" ∈ areas ↔ path_signal a "auth" = true)
  ∧ ("navigation-testing" ∈ areas ↔ (1 <? length (entryPoints a)) = true)
  ∧ ("api-testing" ∈ areas ↔ path_signal a "api" = true)
  ∧ (areas = ["smoke-testing"; "critical-flows"]
     ↔ path_signal a "form" = false ∧ path_signal a "auth" = false
       ∧ (1 <? length (entryPoints a)) = false ∧ path_signal a "api" = false).
Proof.
  cbn zeta. unfold determineFocusAreas.
  destruct (path_signal a "form"), (path_signal a "auth"),
    (1 <? length (entryPoints a)), (path_signal a "api");
    cbn -[bool_decide];
    (split; [discriminate |]);
    (split; [by_sublist |]);
    split_and!; try decide_elem; vm_compute; intuition congruence.
Qed.

(** X1. The focus areas are never empty and come in one fixed order: an
    area is listed exactly when its signal fires (a recorded path that
    contains 'form', 'auth' or 'api' as a substring, more than one entry
    point), and the pair smoke-testing, critical-flows is the answer
    exactly when no signal fires. *)
Theorem X1_focus_areas_follow_signals (a : Analysis) :
  let areas := determineFocusAreas a in
  areas ≠ []
  ∧ areas `sublist_of`
      ["form-testing"; "authentication"; "navigation-testing"; "api-testing";
       "smoke-testing"; "critical-flows"]
  ∧ ("form-testing" ∈ areas ↔ path_mentions a "form")
  ∧ ("authentication" ∈ areas ↔ path_mentions a "auth")
  ∧ ("navigation-testing" ∈ areas ↔ 1 < length (entryPoints a))
  ∧ ("api-testing" ∈ areas ↔ path_mentions a "api")
  ∧ (areas = ["smoke-testing"; "critical-flows"]
     ↔ ¬ path_mentions a "form" ∧ ¬ path_mentions a "auth"
       ∧ length (entryPoints a) ≤ 1 ∧ ¬ path_mentions a "api").
Proof.
  cbn zeta. rewrite <- !path_signal_silent, <- !path_signal_mentions.
  rewrite <- (Nat.ltb_lt 1), <- (Nat.ltb_ge 1).
  apply determineFocusAreas_cases.
Qed.

(** What [selectTestPatterns] appends, by the three tests of the source. *)
Lemma selectTestPatterns_cases (a : Analysis) (basePatterns : list string) :
  ∃ added,
    selectTestPatterns a basePatterns = basePatterns ++ added
    ∧ added `sublist_of` ["api-testing"; "multi-page-testing"; "form-validation"]
    ∧ ("api-testing" ∈ added
       ↔ JS.truthy_at (dependencies a) "axios" = true
         ∨ JS.truthy_at (dependencies a) "fetch" = true)
    ∧ ("multi-page-testing" ∈ added ↔ (1 <? length (entryPoints a)) = true)
    ∧ ("form-validation" ∈ added ↔ path_signal a "form" = true).
Proof.
  exists ((if JS.truthy_at (dependencies a) "axios"
                || JS.truthy_at (dependencies a) "fetch"
           then ["api-testing"] else [])
          ++ (if 1 <? length (entryPoints a) then ["multi-page-testing"] else [])
          ++ (if path_signal a "form" then ["form-validation"] else [])).
  unfold selectTestPatterns.
  destruct (JS.truthy_at (dependencies a) "axios"),
    (JS.truthy_at (dependencies a) "fetch"),
    (1 <? length (entryPoints a)), (path_signal a "form");
    cbn -[bool_decide];
    (split; [by rewrite ?app_nil_r, <- ?app_assoc |]);
    (split; [by_sublist |]);
    split_and!; decide_elem; vm_compute; intuition congruence.
Qed.

(** X2. Pattern selection only appends: the profile's patterns stay in
    front, in order, followed by up to three additions in a fixed order.
    'api-testing' is added exactly when [dependencies] (the
    dev-dependencies are not consulted) holds a truthy axios or fetch,
    'multi-page-testing' exactly when there is more than one entry point,
    'form-validation' exactly when a recorded path contains 'form'. *)
Theorem X2_patterns_extend_profile (a : Analysis) (basePatterns : list string) :
  ∃ added,
    selectTestPatterns a basePatterns = basePatterns ++ added
    ∧ added `sublist_of` ["api-testing"; "multi-page-testing"; "form-validation"]
    ∧ ("api-testing" ∈ added
       ↔ JS.truthy_at (dependencies a) "axios" = true
         ∨ JS.truthy_at (dependencies a) "fetch" = true)
    ∧ ("multi-page-testing" ∈ added ↔ 1 < length (entryPoints a))
    ∧ ("form-validation" ∈ added ↔ path_mentions a "form").
Proof.
  setoid_rewrite <- path_signal_mentions. setoid_rewrite <- (Nat.ltb_lt 1).
  apply selectTestPatterns_cases.
Qed.

(** The profile a strategy is built from. *)
Lemma generateStrategy_profile (a : Analysis) :
  default traditional (JS.assoc (framework a) strategies)
  ∈ [react; vue; angular; traditional].
Proof.
  unfold strategies. cbn [JS.assoc].
  repeat (destruct (String.eqb (framework a) _); [cbn; by_membership |]).
  cbn. by_membership.
Qed.

(** X3. For a framework that is not the name of a member every
    object inherits (at such a name the lookup of the source finds the
    inherited member, not a profile, and the engine raises), the engine
    returns a strategy that has the profile's four patterns as a prefix
    of [testPatterns], which has between four and seven entries;
    [selectorStrategy] repeats [selectors]; and the focus areas agree
    with the added patterns: form-testing is a focus area exactly when
    form-validation is a pattern, navigation-testing exactly when
    multi-page-testing is. *)
Theorem X3_strategy_coherent (a : Analysis) :
  framework a ∉ JS.objectPrototypeProps →
  ∃ s,
    generateStrategy a = Ok s
    ∧ patterns s `prefix_of` TestStrategy.testPatterns s
    ∧ 4 ≤ length (TestStrategy.testPatterns s)
    ∧ length (TestStrategy.testPatterns s) ≤ 7
    ∧ selectorStrategy s = selectors s
    ∧ ("form-testing" ∈ focusAreas s
       ↔ "form-validation" ∈ TestStrategy.testPatterns s)
    ∧ ("navigation-testing" ∈ focusAreas s
       ↔ "multi-page-testing" ∈ TestStrategy.testPatterns s).
Proof.
  intros Hown. eexists. split; [by apply generateStrategy_own |].
  cbn [patterns TestStrategy.testPatterns selectorStrategy selectors focusAreas
       customStrategy].
  pose proof (generateStrategy_profile a) as Hp.
  set (profile := default traditional (JS.assoc (framework a) strategies)) in *.
  destruct (selectTestPatterns_cases a (p_patterns profile))
    as (added & -> & Hsub & _ & Hnav & Hform).
  split; [by exists added |].
  assert (Hlen : length (p_patterns profile) = 4).
  { clearbody profile.
    repeat (apply elem_of_cons in Hp as [-> | Hp]; [reflexivity |]).
    by apply elem_of_nil in Hp. }
  apply sublist_length in Hsub. simpl in Hsub.
  split; [rewrite length_app; lia |].
  split; [rewrite length_app; lia |].
  split; [reflexivity |].
  assert (Hbase : ("form-validation" ∉ p_patterns profile)
                  ∧ ("multi-page-testing" ∉ p_patterns profile)).
  { clearbody profile.
    repeat (apply elem_of_cons in Hp as [-> | Hp];
            [split; apply (bool_decide_eq_false_1 _); vm_compute; reflexivity |]).
    by apply elem_of_nil in Hp. }
  destruct Hbase as [Hf Hn].
  destruct (determineFocusAreas_cases a) as (_ & _ & Hform' & _ & Hnav' & _).
  rewrite !elem_of_app, Hform', Hnav', Hform, Hnav. tauto.
Qed.

Lemma X3_strategy_coherent_witness :
  (framework (ProjectAnalyzer.detectFrameworkAndType smallReactProject)
   ∉ JS.objectPrototypeProps)
  ∧ ∃ s,
      generateStrategy (ProjectAnalyzer.detectFrameworkAndType smallReactProject)
      = Ok s
      ∧ patterns s `prefix_of` TestStrategy.testPatterns s.
Proof.
  assert (Hown : framework (ProjectAnalyzer.detectFrameworkAndType smallReactProject)
                 ∉ JS.objectPrototypeProps) by by_decision.
  destruct (X3_strategy_coherent
              (ProjectAnalyzer.detectFrameworkAndType smallReactProject) Hown)
    as (s & Hs & Hprefix & _).
  exact (conj Hown (ex_intro _ s (conj Hs Hprefix))).
Defined.

(** ** Generated specs *)

(** The template of every pattern a strategy of the engine carries. *)
Lemma strategy_tags_templates (a : Analysis) (s : Strategy) :
  generateStrategy a = Ok s →
  Forall (fun tag =>
            getBaseTemplate (Some tag)
            = Text (if String.eqb tag "api-testing" then api else basic)
            ∧ tag ≠ "navigation-testing" ∧ tag ≠ "form-testing")
    (TestStrategy.testPatterns s).
Proof.
  intros Hs. apply generateStrategy_Ok in Hs as [_ ->].
  cbn [TestStrategy.testPatterns customStrategy].
  pose proof (generateStrategy_profile a) as Hp.
  set (profile := default traditional (JS.assoc (framework a) strategies)) in *.
  assert (Hbase : Forall (fun tag =>
            getBaseTemplate (Some tag)
            = Text (if String.eqb tag "api-testing" then api else basic)
            ∧ tag ≠ "navigation-testing" ∧ tag ≠ "form-testing")
            (p_patterns profile)).
  { clearbody profile.
    repeat (apply elem_of_cons in Hp as [-> | Hp];
            [repeat constructor; solve [vm_compute; reflexivity | discriminate] |]).
    by apply elem_of_nil in Hp. }
  unfold selectTestPatterns.
  destruct (_ || _), (1 <? _), (path_signal a "form");
    rewrite ?Forall_app; split_and?; auto;
    repeat constructor; solve [vm_compute; reflexivity | discriminate].
Qed.

(** X4. For a framework that is not the name of a member every
    object inherits, the engine and the generator return, and every spec
    generated from the engine's strategy is built on the basic template,
    or on the API template when its type is 'api-testing': the keys
    'navigation-testing' and 'form-testing', under which the template map
    holds the navigation and forms templates, are never among the
    strategy's patterns. *)
Theorem X4_reachable_templates (clock : nat → string) (a : Analysis) :
  framework a ∉ JS.objectPrototypeProps →
  getBaseTemplate (Some "navigation-testing") = Text navigation
  ∧ getBaseTemplate (Some "form-testing") = Text forms
  ∧ ∃ s specs,
      generateStrategy a = Ok s
      ∧ generateTestSpecs clock a s = Ok specs
      ∧ ("navigation-testing" ∉ TestStrategy.testPatterns s)
      ∧ ("form-testing" ∉ TestStrategy.testPatterns s)
      ∧ ∀ spec, spec ∈ specs →
          ∃ i tag,
            tag ∈ TestStrategy.testPatterns s
            ∧ gs_type spec = Some tag
            ∧ customizeTemplate clock
                (Text (if String.eqb tag "api-testing" then api else basic))
                a (Some tag) i
              = Ok (gs_content spec).
Proof.
  intros Hown. split; [reflexivity |]. split; [reflexivity |].
  pose proof (generateStrategy_own a Hown) as Hs.
  destruct (generateTestSpecs_of_engine clock a _ Hs) as (specs & Hgen & _).
  eexists _, specs. split; [exact Hs |]. split; [exact Hgen |].
  pose proof (strategy_tags_templates a _ Hs) as Htags.
  destruct (generateStrategy_patterns a _ Hs) as [Hlen _].
  set (s := customStrategy _ a) in *. clearbody s.
  rewrite Forall_forall in Htags.
  split; [intros Hin; by destruct (Htags _ Hin) as (_ & Hne & _) |].
  split; [intros Hin; by destruct (Htags _ Hin) as (_ & _ & Hne) |].
  intros spec Hspec. apply list_elem_of_lookup in Hspec as [i Hi].
  destruct (generateTestSpecs_lookup clock a s specs Hgen) as [_ Hspecs].
  pose proof (generateSpec_run clock a s i) as Hrun.
  rewrite (Hspecs i spec Hi) in Hrun.
  destruct Hrun as (_ & _ & Hty & _ & Hcontent).
  destruct (selectSpecType_elem s i) as (tag & Htag & Hin).
  { intros Hnil. rewrite Hnil in Hlen. simpl in Hlen. lia. }
  exists i, tag. split; [exact Hin |]. split; [by rewrite Hty |].
  rewrite Htag in Hcontent. unfold generateSpecContent in Hcontent.
  by destruct (Htags _ Hin) as [<- _].
Qed.

Lemma X4_reachable_templates_witness :
  (framework (ProjectAnalyzer.detectFrameworkAndType smallReactProject)
   ∉ JS.objectPrototypeProps)
  ∧ ∃ s specs,
      generateStrategy (ProjectAnalyzer.detectFrameworkAndType smallReactProject)
      = Ok s
      ∧ generateTestSpecs sampleClock
          (ProjectAnalyzer.detectFrameworkAndType smallReactProject) s
        = Ok specs
      ∧ ("navigation-testing" ∉ TestStrategy.testPatterns s)
      ∧ ("form-testing" ∉ TestStrategy.testPatterns s).
Proof.
  assert (Hown : framework (ProjectAnalyzer.detectFrameworkAndType smallReactProject)
                 ∉ JS.objectPrototypeProps) by by_decision.
  destruct (X4_reachable_templates sampleClock
              (ProjectAnalyzer.detectFrameworkAndType smallReactProject) Hown)
    as (_ & _ & s & specs & Hs & Hgen & Hnav & Hform & _).
  exact (conj Hown
           (ex_intro _ s (ex_intro _ specs
              (conj Hs (conj Hgen (conj Hnav Hform)))))).
Defined.

Lemma spec_name_inj (i j : nat) :
  "generated-spec-" +:+ pretty (i + 1) +:+ ".cy.js"
  = "generated-spec-" +:+ pretty (j + 1) +:+ ".cy.js" → i = j.
Proof.
  intros H. apply (inj (String.append "generated-spec-")) in H.
  apply string_app_inv_tail in H. apply (inj pretty) in H. lia.
Qed.

(** The names of the specs of a run that returned. *)
Lemma generateTestSpecs_names clock (a : Analysis) (s : Strategy)
  (specs : list GeneratedSpec) :
  generateTestSpecs clock a s = Ok specs →
  map gs_name specs
  = map (fun i => "generated-spec-" +:+ pretty (i + 1) +:+ ".cy.js")
      (seq 0 (Z.to_nat (recommendedSpecs s))).
Proof.
  intros Hgen. apply generateTestSpecs_specs in Hgen.
  symmetry. apply list_eq_Forall2, Forall2_fmap.
  apply (Forall2_impl _ _ _ _ Hgen). intros i spec Hspec.
  pose proof (generateSpec_run clock a s i) as Hrun. rewrite Hspec in Hrun.
  by destruct Hrun as (_ & -> & _).
Qed.

(** X5. The file names of one generation run are pairwise distinct,
    whatever the strategy; each ends in '.cy.js', and the path recorded
    for a spec is its name under cypress/e2e/. A run that produces no
    specs raised the TypeError of a template that is no string. *)
Theorem X5_spec_names_distinct (clock : nat → string) (a : Analysis)
  (s : Strategy) :
  match generateTestSpecs clock a s with
  | Ok specs =>
      NoDup (map gs_name specs)
      ∧ Forall (fun spec =>
                  gs_path spec = "cypress/e2e/" +:+ gs_name spec
                  ∧ JS.endsWith (gs_name spec) ".cy.js" = true) specs
  | Throw e => e = "customized.replace is not a function"
  end.
Proof.
  destruct (generateTestSpecs clock a s) as [specs | e] eqn:Hgen.
  - split.
    + rewrite (generateTestSpecs_names clock a s specs Hgen).
      apply (NoDup_fmap_2_strong _).
      * intros i j _ _. apply spec_name_inj.
      * apply NoDup_seq.
    + apply Forall_forall. intros spec Hspec.
      apply list_elem_of_lookup in Hspec as [i Hi].
      destruct (generateTestSpecs_lookup clock a s specs Hgen) as [_ Hspecs].
      pose proof (generateSpec_run clock a s i) as Hrun.
      rewrite (Hspecs i spec Hi) in Hrun.
      destruct Hrun as (_ & Hname & _ & Hpath & _).
      split; [exact Hpath |]. rewrite Hname.
      apply endsWith_suffix. exists ("generated-spec-" +:+ pretty (i + 1)).
      by rewrite string_app_assoc.
  - unfold generateTestSpecs in Hgen.
    apply generateLoop_Throw in Hgen as (i & _ & He).
    pose proof (generateSpec_run clock a s i) as Hrun. rewrite He in Hrun.
    by destruct Hrun as [_ ->].
Qed.

(** ** The summary of a generation run *)

(** Reading an association list: a key that is found is listed. *)
Lemma assoc_Some_key {A} (t : string) (l : list (string * A)) (v : A) :
  JS.assoc t l = Some v → t ∈ map fst l.
Proof.
  induction l as [| [k w] l IH]; simpl; [discriminate |].
  destruct (String.eqb t k) eqn:Hk.
  - intros _. apply String.eqb_eq in Hk as ->. left.
  - intros H. right. by apply IH.
Qed.

Lemma assoc_key_Some {A} (t : string) (l : list (string * A)) :
  t ∈ map fst l → is_Some (JS.assoc t l).
Proof.
  induction l as [| [k w] l IH]; simpl.
  - intros H. by apply elem_of_nil in H.
  - intros H. destruct (String.eqb t k) eqn:Hk; [by eexists |].
    apply elem_of_cons in H as [-> | H]; [by rewrite String.eqb_refl in Hk |].
    by apply IH.
Qed.

Lemma assoc_app {A} (t : string) (l k : list (string * A)) :
  JS.assoc t (l ++ k)
  = match JS.assoc t l with Some v => Some v | None => JS.assoc t k end.
Proof.
  induction l as [| [key w] l IH]; simpl; [reflexivity |].
  by destruct (String.eqb t key).
Qed.

Lemma assoc_bump_other (acc : list (string * Z)) (t t' : string) :
  String.eqb t' t = false →
  JS.assoc t'
    (map (fun kv : string * Z =>
            if String.eqb kv.1 t then (t, (kv.2 + 1)%Z) else kv) acc)
  = JS.assoc t' acc.
Proof.
  intros Hne. induction acc as [| [k w] acc IH]; simpl; [reflexivity |].
  destruct (String.eqb k t) eqn:Hk; simpl.
  - apply String.eqb_eq in Hk as ->. by rewrite Hne.
  - by rewrite IH.
Qed.

Lemma assoc_bump_same (acc : list (string * Z)) (t : string) (v : Z) :
  JS.assoc t acc = Some v →
  JS.assoc t
    (map (fun kv : string * Z =>
            if String.eqb kv.1 t then (t, (kv.2 + 1)%Z) else kv) acc)
  = Some (v + 1)%Z.
Proof.
  induction acc as [| [k w] acc IH]; simpl; [discriminate |].
  destruct (String.eqb t k) eqn:Hk.
  - intros [= ->]. apply String.eqb_eq in Hk as <-.
    rewrite String.eqb_refl. simpl. by rewrite String.eqb_refl.
  - intros H. rewrite String.eqb_sym, Hk. simpl. rewrite Hk. by apply IH.
Qed.

(** Counting one more spec of type [t]: the reading at [t] goes up by
    one, the others stay, the keys stay distinct and the total goes up by
    one. *)
Lemma count_type_assoc (acc : list (string * Z)) (t t' : string) :
  JS.assoc t' (count_type acc t)
  = if String.eqb t' t then Some (default 0%Z (JS.assoc t acc) + 1)%Z
    else JS.assoc t' acc.
Proof.
  unfold count_type. destruct (JS.assoc t acc) as [v |] eqn:Ht.
  - destruct (String.eqb t' t) eqn:Hk.
    + apply String.eqb_eq in Hk as ->. by apply assoc_bump_same.
    + by apply assoc_bump_other.
  - rewrite assoc_app. simpl.
    destruct (String.eqb t' t) eqn:Hk.
    + apply String.eqb_eq in Hk as ->. by rewrite Ht.
    + by destruct (JS.assoc t' acc).
Qed.

Lemma count_type_keys (acc : list (string * Z)) (t : string) :
  map fst (count_type acc t)
  = if bool_decide (t ∈ map fst acc) then map fst acc else map fst acc ++ [t].
Proof.
  unfold count_type. destruct (JS.assoc t acc) as [v |] eqn:Ht.
  - rewrite bool_decide_eq_true_2 by (by eapply assoc_Some_key).
    rewrite map_map. apply map_ext_in. intros [k w] _. simpl.
    destruct (String.eqb k t) eqn:Hk; [| reflexivity].
    by apply String.eqb_eq in Hk.
  - rewrite bool_decide_eq_false_2.
    + by rewrite map_app.
    + intros Hin. apply assoc_key_Some in Hin as [v Hv]. congruence.
Qed.

Lemma count_type_total (acc : list (string * Z)) (t : string) :
  NoDup (map fst acc) →
  fold_right Z.add 0%Z (map snd (count_type acc t))
  = (fold_right Z.add 0%Z (map snd acc) + 1)%Z.
Proof.
  unfold count_type. destruct (JS.assoc t acc) as [v |] eqn:Ht.
  - induction acc as [| [k w] acc IH]; simpl in *; [discriminate |].
    intros Hnd. apply NoDup_cons in Hnd as [Hk Hnd].
    destruct (String.eqb t k) eqn:Htk.
    + apply String.eqb_eq in Htk as <-. rewrite String.eqb_refl. simpl.
      assert (Hsame : map (fun kv : string * Z =>
                             if String.eqb kv.1 t then (t, (kv.2 + 1)%Z) else kv)
                        acc = acc).
      { rewrite <- (map_id acc) at 2. apply map_ext_in. intros [k' w'] Hin. simpl.
        destruct (String.eqb k' t) eqn:Hk'; [| reflexivity].
        apply String.eqb_eq in Hk' as ->. exfalso. apply Hk.
        apply list_elem_of_In. apply (in_map fst) in Hin. exact Hin. }
      rewrite Hsame. lia.
    + assert (Hk' : String.eqb k t = false) by (by rewrite String.eqb_sym).
      rewrite Hk'. simpl. rewrite (IH Ht Hnd). lia.
  - intros _. rewrite map_app, fold_right_app. simpl.
    generalize (map snd acc). intros l. induction l as [| x l IH]; simpl; lia.
Qed.

Lemma specTypes_snoc (specs : list GeneratedSpec) (spec : GeneratedSpec)
  (s : Strategy) :
  specTypes (generateSpecSummary (specs ++ [spec]) s)
  = count_type (specTypes (generateSpecSummary specs s))
      (type_string (gs_type spec)).
Proof. unfold generateSpecSummary. cbn [specTypes]. by rewrite fold_left_app. Qed.

Lemma specTypes_facts (specs : list GeneratedSpec) (s : Strategy) :
  NoDup (map fst (specTypes (generateSpecSummary specs s)))
  ∧ (∀ t, JS.assoc t (specTypes (generateSpecSummary specs s))
          = let n := length (filter (fun spec => type_string (gs_type spec) = t)
                               specs) in
            if n =? 0 then None else Some (Z.of_nat n))
  ∧ fold_right Z.add 0%Z (map snd (specTypes (generateSpecSummary specs s)))
    = Z.of_nat (length specs).
Proof.
  induction specs as [| spec specs (Hnd & Hread & Hsum)] using rev_ind.
  - split; [constructor |]. split; [reflexivity | reflexivity].
  - rewrite specTypes_snoc. split_and!.
    + rewrite count_type_keys. case_bool_decide as Hin; [exact Hnd |].
      apply NoDup_app. split_and!; [exact Hnd | | apply NoDup_singleton].
      intros x Hx Hx'. apply list_elem_of_singleton in Hx' as ->. by apply Hin.
    + intros t. rewrite count_type_assoc, filter_app, length_app.
      cbn zeta in *. rewrite !Hread.
      destruct (String.eqb t (type_string (gs_type spec))) eqn:Ht.
      * apply String.eqb_eq in Ht as ->.
        rewrite filter_cons_True by done. simpl length.
        set (n := length (filter _ specs)).
        replace (n + 1 =? 0) with false by (symmetry; apply Nat.eqb_neq; lia).
        destruct (n =? 0) eqn:Hn; simpl.
        -- apply Nat.eqb_eq in Hn as ->. reflexivity.
        -- f_equal. lia.
      * apply String.eqb_neq in Ht.
        rewrite filter_cons_False by (intros H; by apply Ht).
        simpl length. by rewrite Nat.add_0_r.
    + rewrite count_type_total by exact Hnd. rewrite Hsum, length_app. simpl. lia.
Qed.

(** X6. The summary of a run counts every spec once, for specs whose
    types are not names of members every object inherits (at such a name
    the histogram of the source reads the inherited member): the type
    histogram has pairwise distinct keys, a type is a key exactly when
    some spec has it (a spec without a type is counted under
    'undefined'), its count is the number of specs of that type, the
    counts add up to [totalSpecs], which is the number of specs, and the
    estimated time is thirty seconds a spec. *)
Theorem X6_summary_counts_every_spec (specs : list GeneratedSpec) (s : Strategy) :
  Forall (fun spec => type_string (gs_type spec) ∉ JS.objectPrototypeProps)
    specs →
  let summary := generateSpecSummary specs s in
  totalSpecs summary = Z.of_nat (length specs)
  ∧ estimatedExecutionTime summary = (30 * totalSpecs summary)%Z
  ∧ NoDup (map fst (specTypes summary))
  ∧ (∀ t, t ∈ map fst (specTypes summary)
          ↔ ∃ spec, spec ∈ specs ∧ type_string (gs_type spec) = t)
  ∧ (∀ t, default 0%Z (JS.assoc t (specTypes summary))
          = Z.of_nat (length (filter (fun spec => type_string (gs_type spec) = t)
                                specs)))
  ∧ fold_right Z.add 0%Z (map snd (specTypes summary)) = totalSpecs summary.
Proof.
  intros _. cbn zeta. destruct (specTypes_facts specs s) as (Hnd & Hread & Hsum).
  cbn zeta in Hread.
  split; [reflexivity |]. split; [cbn; lia |]. split; [exact Hnd |].
  split; [| split; [| exact Hsum]].
  - intros t. split.
    + intros Hin. apply assoc_key_Some in Hin as [v Hv]. rewrite Hread in Hv.
      destruct (filter _ specs) as [| spec rest] eqn:Hf; [discriminate |].
      assert (Hspec : spec ∈ filter (fun spec => type_string (gs_type spec) = t)
                               specs) by (rewrite Hf; left).
      apply list_elem_of_filter in Hspec as [Ht Hspec]. by exists spec.
    + intros (spec & Hspec & Ht).
      assert (Hin : spec ∈ filter (fun spec => type_string (gs_type spec) = t)
                             specs) by (by apply list_elem_of_filter).
      destruct (JS.assoc t (specTypes (generateSpecSummary specs s)))
        as [v |] eqn:Hv; [by eapply assoc_Some_key |].
      rewrite Hread in Hv.
      destruct (filter _ specs); [by apply elem_of_nil in Hin | discriminate].
  - intros t. rewrite Hread.
    destruct (filter _ specs); reflexivity.
Qed.

Lemma X6_summary_counts_every_spec_witness :
  generateTestSpecs sampleClock bareAnalysis twoPatternStrategy = Ok fiveSpecs
  ∧ Forall (fun spec => type_string (gs_type spec) ∉ JS.objectPrototypeProps)
      fiveSpecs
  ∧ specTypes (generateSpecSummary fiveSpecs twoPatternStrategy)
    = [("navigation-testing", 3%Z); ("form-testing", 2%Z)]
  ∧ fold_right Z.add 0%Z
      (map snd (specTypes (generateSpecSummary fiveSpecs twoPatternStrategy)))
    = totalSpecs (generateSpecSummary fiveSpecs twoPatternStrategy).
Proof.
  assert (Hfive : generateTestSpecs sampleClock bareAnalysis twoPatternStrategy
                  = Ok fiveSpecs) by (vm_compute; reflexivity).
  assert (Hown : Forall (fun spec =>
                           type_string (gs_type spec) ∉ JS.objectPrototypeProps)
                   fiveSpecs) by by_decision.
  assert (Htypes : specTypes (generateSpecSummary fiveSpecs twoPatternStrategy)
                   = [("navigation-testing", 3%Z); ("form-testing", 2%Z)])
    by (vm_compute; reflexivity).
  destruct (X6_summary_counts_every_spec fiveSpecs twoPatternStrategy Hown)
    as (_ & _ & _ & _ & _ & Hsum).
  exact (conj Hfive (conj Hown (conj Htypes Hsum))).
Defined.

(** ** Framework detection *)

Import ProjectAnalyzer.

Lemma determineProjectType_ext (a b : Analysis) (allDeps : gmap string string) :
  framework a = framework b → projectStructure a = projectStructure b →
  determineProjectType a allDeps = determineProjectType b allDeps.
Proof.
  intros Hf Hs. unfold determineProjectType, structure_some. by rewrite Hf, Hs.
Qed.

(** The three assignments of [detectFrameworkAndType], for a given
    outcome [found] of the loop over the indicator table. *)
Lemma detection_twice (found : option string) (allDeps : gmap string string)
  (a : Analysis) :
  let detection a :=
    let a1 := match found with Some fw => set_framework fw a | None => a end in
    let a2 := if String.eqb (framework a1) "none"
              then set_framework "traditional" a1 else a1 in
    set_projectType (determineProjectType a2 allDeps) a2 in
  detection (detection a) = detection a.
Proof.
  destruct a as [pt fw hpj deps dev di ci ps ep tf bt es ad sc pj tfw bs].
  destruct found as [found |]; simpl.
  - destruct (String.eqb found "none") eqn:Hnone; simpl; rewrite ?Hnone;
      reflexivity.
  - destruct (String.eqb fw "none") eqn:Hnone; simpl; rewrite ?Hnone;
      reflexivity.
Qed.

(** X7. Detection is idempotent: running it again on its own result
    changes nothing, whatever framework and project type the Analysis
    held before. *)
Theorem X7_detection_idempotent (a : Analysis) :
  detectFrameworkAndType (detectFrameworkAndType a) = detectFrameworkAndType a.
Proof.
  destruct (detectFrameworkAndType_frame a) as (_ & _ & Hdeps & Hdev).
  unfold detectFrameworkAndType at 1. rewrite Hdeps, Hdev.
  apply (detection_twice
           (firstIndicated frameworkIndicators
              (JS.spread2 (dependencies a) (devDependencies a)))
           (JS.spread2 (dependencies a) (devDependencies a)) a).
Qed.

Lemma detectFrameworkAndType_projectType (a : Analysis) :
  projectType (detectFrameworkAndType a)
  = determineProjectType
      (set_framework (framework (detectFrameworkAndType a)) a) (combined a).
Proof.
  unfold detectFrameworkAndType, combined.
  destruct (firstIndicated frameworkIndicators _) as [found |];
    cbn [set_framework framework];
    destruct (String.eqb _ "none"); reflexivity.
Qed.

Lemma detected_frameworks (a : Analysis) :
  framework a = "none" →
  framework (detectFrameworkAndType a)
  ∈ ["react"; "vue"; "angular"; "svelte"; "traditional"].
Proof.
  intros Hnone. rewrite detectFrameworkAndType_framework, Hnone.
  destruct (firstIndicated frameworkIndicators (combined a)) as [found |] eqn:Hf;
    simpl; [| by_membership].
  destruct (firstIndicated_never_ssr (combined a)) as [Hnext Hnuxt].
  rewrite Hf in Hnext, Hnuxt.
  apply firstIndicated_key in Hf. simpl in Hf.
  repeat (apply elem_of_cons in Hf as [-> | Hf];
          [first [by_membership; fail | congruence] |]).
  by apply elem_of_nil in Hf.
Qed.

(** X8. Starting from the framework 'none' of the initial record,
    detection leaves one of five frameworks (react, vue, angular, svelte,
    traditional) and a project type that is one of that framework's
    labels: never the initial 'unknown', and never one of the two SSR
    labels of the nextjs and nuxtjs cases. *)
Theorem X8_detected_project_type (a : Analysis) :
  framework a = "none" →
  (∃ labels,
     JS.assoc (framework (detectFrameworkAndType a)) projectTypeLabels
     = Some labels
     ∧ projectType (detectFrameworkAndType a) ∈ labels)
  ∧ projectType (detectFrameworkAndType a) ≠ "unknown"
  ∧ projectType (detectFrameworkAndType a) ≠ "Next.js SSR Application"
  ∧ projectType (detectFrameworkAndType a) ≠ "Nuxt.js SSR Application".
Proof.
  intros Hnone. pose proof (detected_frameworks a Hnone) as Hfw.
  rewrite detectFrameworkAndType_projectType.
  revert Hfw. generalize (framework (detectFrameworkAndType a)). intros found Hfw.
  unfold determineProjectType. cbn [set_framework framework].
  repeat (apply elem_of_cons in Hfw as [-> | Hfw];
          [cbn [String.eqb Ascii.eqb Bool.eqb andb];
           repeat match goal with
                  | |- context [if ?b then _ else _] => destruct b
                  end;
           (split; [eexists; split; [reflexivity | by_membership] |]);
           split_and!; discriminate |]).
  by apply elem_of_nil in Hfw.
Qed.

Lemma X8_detected_project_type_witness :
  framework vueAndJquery = "none"
  ∧ (∃ labels,
       JS.assoc (framework (detectFrameworkAndType vueAndJquery)) projectTypeLabels
       = Some labels
       ∧ projectType (detectFrameworkAndType vueAndJquery) ∈ labels).
Proof.
  split; [reflexivity |].
  apply (X8_detected_project_type vueAndJquery). reflexivity.
Defined.

(** ** Probing loops of the analyzer *)

Lemma for_of_ext {S A} (xs : list A) (body1 body2 : A → Eff S unit) :
  (∀ x, body1 x = body2 x) → for_of xs body1 = for_of xs body2.
Proof.
  intros Hb. induction xs as [| x xs IH]; simpl; [reflexivity |].
  by rewrite Hb, IH.
Qed.

(** A loop that probes each element of a table and records the ones the
    probe confirms: it records the confirmed elements in table order, up
    to the first probe that raises. *)
Lemma probe_loop {S X} (probe : X → result bool) (push : X → S → S)
  (xs : list X) (s : S) :
  let confirmed x := match probe x with Ok true => true | _ => false end in
  let run :=
    for_of xs (fun x =>
      present ← await (probe x);
      if (present : bool) then assign (push x) else mret tt) s in
  ∃ probed,
    probed `prefix_of` List.filter confirmed xs
    ∧ run.1 = fold_left (fun acc x => push x acc) probed s
    ∧ (run.2 = Ok tt ↔ Forall (fun x => ∃ b, probe x = Ok b) xs)
    ∧ (run.2 = Ok tt → probed = List.filter confirmed xs).
Proof.
  cbn zeta. revert s. induction xs as [| x xs IH]; intros s.
  - exists []. simpl. split_and!; [done | done | done | done].
  - cbn [for_of List.filter]. unfold mbind at 1, eff_bind at 1.
    unfold mbind at 1, eff_bind at 1, await at 1.
    destruct (probe x) as [[|] | e] eqn:Hprobe.
    + unfold assign at 1.
      destruct (IH (push x s)) as (probed & Hpre & Hstate & Hok & Hall).
      exists (x :: probed). split_and!.
      * by apply prefix_cons.
      * exact Hstate.
      * rewrite Hok, Forall_cons. split; [intros H; split; eauto | by intros [_ H]].
      * intros H. by rewrite (Hall H).
    + unfold mret at 1, eff_ret at 1.
      destruct (IH s) as (probed & Hpre & Hstate & Hok & Hall).
      exists probed. split_and!; [done | done | | done].
      rewrite Hok, Forall_cons. split; [intros H; split; eauto | by intros [_ H]].
    + exists []. split_and!.
      * apply prefix_nil.
      * reflexivity.
      * split; [discriminate |]. intros H. apply Forall_cons in H as [[b Hb] _].
        congruence.
      * discriminate.
Qed.

(** The same loop, exactly: when every probe returns, the confirmed
    elements are recorded; when a probe raises, the loop raises with its
    message and the elements confirmed before it are recorded. *)
Lemma probe_loop_returns {S X} (probe : X → result bool) (push : X → S → S)
  (xs : list X) (s : S) :
  let confirmed x := match probe x with Ok true => true | _ => false end in
  Forall (fun x => ∃ b, probe x = Ok b) xs →
  for_of xs (fun x =>
    present ← await (probe x);
    if (present : bool) then assign (push x) else mret tt) s
  = (fold_left (fun acc x => push x acc) (List.filter confirmed xs) s, Ok tt).
Proof.
  cbn zeta. revert s. induction xs as [| x xs IH]; intros s Hall;
    [reflexivity |].
  apply Forall_cons in Hall as [[b Hb] Hall].
  cbn [for_of List.filter]. unfold mbind at 1, eff_bind at 1.
  unfold mbind at 1, eff_bind at 1, await at 1. rewrite Hb.
  destruct b.
  - unfold assign at 1. by rewrite IH.
  - unfold mret at 1, eff_ret at 1. by rewrite IH.
Qed.

Lemma probe_loop_raises {S X} (probe : X → result bool) (push : X → S → S)
  (before after : list X) (x : X) (e : string) (s : S) :
  let confirmed x := match probe x with Ok true => true | _ => false end in
  Forall (fun x => ∃ b, probe x = Ok b) before →
  probe x = Throw e →
  for_of (before ++ x :: after) (fun x =>
    present ← await (probe x);
    if (present : bool) then assign (push x) else mret tt) s
  = (fold_left (fun acc x => push x acc) (List.filter confirmed before) s,
     Throw e).
Proof.
  cbn zeta. intros Hall Hx. revert s.
  induction before as [| y before IH]; intros s.
  - cbn [app for_of List.filter fold_left]. unfold mbind at 1, eff_bind at 1.
    unfold mbind at 1, eff_bind at 1, await at 1. by rewrite Hx.
  - apply Forall_cons in Hall as [[b Hb] Hall].
    cbn [app for_of List.filter]. unfold mbind at 1, eff_bind at 1.
    unfold mbind at 1, eff_bind at 1, await at 1. rewrite Hb.
    destruct b.
    + unfold assign at 1. by rewrite (IH Hall).
    + unfold mret at 1, eff_ret at 1. by rewrite (IH Hall).
Qed.

Lemma push_entryPoints (found : list string) (a : Analysis) :
  fold_left (fun acc entry =>
               set_entryPoints
                 (entryPoints acc ++ [{| ep_path := entry; ep_exists := true |}])
                 acc) found a
  = set_entryPoints
      (entryPoints a
       ++ map (fun entry => {| ep_path := entry; ep_exists := true |}) found) a.
Proof.
  revert a. induction found as [| entry found IH]; intros a; simpl.
  - rewrite app_nil_r. by destruct a.
  - rewrite IH. unfold set_entryPoints. simpl. by rewrite <- app_assoc.
Qed.

(** X9. The entry-point probe appends to [entryPoints], in the order of
    its table of sixteen candidates, one record (flagged as existing) for
    each candidate that [pathExists] confirms under the repository root,
    and touches no other field. It raises exactly when a probe raises,
    with the message of that probe, and then the candidates confirmed
    before that probe, and only those, have been recorded. *)
Theorem X9_entry_points_in_table_order fs (repoPath : string) (a : Analysis) :
  let run := findEntryPoints fs repoPath a in
  let found := List.filter (exists_at fs repoPath) possibleEntries in
  let record entry := {| ep_path := entry; ep_exists := true |} in
  let returns entry :=
    ∃ b, fs_pathExists fs (JS.path_join repoPath entry) = Ok b in
  (∃ probed,
     probed `prefix_of` found
     ∧ run.1 = set_entryPoints (entryPoints a ++ map record probed) a)
  ∧ (run.2 = Ok tt ↔ Forall returns possibleEntries)
  ∧ (run.2 = Ok tt →
     run.1 = set_entryPoints (entryPoints a ++ map record found) a)
  ∧ (∀ before entry after e,
       possibleEntries = before ++ entry :: after →
       Forall returns before →
       fs_pathExists fs (JS.path_join repoPath entry) = Throw e →
       run
       = (set_entryPoints
            (entryPoints a
             ++ map record (List.filter (exists_at fs repoPath) before)) a,
          Throw e))
  ∧ length found ≤ 16.
Proof.
  cbn zeta. unfold findEntryPoints.
  destruct (probe_loop
              (fun entry => fs_pathExists fs (JS.path_join repoPath entry))
              (fun entry a =>
                 set_entryPoints
                   (entryPoints a ++ [{| ep_path := entry; ep_exists := true |}]) a)
              possibleEntries a)
    as (probed & Hpre & Hstate & Hok & Hall).
  cbn zeta in *. rewrite push_entryPoints in Hstate.
  split_and!.
  - exists probed. split; [exact Hpre | exact Hstate].
  - exact Hok.
  - intros H. rewrite Hstate. by rewrite (Hall H).
  - intros before entry after e -> Hbefore Hentry.
    rewrite (probe_loop_raises
               (fun entry => fs_pathExists fs (JS.path_join repoPath entry))
               _ before after entry e a Hbefore Hentry).
    by rewrite push_entryPoints.
  - apply (filter_length_le (exists_at fs repoPath) possibleEntries).
Qed.

(** ** Scripts of the manifest *)

Lemma getScriptType_string (scriptName command : string) :
  ∃ t, getScriptType scriptName (CmdString command) = Ok t ∧ t ∈ scriptTypes.
Proof.
  unfold getScriptType, cmd_includes, or_else, mbind, result_bind.
  repeat match goal with
         | |- context [if ?b then _ else _] => destruct b
         end;
    eexists; (split; [reflexivity | by_membership]).
Qed.

(** [canExecuteScript] lower-cases the command first: it returns on
    strings only. *)
Lemma canExecuteScript_returns (command : ScriptValue) :
  (∃ can, canExecuteScript command = Ok can) ↔ is_string command.
Proof.
  unfold is_string. destruct command as [s | items | |]; cbn.
  - split; intros _; by eexists.
  - split; [intros [can H]; discriminate | intros [s H]; discriminate].
  - split; [intros [can H]; discriminate | intros [s H]; discriminate].
  - split; [intros [can H]; discriminate | intros [s H]; discriminate].
Qed.

Lemma analyzeExecutableScripts_run (scripts : list (string * ScriptValue)) :
  ((∃ out, analyzeExecutableScripts scripts = Ok out)
   ↔ Forall (fun kv => is_string kv.2) scripts)
  ∧ ∀ out, analyzeExecutableScripts scripts = Ok out →
      map fst out = map fst scripts
      ∧ map (fun kv => es_command kv.2) out = map snd scripts
      ∧ Forall (fun kv =>
                  canExecuteScript (es_command kv.2) = Ok (es_canExecute kv.2)
                  ∧ getScriptType kv.1 (es_command kv.2) = Ok (es_type kv.2)
                  ∧ es_type kv.2 ∈ scriptTypes) out.
Proof.
  induction scripts as [| [scriptName cmd] scripts [IHok IHout]].
  - split; [split; [constructor | by eexists] |].
    intros out [= <-]. split_and!; [done | done | constructor].
  - cbn [analyzeExecutableScripts].
    pose proof (canExecuteScript_returns cmd) as Hcan.
    destruct (canExecuteScript cmd) as [can |] eqn:Hc.
    + destruct Hcan as [Hcan _]. destruct (Hcan ltac:(by eexists)) as [command ->].
      destruct (getScriptType_string scriptName command) as (t & Ht & Hin).
      unfold mbind at 1, result_bind at 1.
      unfold mbind at 1, result_bind at 1. rewrite Ht.
      unfold mbind at 1, result_bind at 1.
      destruct (analyzeExecutableScripts scripts) as [rest |] eqn:Hrest.
      * split.
        -- split; [| by eexists]. intros _. constructor; [by eexists |].
           apply IHok. by eexists.
        -- cbn. intros out [= <-].
           destruct (IHout rest eq_refl) as (Hnames & Hcmds & Hall).
           cbn. rewrite Hnames, Hcmds. split_and!; [done | done |].
           constructor; [| exact Hall]. cbn. by rewrite Ht.
      * split; [| discriminate]. split; [intros [out Hout]; discriminate |].
        intros H. apply Forall_cons in H as [_ H]. apply IHok in H as [out Hout].
        discriminate.
    + unfold mbind at 1, result_bind at 1.
      split; [| discriminate]. split; [intros [out Hout]; discriminate |].
      intros H. apply Forall_cons in H as [H _].
      apply Hcan in H as [can H]. discriminate.
Qed.

(** X10. On the entries of a scripts object (distinct names, none of
    them '__proto__', which the assignment of the source would not store
    as a key), the script analysis returns exactly when every command is
    a string, and raises otherwise. When it returns, it holds one record
    per script, under the same names in the same order, with the command
    as it was, the verdict of [canExecuteScript] and a type among test,
    build, start, dev, cypress, lint and other. *)
Theorem X10_executable_scripts (scripts : list (string * ScriptValue)) :
  NoDup (map fst scripts) → ("__proto__" ∉ map fst scripts) →
  ((∃ out, analyzeExecutableScripts scripts = Ok out)
   ↔ Forall (fun kv => is_string kv.2) scripts)
  ∧ ∀ out, analyzeExecutableScripts scripts = Ok out →
      map fst out = map fst scripts
      ∧ map (fun kv => es_command kv.2) out = map snd scripts
      ∧ Forall (fun kv =>
                  canExecuteScript (es_command kv.2) = Ok (es_canExecute kv.2)
                  ∧ getScriptType kv.1 (es_command kv.2) = Ok (es_type kv.2)
                  ∧ es_type kv.2 ∈ scriptTypes) out.
Proof. intros _ _. apply analyzeExecutableScripts_run. Qed.

Lemma X10_executable_scripts_witness :
  NoDup (map fst [("build", CmdString "vite build"); ("e2e", CmdString "cypress run")])
  ∧ ("__proto__"
     ∉ map fst [("build", CmdString "vite build"); ("e2e", CmdString "cypress run")])
  ∧ ((∃ out,
        analyzeExecutableScripts
          [("build", CmdString "vite build"); ("e2e", CmdString "cypress run")]
        = Ok out)
     ↔ Forall (fun kv : string * ScriptValue => is_string kv.2)
         [("build", CmdString "vite build"); ("e2e", CmdString "cypress run")]).
Proof.
  assert (Hnd : NoDup (map fst [("build", CmdString "vite build");
                                ("e2e", CmdString "cypress run")]))
    by by_decision.
  assert (Hproto : "__proto__"
                   ∉ map fst [("build", CmdString "vite build");
                              ("e2e", CmdString "cypress run")])
    by by_decision.
  destruct (X10_executable_scripts
              [("build", CmdString "vite build"); ("e2e", CmdString "cypress run")]
              Hnd Hproto) as [Hok _].
  exact (conj Hnd (conj Hproto Hok)).
Defined.

Lemma toLowerCase_app (a b : string) :
  JS.toLowerCase (a +:+ b) = JS.toLowerCase a +:+ JS.toLowerCase b.
Proof.
  induction a as [| c a IH]; [reflexivity |].
  rewrite string_app_cons. cbn [JS.toLowerCase].
  by rewrite string_app_cons, IH.
Qed.

Lemma includes_toLowerCase (s w : string) :
  JS.toLowerCase w = w → JS.includes s w = true →
  JS.includes (JS.toLowerCase s) w = true.
Proof.
  intros Hw H. apply includes_occurs in H as (pre & post & ->).
  apply includes_occurs. exists (JS.toLowerCase pre), (JS.toLowerCase post).
  by rewrite !toLowerCase_app, Hw.
Qed.

Lemma canExecuteScript_pattern (command pattern : string) :
  pattern ∈ executablePatterns →
  JS.includes (JS.toLowerCase command) pattern = true →
  canExecuteScript (CmdString command) = Ok true.
Proof.
  intros Hin Hinc. unfold canExecuteScript, JS.some. f_equal.
  apply existsb_exists. exists pattern. split; [by apply list_elem_of_In | done].
Qed.

(** X11. A script whose type was read off its command rather than its
    name is always executable: when a string command gets a type other
    than 'other' that the script name does not contain, the command
    contains that type word as written, so its lower-cased form does,
    and [canExecuteScript] answers true. *)
Theorem X11_typed_by_command_is_executable (scriptName command t : string) :
  getScriptType scriptName (CmdString command) = Ok t →
  t ≠ "other" →
  JS.includes scriptName t = false →
  JS.includes command t = true
  ∧ canExecuteScript (CmdString command) = Ok true.
Proof.
  unfold getScriptType, cmd_includes, or_else, mbind, result_bind.
  destruct (JS.includes scriptName "test") eqn:Hn1.
  { intros [= <-] _ H. congruence. }
  destruct (JS.includes command "test") eqn:Hc1.
  { intros [= <-] _ _. split; [done |].
    apply (canExecuteScript_pattern command "test");
      [by_membership | by apply includes_toLowerCase]. }
  destruct (JS.includes scriptName "build") eqn:Hn2.
  { intros [= <-] _ H. congruence. }
  destruct (JS.includes command "build") eqn:Hc2.
  { intros [= <-] _ _. split; [done |].
    apply (canExecuteScript_pattern command "build");
      [by_membership | by apply includes_toLowerCase]. }
  destruct (JS.includes scriptName "start") eqn:Hn3.
  { intros [= <-] _ H. congruence. }
  destruct (JS.includes command "start") eqn:Hc3.
  { intros [= <-] _ _. split; [done |].
    apply (canExecuteScript_pattern command "start");
      [by_membership | by apply includes_toLowerCase]. }
  destruct (JS.includes scriptName "dev") eqn:Hn4.
  { intros [= <-] _ H. congruence. }
  destruct (JS.includes command "dev") eqn:Hc4.
  { intros [= <-] _ _. split; [done |].
    apply (canExecuteScript_pattern command "dev");
      [by_membership | by apply includes_toLowerCase]. }
  destruct (JS.includes scriptName "cypress") eqn:Hn5.
  { intros [= <-] _ H. congruence. }
  destruct (JS.includes command "cypress") eqn:Hc5.
  { intros [= <-] _ _. split; [done |].
    apply (canExecuteScript_pattern command "cypress");
      [by_membership | by apply includes_toLowerCase]. }
  destruct (JS.includes scriptName "lint") eqn:Hn6.
  { intros [= <-] _ H. congruence. }
  intros [= <-] H. by destruct H.
Qed.

Lemma X11_typed_by_command_is_executable_witness :
  getScriptType "verify" (CmdString "npm run build && cypress run") = Ok "build"
  ∧ JS.includes "npm run build && cypress run" "build" = true
  ∧ canExecuteScript (CmdString "npm run build && cypress run") = Ok true.
Proof.
  split; [reflexivity |].
  apply (X11_typed_by_command_is_executable "verify"
           "npm run build && cypress run" "build").
  - reflexivity.
  - discriminate.
  - reflexivity.
Defined.

(** ** Installed dependencies *)

(** X12. The installed-dependencies step never raises. It leaves
    [dependenciesInstalled] true exactly when node_modules exists, the
    probe for node_modules/cypress returns, and every script command (if
    the manifest was read) is a string; then [cypressInstalled] is the
    answer of that probe, the script records are those of the script
    analysis and the testing frameworks are those the two dependency maps
    name. When node_modules does not exist the step only clears
    [dependenciesInstalled]. *)
Theorem X12_installed_dependencies_flag fs (repoPath : string) (a : Analysis) :
  let nodeModules := JS.path_join repoPath "node_modules" in
  let cypressDir := JS.path_join nodeModules "cypress" in
  let run := analyzeInstalledDependencies fs repoPath a in
  run.2 = Ok tt
  ∧ (dependenciesInstalled run.1 = true
     ↔ fs_pathExists fs nodeModules = Ok true
       ∧ (∃ c, fs_pathExists fs cypressDir = Ok c)
       ∧ (∀ sc, scripts a = Some sc →
                ∃ out, analyzeExecutableScripts sc = Ok out))
  ∧ (dependenciesInstalled run.1 = true →
     fs_pathExists fs cypressDir = Ok (cypressInstalled run.1)
     ∧ testingFrameworks run.1
       = Some (detectTestingFrameworks (dependencies a) (devDependencies a))
     ∧ (∀ sc, scripts a = Some sc →
              analyzeExecutableScripts sc = Ok (executableScripts run.1)))
  ∧ (fs_pathExists fs nodeModules = Ok false →
     run.1 = set_dependenciesInstalled false a).
Proof.
  cbn zeta.
  unfold analyzeInstalledDependencies, try_catch, mbind, eff_bind, mret,
    eff_ret, assign, current, await.
  destruct (fs_pathExists fs (JS.path_join repoPath "node_modules"))
    as [[|] | e1]; cbn [negb].
  - destruct (fs_pathExists fs _) as [c | e2].
    + cbn [scripts set_cypressInstalled set_dependenciesInstalled].
      destruct (scripts a) as [sc |].
      * destruct (analyzeExecutableScripts sc) as [out | e3] eqn:Hout.
        -- cbn [fst snd dependenciesInstalled cypressInstalled testingFrameworks
                executableScripts set_dependenciesInstalled set_cypressInstalled
                set_executableScripts set_testingFrameworks dependencies
                devDependencies]. split_and!; [done | | | discriminate].
           ++ split; [| done]. intros _. split_and!; [done | by eexists |].
              intros sc' [= <-]. by eexists.
           ++ intros _. split_and!; [done | done |]. by intros sc' [= <-].
        -- cbn [fst snd dependenciesInstalled cypressInstalled testingFrameworks
                executableScripts set_dependenciesInstalled set_cypressInstalled
                set_executableScripts set_testingFrameworks dependencies
                devDependencies].
           split_and!; [done | | discriminate | discriminate].
           split; [discriminate |]. intros (_ & _ & H).
           destruct (H sc eq_refl) as [out Hout']. congruence.
      * cbn [fst snd dependenciesInstalled cypressInstalled testingFrameworks
                executableScripts set_dependenciesInstalled set_cypressInstalled
                set_executableScripts set_testingFrameworks dependencies
                devDependencies]. split_and!; [done | | | discriminate].
        -- split; [| done]. intros _. split_and!; [done | by eexists | discriminate].
        -- intros _. split_and!; [done | done | discriminate].
    + cbn [fst snd dependenciesInstalled set_dependenciesInstalled].
      split_and!; [done | | discriminate | discriminate].
      split; [discriminate |]. intros (_ & [c Hc] & _). discriminate.
  - cbn [fst snd dependenciesInstalled set_dependenciesInstalled].
    split_and!; [done | | discriminate | done].
    split; [discriminate |]. intros (H & _). discriminate.
  - cbn [fst snd dependenciesInstalled set_dependenciesInstalled].
    split_and!; [done | | discriminate | discriminate].
    split; [discriminate |]. intros (H & _). discriminate.
Qed.

(** ** Build tools *)

(** [items.includes(w)] on an array: the string [w] is an element. *)
Lemma array_includes_elem (items : list ScriptValue) (w : string) :
  array_includes items w = true ↔ CmdString w ∈ items.
Proof.
  unfold array_includes, JS.some. rewrite existsb_exists. split.
  - intros (item & Hin & Hitem). apply list_elem_of_In in Hin.
    destruct item as [s | | |]; try discriminate.
    by apply String.eqb_eq in Hitem as ->.
  - intros Hin. exists (CmdString w). split; [by apply list_elem_of_In |].
    apply String.eqb_refl.
Qed.

(** [cmd.includes(w)] on a command that has the method. *)
Lemma cmd_includes_mentions (expr : string) (cmd : ScriptValue) (w : string) :
  match cmd_includes expr cmd w with
  | Ok b => has_includes cmd ∧ (b = true ↔ cmd_mentions cmd w)
  | Throw e =>
      ¬ has_includes cmd
      ∧ e = match cmd with
            | CmdNull => "Cannot read properties of null (reading 'includes')"
            | _ => expr +:+ ".includes is not a function"
            end
  end.
Proof.
  destruct cmd as [s | items | |]; cbn.
  - split; [done | apply includes_occurs].
  - split; [done | apply array_includes_elem].
  - split; [tauto | done].
  - split; [tauto | done].
Qed.

(** The verdict of the filter predicate on one script: the name is
    tested first, and only then is [includes] called on the command. *)
Lemma isBuildScript_cases (name : string) (cmd : ScriptValue) :
  match isBuildScript name cmd with
  | Ok keep =>
      (keep = true ↔ occurs "build" name ∨ mentions_bundler cmd)
      ∧ (¬ has_includes cmd → occurs "build" name)
  | Throw e =>
      ¬ has_includes cmd ∧ ¬ occurs "build" name
      ∧ e = match cmd with
            | CmdNull => "Cannot read properties of null (reading 'includes')"
            | _ => "cmd.includes is not a function"
            end
  end.
Proof.
  unfold isBuildScript, or_else, mentions_bundler.
  destruct (JS.includes name "build") eqn:Hname.
  - apply includes_occurs in Hname. cbn. split; [| done].
    split; [intros _; by left | done].
  - apply includes_false in Hname.
    pose proof (cmd_includes_mentions "cmd" cmd "webpack") as Hw.
    pose proof (cmd_includes_mentions "cmd" cmd "vite") as Hv.
    pose proof (cmd_includes_mentions "cmd" cmd "rollup") as Hr.
    destruct (cmd_includes "cmd" cmd "webpack") as [w | e] eqn:Ew.
    + destruct Hw as [Hhas Hw].
      destruct (cmd_includes "cmd" cmd "vite") as [v | e] eqn:Ev;
        [| by destruct Hv].
      destruct (cmd_includes "cmd" cmd "rollup") as [r | e] eqn:Er;
        [| by destruct Hr].
      destruct Hv as [_ Hv]. destruct Hr as [_ Hr].
      unfold mbind, result_bind.
      destruct w, v, r; cbn; rewrite ?Ev, ?Er; cbn;
        (split; [| done]);
        (split;
         [first [discriminate | intros _; right; intuition congruence]
         | first [done | intros [H | H]; [done |];
                  exfalso; intuition congruence]]).
    + destruct Hw as [Hhas ->]. cbn. split_and!; [exact Hhas | exact Hname |].
      by destruct cmd.
Qed.

(** X13. The build-script filter returns exactly when every script
    whose command has no [includes] method (it is neither a string nor an
    array) has 'build' in its name (the name is tested first, so the
    command of such a script is never read), and raises otherwise. When
    it returns, it keeps, in order, exactly the scripts whose name
    contains 'build' or whose command names a bundler: a string that
    contains 'webpack', 'vite' or 'rollup', or an array one of whose
    elements is one of these strings. *)
Theorem X13_build_script_filter (entries : list (string * ScriptValue)) :
  ((∃ kept, filterBuildScripts entries = Ok kept)
   ↔ Forall (fun kv => ¬ has_includes kv.2 → occurs "build" kv.1) entries)
  ∧ ∀ kept, filterBuildScripts entries = Ok kept →
      kept `sublist_of` entries
      ∧ ∀ kv, kv ∈ kept
              ↔ kv ∈ entries ∧ (occurs "build" kv.1 ∨ mentions_bundler kv.2).
Proof.
  induction entries as [| [name cmd] entries [IHok IHkept]].
  - split; [split; [constructor | by eexists] |].
    intros kept [= <-]. split; [constructor |].
    intros kv. split; [intros H | intros [H _]]; by apply elem_of_nil in H.
  - cbn [filterBuildScripts]. unfold mbind at 1, result_bind at 1.
    pose proof (isBuildScript_cases name cmd) as Hcase.
    destruct (isBuildScript name cmd) as [keep | e].
    + destruct Hcase as [Hkeep Hstr].
      unfold mbind at 1, result_bind at 1.
      destruct (filterBuildScripts entries) as [rest |] eqn:Hrest.
      * split.
        { split; [| by eexists]. intros _. constructor; [exact Hstr |].
          apply IHok. by eexists. }
        intros kept [= <-].
        destruct (IHkept rest eq_refl) as [Hsub Hmem].
        split.
        { destruct keep; [by apply sublist_skip | by apply sublist_cons]. }
        intros kv. rewrite elem_of_cons.
        destruct keep.
        -- rewrite elem_of_cons, Hmem. split.
           ++ intros [-> | [Hin Hp]]; [| by auto].
              split; [by left |]. by apply Hkeep.
           ++ intros [[-> | Hin] Hp]; [by left | by right].
        -- rewrite Hmem. split.
           ++ intros [Hin Hp]. by auto.
           ++ intros [[-> | Hin] Hp]; [| done].
              apply Hkeep in Hp. discriminate.
      * split; [| discriminate]. split; [intros [kept H]; discriminate |].
        intros H. apply Forall_cons in H as [_ H].
        apply IHok in H as [kept H]. discriminate.
    + destruct Hcase as (Hhas & Hname & _).
      split; [| discriminate]. split; [intros [kept H]; discriminate |].
      intros H. apply Forall_cons in H as [H _]. exfalso. apply Hname.
      by apply H.
Qed.

(** A bundler named in an array is kept; a number under a name without
    'build' makes the filter raise. *)
Example filterBuildScripts_samples :
  filterBuildScripts
    [("bundle", CmdArray [CmdString "webpack"]); ("lint", CmdString "eslint .");
     ("build", CmdOther)]
  = Ok [("bundle", CmdArray [CmdString "webpack"]); ("build", CmdOther)]
  ∧ filterBuildScripts [("postinstall", CmdOther)]
    = Throw "cmd.includes is not a function"
  ∧ filterBuildScripts [("postinstall", CmdNull)]
    = Throw "Cannot read properties of null (reading 'includes')".
Proof. split_and!; reflexivity. Qed.

Lemma push_buildTools (found : list (string * string)) (a : Analysis) :
  fold_left (fun acc (entry : string * string) =>
               set_buildTools
                 (buildTools acc
                  ++ [{| bt_name := entry.2; bt_configFile := entry.1 |}]) acc)
    found a
  = set_buildTools
      (buildTools a
       ++ map (fun entry : string * string =>
                 {| bt_name := entry.2; bt_configFile := entry.1 |}) found) a.
Proof.
  revert a. induction found as [| entry found IH]; intros a; simpl.
  - rewrite app_nil_r. by destruct a.
  - rewrite IH. unfold set_buildTools. simpl. by rewrite <- app_assoc.
Qed.

(** Where the build-tool step raises: at the first probe that raises,
    with the tools confirmed before it recorded, or in the filter over
    the scripts, with every confirmed tool recorded. *)
Lemma analyzeBuildTools_raises fs (repoPath : string) (a : Analysis) :
  let run := analyzeBuildTools fs repoPath a in
  let record (entry : string * string) :=
    {| bt_name := entry.2; bt_configFile := entry.1 |} in
  let returns (entry : string * string) :=
    ∃ b, fs_pathExists fs (JS.path_join repoPath entry.1) = Ok b in
  let found entries :=
    List.filter (fun entry : string * string => exists_at fs repoPath entry.1)
      entries in
  (∀ before entry after e,
     buildConfigs = before ++ entry :: after →
     Forall returns before →
     fs_pathExists fs (JS.path_join repoPath entry.1) = Throw e →
     run = (set_buildTools (map record (found before)) a, Throw e))
  ∧ (∀ sc e,
       Forall returns buildConfigs →
       scripts a = Some sc →
       filterBuildScripts sc = Throw e →
       run = (set_buildTools (map record (found buildConfigs)) a, Throw e)).
Proof.
  cbn zeta. unfold analyzeBuildTools, exists_at.
  rewrite (for_of_ext buildConfigs _
             (fun entry =>
                present ← await (fs_pathExists fs (JS.path_join repoPath entry.1));
                if (present : bool)
                then assign (fun a =>
                       set_buildTools
                         (buildTools a
                          ++ [{| bt_name := entry.2; bt_configFile := entry.1 |}])
                         a)
                else mret tt)) by (by intros [configFile toolName]).
  split.
  - intros before entry after e -> Hbefore Hentry.
    unfold mbind at 1, eff_bind at 1, assign at 1.
    unfold mbind at 1, eff_bind at 1.
    rewrite (probe_loop_raises
               (fun entry : string * string =>
                  fs_pathExists fs (JS.path_join repoPath entry.1))
               _ before after entry e _ Hbefore Hentry).
    by rewrite push_buildTools.
  - intros sc e Hall Hsc Hfilter.
    unfold mbind at 1, eff_bind at 1, assign at 1.
    unfold mbind at 1, eff_bind at 1.
    rewrite (probe_loop_returns
               (fun entry : string * string =>
                  fs_pathExists fs (JS.path_join repoPath entry.1))
               _ buildConfigs _ Hall).
    rewrite push_buildTools.
    unfold mbind, eff_bind, current, await.
    cbn [scripts set_buildTools]. rewrite Hsc, Hfilter. reflexivity.
Qed.

(** X14. The build-tool step starts from an empty [buildTools],
    whatever the field held: when it returns, [buildTools] names exactly
    the configuration files of its table that [pathExists] confirms, in
    table order, and [buildScripts] is replaced by the filtered scripts
    only if the manifest's scripts were read and the filter kept at least
    one; otherwise it stays as it was. When a probe raises, the step
    raises with the tools confirmed before that probe recorded; when the
    filter over the scripts raises, with every confirmed tool recorded;
    [buildScripts] is then as it was. *)
Theorem X14_build_tools_found fs (repoPath : string) (a : Analysis) :
  let run := analyzeBuildTools fs repoPath a in
  let found := List.filter (fun entry => exists_at fs repoPath entry.1)
                 buildConfigs in
  let record (entry : string * string) :=
    {| bt_name := entry.2; bt_configFile := entry.1 |} in
  let returns (entry : string * string) :=
    ∃ b, fs_pathExists fs (JS.path_join repoPath entry.1) = Ok b in
  ((∃ probed, probed `prefix_of` found ∧ buildTools run.1 = map record probed)
   ∧ (run.2 = Ok tt →
      buildTools run.1 = map record found
      ∧ match scripts a with
        | Some sc =>
            ∃ kept, filterBuildScripts sc = Ok kept
                    ∧ buildScripts run.1
                      = (if 0 <? length kept then Some kept else buildScripts a)
        | None => buildScripts run.1 = buildScripts a
        end))
  ∧ (∀ before entry after e,
       buildConfigs = before ++ entry :: after →
       Forall returns before →
       fs_pathExists fs (JS.path_join repoPath entry.1) = Throw e →
       run
       = (set_buildTools
            (map record
               (List.filter (fun entry => exists_at fs repoPath entry.1) before))
            a,
          Throw e))
  ∧ (∀ sc e,
       Forall returns buildConfigs →
       scripts a = Some sc →
       filterBuildScripts sc = Throw e →
       run = (set_buildTools (map record found) a, Throw e)).
Proof.
  cbn zeta. split; [| apply analyzeBuildTools_raises].
 unfold analyzeBuildTools, exists_at.
  rewrite (for_of_ext buildConfigs _
             (fun entry =>
                present ← await (fs_pathExists fs (JS.path_join repoPath entry.1));
                if (present : bool)
                then assign (fun a =>
                       set_buildTools
                         (buildTools a
                          ++ [{| bt_name := entry.2; bt_configFile := entry.1 |}])
                         a)
                else mret tt)) by (by intros [configFile toolName]).
  destruct (probe_loop
              (fun entry : string * string =>
                 fs_pathExists fs (JS.path_join repoPath entry.1))
              (fun (entry : string * string) a =>
                 set_buildTools
                   (buildTools a
                    ++ [{| bt_name := entry.2; bt_configFile := entry.1 |}]) a)
              buildConfigs (set_buildTools [] a))
    as (probed & Hpre & Hstate & Hok & Hall).
  cbn zeta in *. rewrite push_buildTools in Hstate.
  set (found := List.filter _ buildConfigs) in *. clearbody found.
  unfold mbind, eff_bind, current, await, assign, mret, eff_ret in *.
  destruct (for_of buildConfigs _ (set_buildTools [] a)) as [a1 [[] | e]];
    cbn [fst snd] in *.
  - specialize (Hall eq_refl). subst probed a1.
    cbn [scripts set_buildTools].
    destruct (scripts a) as [sc |].
    + destruct (filterBuildScripts sc) as [kept | e].
      * destruct (0 <? length kept) eqn:Hkept;
          cbn -[Nat.ltb]; rewrite ?app_nil_l.
        -- split; [by eexists |]. intros _. split; [done |].
           exists kept. by rewrite Hkept.
        -- split; [by eexists |]. intros _. split; [done |].
           exists kept. by rewrite Hkept.
      * cbn. split; [by eexists | discriminate].
    + cbn. split; [by eexists | done].
  - subst a1. cbn. split; [by eexists | discriminate].
Qed.

(** ** Existing tests *)

(** Every path the walk of [globFind] returns passed the matching. *)
Lemma search_matches fs (pattern : string) :
  ∀ fuel dir relative file,
    file ∈ search fs fuel pattern dir relative →
    ∃ item, glob_matches pattern item file = true.
Proof.
  induction fuel as [| fuel IH]; intros dir relative file; simpl.
  { intros H. by apply elem_of_nil in H. }
  destruct (fs_readdir fs dir) as [items |];
    [| intros H; by apply elem_of_nil in H].
  induction items as [| item items IHitems].
  { intros H. by apply elem_of_nil in H. }
  destruct (_ || _); [exact IHitems |].
  destruct (fs_stat fs _) as [st |]; [| intros H; by apply elem_of_nil in H].
  destruct (isDirectory st).
  - intros H. apply elem_of_app in H as [H | H]; [by eapply IH | by apply IHitems].
  - destruct (isFile st); [| exact IHitems].
    intros H. apply elem_of_app in H as [H | H]; [| by apply IHitems].
    destruct (glob_matches pattern item _) eqn:Hm;
      [| by apply elem_of_nil in H].
    apply list_elem_of_singleton in H as ->. by exists item.
Qed.

Lemma glob_matches_fragment (pattern fragment : string) :
  (pattern, fragment) ∈ testFragments →
  ∀ item relativePath,
    glob_matches pattern item relativePath = JS.includes relativePath fragment.
Proof.
  intros Hin item relativePath. unfold testFragments in Hin.
  repeat (apply elem_of_cons in Hin as [[= -> ->] | Hin]; [reflexivity |]).
  by apply elem_of_nil in Hin.
Qed.

Lemma assign_loop {S X} (f : X → S → S) (handler : X → string → Eff S unit)
  (xs : list X) (s : S) :
  for_of xs (fun x => try_catch (assign (f x)) (handler x)) s
  = (fold_left (fun acc x => f x acc) xs s, Ok tt).
Proof.
  revert s. induction xs as [| x xs IH]; intros s; [reflexivity |].
  cbn [for_of fold_left]. unfold mbind, eff_bind, try_catch at 1, assign at 1.
  apply IH.
Qed.

Lemma push_testFiles (record : string → TestFile) (found : string → list string)
  (patterns : list string) (a : Analysis) :
  fold_left (fun acc pattern =>
               set_testFiles (testFiles acc ++ map record (found pattern)) acc)
    patterns a
  = set_testFiles
      (testFiles a ++ flat_map (fun pattern => map record (found pattern)) patterns)
      a.
Proof.
  revert a. induction patterns as [| pattern patterns IH]; intros a; simpl.
  - rewrite app_nil_r. by destruct a.
  - rewrite IH. unfold set_testFiles. simpl. by rewrite <- app_assoc.
Qed.

(** X15. The search for existing tests never raises and only appends
    to [testFiles]: for each of its eleven patterns in turn, one record
    per file the walk returns for that pattern, so a file that satisfies
    several patterns is recorded several times. The matching reduces a
    pattern to a literal (the first '**/' and the first '*' removed) and
    tests whether the relative path contains it: a file is returned for a
    pattern only if its path contains the pattern's literal, which for
    the directory patterns is 'cypress/e2e/.js', 'tests/.js', ... and
    '__tests__/*/*.js'. *)
Theorem X15_existing_tests_by_literal fs (repoPath : string) (a : Analysis) :
  let record file :=
    {| tf_path := file; tf_type := getTestType file;
       tf_framework := getTestFramework file |} in
  findExistingTests fs repoPath a
  = (set_testFiles
       (testFiles a
        ++ flat_map (fun pattern => map record (globFind fs repoPath pattern))
             testPatterns) a,
     Ok tt)
  ∧ map fst testFragments = testPatterns
  ∧ ∀ pattern fragment, (pattern, fragment) ∈ testFragments →
      (∀ item relativePath,
         glob_matches pattern item relativePath
         = JS.includes relativePath fragment)
      ∧ ∀ file, file ∈ globFind fs repoPath pattern → occurs fragment file.
Proof.
  cbn zeta. split_and!.
  - unfold findExistingTests.
    rewrite (assign_loop
               (fun pattern a =>
                  set_testFiles
                    (testFiles a
                     ++ map (fun file =>
                               {| tf_path := file; tf_type := getTestType file;
                                  tf_framework := getTestFramework file |})
                          (globFind fs repoPath pattern)) a)).
    by rewrite (push_testFiles _ (globFind fs repoPath)).
  - reflexivity.
  - intros pattern fragment Hin. split; [by apply glob_matches_fragment |].
    intros file Hfile. apply search_matches in Hfile as [item Hm].
    rewrite (glob_matches_fragment _ _ Hin) in Hm. by apply includes_occurs.
Qed.

(** A Cypress spec in its usual place is returned for no pattern. *)
Example cypress_spec_not_matched :
  Forall (fun pattern =>
            glob_matches pattern "login.cy.js" "cypress/e2e/login.cy.js" = false)
    testPatterns.
Proof. repeat constructor. Qed.

(** ** The scanned tree is closed under parents *)

(** The walk behind an entry found below the directory [pre] at [depth]:
    the names that lead to it, each an item of the listing of its parent
    directory, what [stat] said of it, and the entries of the directories
    on the way. *)
Lemma scan_walk fs (repoPath : string) :
  ∀ fuel pre depth e,
    e ∈ scan fs fuel repoPath (join_segments pre) depth →
    ∃ rest leaf,
      scan_entry_ok fs (scan fs fuel repoPath (join_segments pre) depth)
        pre depth e rest
      ∧ last rest = Some leaf
      ∧ leads_down fs repoPath pre rest
      ∧ (∃ st, fs_stat fs (JS.path_join repoPath (entry_path e)) = Ok st
               ∧ recorded_from e st)
      ∧ match e with
        | DirectoryEntry _ _ important => important = isImportantDirectory leaf
        | FileEntry _ extension _ important =>
            extension = extname leaf ∧ important = isImportantFile leaf
        end
      ∧ ∀ j name, S j < length rest → rest !! j = Some name →
          DirectoryEntry (join_segments (pre ++ take (S j) rest)) (depth + j)
            (isImportantDirectory name)
          ∈ scan fs fuel repoPath (join_segments pre) depth.
Proof.
  induction fuel as [| fuel IH]; intros pre depth e; simpl.
  { intros H. by apply elem_of_nil in H. }
  destruct (3 <? depth) eqn:Hcap.
  { intros H. by apply elem_of_nil in H. }
  apply Nat.ltb_ge in Hcap.
  destruct (fs_readdir fs _) as [items |] eqn:Hdir;
    [| intros H; by apply elem_of_nil in H].
  intros He. apply elem_of_flat_map in He as (item & Hitem & He).
  assert (Hlisted : Forall (listed fs) [item]).
  { repeat constructor. by exists (JS.path_join repoPath (join_segments pre)), items. }
  assert (Hdown : leads_down fs repoPath pre [item]).
  { intros [| j] name Hname; [| done]. injection Hname as <-.
    exists items. cbn [take]. by rewrite app_nil_r. }
  assert (Hsub : ∀ x, x ∈ scan_item fs (scan fs fuel repoPath) repoPath
                          (join_segments pre) depth item →
                   x ∈ flat_map (scan_item fs (scan fs fuel repoPath) repoPath
                                   (join_segments pre) depth) items).
  { intros x Hx. apply elem_of_flat_map. eauto. }
  revert He Hsub. unfold scan_item.
  destruct (skipped item) eqn:Hskip; [intros H; by apply elem_of_nil in H |].
  apply skipped_false in Hskip.
  rewrite join_segments_snoc.
  destruct (fs_stat fs _) as [st |] eqn:Hstat;
    [| intros H; by apply elem_of_nil in H].
  destruct (isDirectory st) eqn:Hisdir.
  - intros He Hsub. apply elem_of_cons in He as [-> | He].
    + (* the directory itself *)
      exists [item], item. split_and!.
      * unfold scan_entry_ok. simpl. split_and!; auto; try lia.
      * done.
      * exact Hdown.
      * exists st. split; [exact Hstat | exact Hisdir].
      * done.
      * intros j name Hj. simpl in Hj. lia.
    + (* an entry of the recursive call *)
      revert He Hsub.
      destruct ((depth <? 2) || isImportantDirectory item) eqn:Hrec;
        intros He Hsub; [| by apply elem_of_nil in He].
      destruct (IH (pre ++ [item]) (depth + 1) e He)
        as (rest & leaf & Hok & Hlast & Hdown' & Hrecorded & Hflags & Hup).
      destruct Hok as (Hne & Hpath & Hlist & Hall & Hdepth & Hshape & Hanc).
      exists (item :: rest), leaf.
      assert (Hlen : 0 < length rest) by (destruct rest; [done | simpl; lia]).
      split_and!.
      * unfold scan_entry_ok. split_and!.
        -- done.
        -- by rewrite Hpath, <- app_assoc.
        -- by apply (Forall_app _ [item] rest).
        -- by constructor.
        -- simpl. lia.
        -- destruct e; simpl; lia.
        -- intros [| j] name Hj Hdeep Hname; simpl in Hname.
           ++ injection Hname as <-.
              assert (Himp : isImportantDirectory item = true).
              { destruct (depth <? 2) eqn:Hlt; [| exact Hrec].
                apply Nat.ltb_lt in Hlt. lia. }
              split; [exact Himp |].
              apply Hsub. rewrite Himp, Nat.add_0_r. simpl. left.
           ++ simpl in Hj.
              destruct (Hanc j name ltac:(lia) ltac:(lia) Hname) as [Himp Hin].
              split; [exact Himp |].
              apply Hsub. right.
              replace (depth + S j) with (depth + 1 + j) by lia.
              simpl. by rewrite <- app_assoc in Hin.
      * destruct rest; [done | exact Hlast].
      * intros [| j] name Hname; simpl in Hname.
        -- injection Hname as <-. exists items. cbn [take].
           by rewrite app_nil_r.
        -- destruct (Hdown' j name Hname) as (items' & Hitems' & Hin').
           exists items'. split; [| exact Hin'].
           cbn [take]. by rewrite <- app_assoc in Hitems'.
      * exact Hrecorded.
      * exact Hflags.
      * intros [| j] name Hj Hname; simpl in Hname.
        -- injection Hname as <-. apply Hsub. rewrite Nat.add_0_r. left.
        -- simpl in Hj. apply Hsub. right.
           replace (depth + S j) with (depth + 1 + j) by lia.
           pose proof (Hup j name ltac:(lia) Hname) as Hin.
           simpl. by rewrite <- app_assoc in Hin.
  - destruct (isFile st && (depth <=? 2)) eqn:Hfile;
      [| intros H; by apply elem_of_nil in H].
    intros He _. apply list_elem_of_singleton in He as ->.
    apply andb_true_iff in Hfile as [Hisfile Hd]. apply Nat.leb_le in Hd.
    exists [item], item. split_and!.
    + unfold scan_entry_ok. simpl. split_and!; auto; try lia.
    + done.
    + exact Hdown.
    + exists st. split; [exact Hstat | by split_and!].
    + done.
    + done.
    + intros j name Hj. simpl in Hj. lia.
Qed.

(** Every name the sample file system lists is a proper name. *)
Lemma assoc_Some_value {A} (k : string) (l : list (string * A)) (v : A) :
  JS.assoc k l = Some v → v ∈ map snd l.
Proof.
  induction l as [| [k' w] l IH]; simpl; [discriminate |].
  destruct (String.eqb k k').
  - intros [= <-]. left.
  - intros H. right. by apply IH.
Qed.

Lemma sampleFs_proper (name : string) : listed sampleFs name → proper_name name.
Proof.
  intros (dir & items & Hdir & Hin).
  change (match JS.assoc dir sampleListings with
          | Some items => Ok items
          | None => Throw "ENOENT"
          end = Ok items) in Hdir.
  destruct (JS.assoc dir sampleListings) as [items' |] eqn:Hitems;
    [| discriminate].
  injection Hdir as ->. apply assoc_Some_value in Hitems.
  assert (Hall : Forall (fun items =>
                           Forall (fun name =>
                                     name ≠ "" ∧ JS.includes name "/" = false)
                             items) (map snd sampleListings)) by by_decision.
  rewrite Forall_forall in Hall. specialize (Hall _ Hitems).
  rewrite Forall_forall in Hall. by apply Hall.
Qed.

(** X16. The scanned structure is closed under parents. The path of an
    entry is made of the names of a walk down the tree: each name is an
    item of the listing of the directory the names before it lead to
    (when the file system lists proper names only, they are the segments
    of the path string). Every directory on the way is itself an entry,
    recorded with the depth it was found at and the importance of its own
    name. The entry records what [stat] answered for its path; its own
    flag is the importance of its last name, and a file's extension is
    that of its last name. *)
Theorem X16_scan_lists_every_ancestor fs (repoPath : string) (start : nat)
  (e : StructureEntry) :
  e ∈ scan fs (scan_fuel start) repoPath "" start →
  ∃ segs leaf,
    last segs = Some leaf
    ∧ entry_path e = join_segments segs
    ∧ leads_down fs repoPath [] segs
    ∧ Forall (listed fs) segs
    ∧ ((∀ name, listed fs name → proper_name name) →
       JS.split_slash (entry_path e) = segs)
    ∧ (∃ st, fs_stat fs (JS.path_join repoPath (entry_path e)) = Ok st
             ∧ recorded_from e st)
    ∧ match e with
      | DirectoryEntry _ _ important => important = isImportantDirectory leaf
      | FileEntry _ extension _ important =>
          extension = extname leaf ∧ important = isImportantFile leaf
      end
    ∧ ∀ j name, S j < length segs → segs !! j = Some name →
        DirectoryEntry (join_segments (take (S j) segs)) (start + j)
          (isImportantDirectory name)
        ∈ scan fs (scan_fuel start) repoPath "" start.
Proof.
  intros He.
  destruct (scan_walk fs repoPath (scan_fuel start) [] start e He)
    as (segs & leaf & Hok & Hlast & Hdown & Hrecorded & Hflags & Hup).
  destruct Hok as (Hne & Hpath & Hlist & _).
  exists segs, leaf.
  split_and!; [exact Hlast | exact Hpath | exact Hdown | exact Hlist | |
               exact Hrecorded | exact Hflags | exact Hup].
  intros Hproper. rewrite Hpath. apply split_join_segments; [exact Hne |].
  apply (Forall_impl _ _ _ Hlist). exact Hproper.
Qed.

Lemma X16_scan_lists_every_ancestor_witness :
  FileEntry "src/index.js" ".js" 230 true
    ∈ scan sampleFs (scan_fuel 0) "/repo" "" 0
  ∧ leads_down sampleFs "/repo" [] ["src"; "index.js"]
  ∧ DirectoryEntry "src" 0 true ∈ scan sampleFs (scan_fuel 0) "/repo" "" 0.
Proof.
  assert (Hin : FileEntry "src/index.js" ".js" 230 true
                  ∈ scan sampleFs (scan_fuel 0) "/repo" "" 0).
  { rewrite scan_sample. by_membership. }
  destruct (X16_scan_lists_every_ancestor sampleFs "/repo" 0 _ Hin)
    as (segs & leaf & _ & _ & Hdown & _ & Hsplit & _ & _ & Hup).
  specialize (Hsplit sampleFs_proper). cbn in Hsplit. subst segs.
  exact (conj Hin (conj Hdown (Hup 0 "src" (le_n 2) eq_refl))).
Defined.

(** ** Quick analysis *)

Lemma quickAnalysis_returns fs (now repoPath : string) :
  quickAnalysis fs now repoPath
  = Ok (quick_fields (quickAnalysis_body fs repoPath (initialAnalysis now)).1).
Proof.
  unfold quickAnalysis, try_catch, quickAnalysis_body, mbind, eff_bind, current.
  generalize (initialAnalysis now). intros a0.
  destruct (analyzePackageJson fs repoPath a0) as [a1 [[] | e]]; [| reflexivity].
  destruct (analyzeProjectStructure fs repoPath "" 2 a1) as [a2 [[] | e]];
    [| reflexivity].
  destruct (assign detectFrameworkAndType a2) as [a3 [[] | e]]; [| reflexivity].
  destruct (findEntryPoints fs repoPath a3) as [a4 [[] | e]]; reflexivity.
Qed.

Lemma quickAnalysis_structure fs (now repoPath : string) :
  let final := (quickAnalysis_body fs repoPath (initialAnalysis now)).1 in
  projectStructure final = []
  ∨ projectStructure final = scan fs (scan_fuel 2) repoPath "" 2.
Proof.
  cbn zeta.
  set (found := scan fs (scan_fuel 2) repoPath "" 2).
  assert (K0 : preserves (fun a => projectStructure a = [])
                 (analyzePackageJson fs repoPath))
    by (unfold analyzePackageJson; frame).
  assert (K2 : preserves (fun a => projectStructure a = found)
                 (assign detectFrameworkAndType)).
  { apply preserves_assign. intros a0 H.
    by destruct (detectFrameworkAndType_frame a0) as [-> _]. }
  assert (K3 : preserves (fun a => projectStructure a = found)
                 (findEntryPoints fs repoPath))
    by (unfold findEntryPoints; frame).
  unfold quickAnalysis_body, mbind, eff_bind.
  specialize (K0 (initialAnalysis now) eq_refl).
  destruct (analyzePackageJson fs repoPath (initialAnalysis now))
    as [a1 [[] | e]]; simpl in K0; [| by left].
  assert (H1 : projectStructure
                 (analyzeProjectStructure fs repoPath "" 2 a1).1 = found).
  { simpl. by rewrite K0. }
  destruct (analyzeProjectStructure fs repoPath "" 2 a1) as [a2 [[] | e]];
    simpl in H1; [| by right].
  specialize (K2 a2 H1).
  destruct (assign detectFrameworkAndType a2) as [a3 [[] | e]];
    simpl in K2; [| by right].
  specialize (K3 a3 K2).
  destruct (findEntryPoints fs repoPath a3) as [a4 [[] | e]];
    simpl in K3; by right.
Qed.

(** X17. The quick analysis never raises, and its structure is
    shallow: [projectStructure] is empty (the manifest step raised) or
    the scan started at depth 2. Every entry is an item of the listing of
    the repository root, recorded with depth 2 when it is a directory, or
    a directory listed directly inside an important directory of the
    root, which is an entry itself, and is recorded with depth 3; files
    below the root are not recorded. No name on the way is
    'node_modules', '.git' or starts with a dot; when the file system
    lists proper names only, these names are the segments of the path
    string. *)
Theorem X17_quick_analysis_is_shallow fs (now repoPath : string) :
  ∃ final,
    quickAnalysis fs now repoPath = Ok final
    ∧ (qa_projectStructure final = []
       ∨ qa_projectStructure final = scan fs (scan_fuel 2) repoPath "" 2)
    ∧ ∀ e, e ∈ qa_projectStructure final →
        ∃ segs,
          entry_path e = join_segments segs
          ∧ leads_down fs repoPath [] segs
          ∧ Forall (listed fs) segs
          ∧ Forall allowed_segment segs
          ∧ ((∀ name, listed fs name → proper_name name) →
             JS.split_slash (entry_path e) = segs)
          ∧ match e, segs with
            | FileEntry _ _ _ _, [_] => True
            | DirectoryEntry _ depth _, [_] => depth = 2
            | DirectoryEntry _ depth _, [top; _] =>
                depth = 3 ∧ isImportantDirectory top = true
                ∧ DirectoryEntry top 2 true ∈ qa_projectStructure final
            | _, _ => False
            end.
Proof.
  eexists. split; [apply quickAnalysis_returns |].
  cbn [qa_projectStructure quick_fields].
  pose proof (quickAnalysis_structure fs now repoPath) as Hs. cbn zeta in Hs.
  split; [exact Hs |].
  intros e He. destruct Hs as [Hs | Hs]; rewrite Hs in He |- *.
  { by apply elem_of_nil in He. }
  destruct (scan_walk fs repoPath (scan_fuel 2) [] 2 e He)
    as (segs & leaf & Hok & _ & Hdown & _ & _ & _).
  destruct Hok as (Hne & Hpath & Hlist & Hall & Hdepth & Hshape & Hanc).
  exists segs.
  split_and!; [exact Hpath | exact Hdown | exact Hlist | exact Hall | |].
  { intros Hproper. rewrite Hpath. apply split_join_segments; [exact Hne |].
    apply (Forall_impl _ _ _ Hlist). exact Hproper. }
  destruct segs as [| top [| name [| more segs]]]; [done | | |].
  - destruct e; [exact Hshape | exact I].
  - destruct e as [p d i | p x s i]; simpl in Hshape; [| lia].
    split; [exact Hshape |].
    destruct (Hanc 0 top ltac:(simpl; lia) ltac:(lia) eq_refl) as [Himp Hin].
    split; [exact Himp | exact Hin].
  - simpl in Hdepth. lia.
Qed.

(** ** Repository names *)






















(** The names of a few URLs. *)
Example extractRepoName_samples :
  map (fun url => GitHubHandler.extractRepoName url "17")
    [ "git@github.com:owner/repo.git"; "https://github.com/owner/repo";
      "https://github.com/owner/repo/tree/main"; "https://github.com/owner/.git";
      "https://gitlab.com/owner/repo"; "https://github.com/../x" ]
  = [ "owner-repo-17"; "owner-repo-17"; "unknown-repo-17"; "owner-.git-17";
      "unknown-repo-17"; "..-x-17" ].
Proof. reflexivity. Qed.

(** ** Cloning and installing *)

Section CloningFacts.

Context (World : Type).
Context (fileSystem : World → FileSystem) (dateNow : World → string).
Context (remove : string → Eff World unit).
Context (clone : string → string → list string → Eff World unit).
Context (execSync : string → string → Eff World unit).
Context (birthtimeMs : World → string → result Z) (nowMs : World → Z).
Context (tempDir : string).

Local Abbreviation pathExists := (GitHubHandler.pathExists World fileSystem).
Local Abbreviation detectPackageManager :=
  (GitHubHandler.detectPackageManager World fileSystem).
Local Abbreviation installDependencies :=
  (GitHubHandler.installDependencies World fileSystem execSync).
Local Abbreviation cloneAndAnalyze :=
  (GitHubHandler.cloneAndAnalyze World fileSystem dateNow remove clone
     execSync tempDir).
Local Abbreviation cleanupOldRepos :=
  (GitHubHandler.cleanupOldRepos World fileSystem remove birthtimeMs nowMs
     tempDir).

Lemma pathExists_run (p : string) (w : World) :
  pathExists p w = (w, fs_pathExists (fileSystem w) p).
Proof. reflexivity. Qed.

(** The package manager is read off the lock files, yarn first; the
    probes leave the world as it is. *)
Lemma detectPackageManager_run (repoPath : string) (w : World) :
  detectPackageManager repoPath w
  = (w,
     match fs_pathExists (fileSystem w) (JS.path_join repoPath "yarn.lock") with
     | Ok true => Ok "yarn"
     | Ok false =>
         match fs_pathExists (fileSystem w)
                 (JS.path_join repoPath "pnpm-lock.yaml") with
         | Ok true => Ok "pnpm"
         | Ok false => Ok "npm"
         | Throw e => Throw e
         end
     | Throw e => Throw e
     end).
Proof.
  unfold GitHubHandler.detectPackageManager, mbind, eff_bind.
  rewrite pathExists_run.
  destruct (fs_pathExists (fileSystem w) _) as [[|] | e]; [reflexivity | | reflexivity].
  rewrite pathExists_run.
  by destruct (fs_pathExists (fileSystem w) _) as [[|] | e].
Qed.

Lemma installDependencies_returns (repoPath : string) (w : World) :
  ∃ w' r, installDependencies repoPath w = (w', Ok r).
Proof.
  unfold GitHubHandler.installDependencies, try_catch.
  match goal with
  | |- context [match ?m w with _ => _ end] => destruct (m w) as [w' [r | e]]
  end; by eexists _, _.
Qed.

Lemma installDependencies_run (repoPath : string) (w : World) :
  installDependencies repoPath w
  = match fs_pathExists (fileSystem w) (JS.path_join repoPath "package.json") with
    | Ok false => (w, Ok (GitHubHandler.InstallFailed "No package.json found"))
    | Ok true =>
        match detectPackageManager repoPath w with
        | (_, Ok manager) =>
            match execSync (manager +:+ " install") repoPath w with
            | (w', Ok _) => (w', Ok GitHubHandler.Installed)
            | (w', Throw e) => (w', Ok (GitHubHandler.InstallFailed e))
            end
        | (_, Throw e) => (w, Ok (GitHubHandler.InstallFailed e))
        end
    | Throw e => (w, Ok (GitHubHandler.InstallFailed e))
    end.
Proof.
  rewrite detectPackageManager_run.
  unfold GitHubHandler.installDependencies,
    GitHubHandler.detectPackageManager, GitHubHandler.pathExists, try_catch,
    mbind, eff_bind, current, await, mret, eff_ret.
  destruct (fs_pathExists (fileSystem w) (JS.path_join repoPath "package.json"))
    as [[|] | e0]; cbn [negb]; [| reflexivity | reflexivity].
  destruct (fs_pathExists (fileSystem w) (JS.path_join repoPath "yarn.lock"))
    as [[|] | e1]; [| | reflexivity].
  - by destruct (execSync _ repoPath w) as [w' [[] | e]].
  - destruct (fs_pathExists (fileSystem w) _) as [[|] | e2]; [| | reflexivity].
    + by destruct (execSync _ repoPath w) as [w' [[] | e]].
    + by destruct (execSync _ repoPath w) as [w' [[] | e]].
Qed.

(** X19. Installing never raises. Without a manifest in the clone no
    command is run. With one, exactly one command runs, in the clone:
    '<manager> install', where the manager is yarn when yarn.lock exists,
    else pnpm when pnpm-lock.yaml exists, else npm; the installation
    succeeded exactly when that command returned, and a probe that
    raises is answered as a failed installation, with no command run. *)
Theorem X19_install_runs_one_command (repoPath : string) (w : World) :
  let probe name := fs_pathExists (fileSystem w) (JS.path_join repoPath name) in
  (∃ w' r, installDependencies repoPath w = (w', Ok r))
  ∧ (probe "package.json" = Ok false →
     installDependencies repoPath w
     = (w, Ok (GitHubHandler.InstallFailed "No package.json found")))
  ∧ (probe "package.json" = Ok true →
     match detectPackageManager repoPath w with
     | (_, Ok manager) =>
         manager ∈ ["yarn"; "pnpm"; "npm"]
         ∧ (manager = "yarn" ↔ probe "yarn.lock" = Ok true)
         ∧ (manager = "pnpm"
            ↔ probe "yarn.lock" = Ok false ∧ probe "pnpm-lock.yaml" = Ok true)
         ∧ installDependencies repoPath w
           = match execSync (manager +:+ " install") repoPath w with
             | (w', Ok _) => (w', Ok GitHubHandler.Installed)
             | (w', Throw e) => (w', Ok (GitHubHandler.InstallFailed e))
             end
     | (_, Throw e) =>
         installDependencies repoPath w
         = (w, Ok (GitHubHandler.InstallFailed e))
     end).
Proof.
  cbn zeta. split; [apply installDependencies_returns |].
  rewrite installDependencies_run. split; [by intros -> |].
  intros ->. rewrite detectPackageManager_run.
  destruct (fs_pathExists (fileSystem w) (JS.path_join repoPath "yarn.lock"))
    as [[|] | e1]; [| | reflexivity].
  - split; [by_membership |]. split; [done |].
    split; [split; [discriminate | intros [H _]; discriminate] | reflexivity].
  - destruct (fs_pathExists (fileSystem w) _) as [[|] | e2]; [| | reflexivity].
    + split; [by_membership |]. split; [split; discriminate |].
      split; [done | reflexivity].
    + split; [by_membership |]. split; [split; discriminate |].
      split; [split; [discriminate | intros [_ H]; discriminate] | reflexivity].
Qed.

Lemma cloneAndAnalyze_returns (githubUrl : string) (w : World) :
  ∃ w' r, cloneAndAnalyze githubUrl w = (w', Ok r).
Proof.
  unfold GitHubHandler.cloneAndAnalyze, try_catch.
  destruct (GitHubHandler.cloneAndAnalyze_try _ _ _ _ _ _ _ _ _)
    as [f [r | e]]; [by eexists _, _ |].
  unfold GitHubHandler.cloneAndAnalyze_catch, mbind, eff_bind, current,
    mret, eff_ret.
  destruct (Agent.tempPath World f) as [p |]; [| by eexists _, _].
  destruct (JS.truthy p); [| by eexists _, _].
  unfold Agent.in_world, try_catch.
  destruct (remove p (Agent.world World f)) as [w' [[] | e']];
    by eexists _, _.
Qed.

(** What the handler answers once the directory of the clone is free:
    by the outcome of the clone. *)
Lemma cloneAndAnalyze_run (githubUrl : string) (w w1 : World) :
  let repoName := GitHubHandler.extractRepoName githubUrl (dateNow w) in
  let repoPath := JS.path_join tempDir repoName in
  (fs_pathExists (fileSystem w) repoPath = Ok false ∧ w1 = w
   ∨ fs_pathExists (fileSystem w) repoPath = Ok true
     ∧ remove repoPath w = (w1, Ok tt)) →
  match clone githubUrl repoPath [] w1 with
  | (w2, Throw e) =>
      cloneAndAnalyze githubUrl w = (w2, Ok (Agent.CloneFailed e))
  | (w2, Ok _) =>
      ∃ w3 r,
        installDependencies repoPath w2 = (w3, Ok r)
        ∧ cloneAndAnalyze githubUrl w
          = (w3, Ok (Agent.Cloned repoPath repoName (GitHubHandler.success r)))
  end.
Proof.
  cbn zeta. intros Hpre.
  unfold GitHubHandler.cloneAndAnalyze, try_catch,
    GitHubHandler.cloneAndAnalyze_try, GitHubHandler.cloneAndAnalyze_catch,
    Agent.in_world, Agent.set_tempPath, mbind, eff_bind, current, assign,
    mret, eff_ret.
  cbn [Agent.world Agent.tempPath]. rewrite pathExists_run.
  destruct Hpre as [[-> ->] | [-> Hremove]].
  - cbn [Agent.world Agent.tempPath].
    destruct (clone githubUrl _ [] w) as [w2 [[] | e]];
      cbn [Agent.world Agent.tempPath]; [| reflexivity].
    destruct (installDependencies_returns
                (JS.path_join tempDir
                   (GitHubHandler.extractRepoName githubUrl (dateNow w))) w2)
      as (w3 & r & Hinstall).
    exists w3, r. split; [exact Hinstall |]. by rewrite Hinstall.
  - cbn [Agent.world Agent.tempPath]. rewrite Hremove.
    cbn [Agent.world Agent.tempPath].
    destruct (clone githubUrl _ [] w1) as [w2 [[] | e]];
      cbn [Agent.world Agent.tempPath]; [| reflexivity].
    destruct (installDependencies_returns
                (JS.path_join tempDir
                   (GitHubHandler.extractRepoName githubUrl (dateNow w))) w2)
      as (w3 & r & Hinstall).
    exists w3, r. split; [exact Hinstall |]. by rewrite Hinstall.
Qed.

(** X20. Cloning never raises, and removes a directory only before it
    clones. When the clone raises, the answer carries its message and the
    world is as the failed clone left it: whatever it wrote under the
    temporary root stays. Once the clone has returned the answer is a
    success, whatever the installation did, so the removal of the [catch]
    block is never reached. *)
Theorem X20_clone_never_cleans_up (githubUrl : string) (w : World) :
  let repoName := GitHubHandler.extractRepoName githubUrl (dateNow w) in
  let repoPath := JS.path_join tempDir repoName in
  (∃ w' r, cloneAndAnalyze githubUrl w = (w', Ok r))
  ∧ ∀ w1,
      (fs_pathExists (fileSystem w) repoPath = Ok false ∧ w1 = w
       ∨ fs_pathExists (fileSystem w) repoPath = Ok true
         ∧ remove repoPath w = (w1, Ok tt)) →
      match clone githubUrl repoPath [] w1 with
      | (w2, Throw e) =>
          cloneAndAnalyze githubUrl w = (w2, Ok (Agent.CloneFailed e))
      | (w2, Ok _) =>
          ∃ w3 r,
            installDependencies repoPath w2 = (w3, Ok r)
            ∧ cloneAndAnalyze githubUrl w
              = (w3, Ok (Agent.Cloned repoPath repoName
                           (GitHubHandler.success r)))
      end.
Proof.
  cbn zeta. split; [apply cloneAndAnalyze_returns |].
  intros w1. apply cloneAndAnalyze_run.
Qed.

(** The sweep over repositories none of which is older than the limit
    removes nothing. *)
Lemma sweep_keeps_young (now maxAge : Z) (items : list string) (w : World) :
  Forall (fun item =>
            ∃ born, birthtimeMs w (JS.path_join tempDir item) = Ok born
                    ∧ (now - born ≤ maxAge)%Z) items →
  for_of items (fun item =>
    w ← current;
    born ← await (birthtimeMs w (JS.path_join tempDir item));
    if (maxAge <? now - born)%Z then remove (JS.path_join tempDir item)
    else mret tt) w
  = (w, Ok tt).
Proof.
  induction items as [| item items IH]; intros Hyoung; [reflexivity |].
  apply Forall_cons in Hyoung as [(born & Hborn & Hage) Hyoung].
  cbn [for_of]. unfold mbind at 1, eff_bind at 1.
  unfold mbind at 1 2, eff_bind at 1 2, current at 1, await at 1.
  rewrite Hborn.
  replace (maxAge <? now - born)%Z with false
    by (symmetry; apply Z.ltb_ge; lia).
  unfold mret at 1, eff_ret at 1. by apply IH.
Qed.

(** X28. The sweep of old repositories never raises, does nothing when
    the temporary root does not exist, and removes nothing when no
    listed item is older than the limit: an item is left alone unless the
    time since its creation exceeds the given number of hours. *)
Theorem X28_sweep_keeps_young_repos (maxAgeHours : Z) (w : World) :
  (∃ w', cleanupOldRepos maxAgeHours w = (w', Ok tt))
  ∧ (fs_pathExists (fileSystem w) tempDir = Ok false →
     cleanupOldRepos maxAgeHours w = (w, Ok tt))
  ∧ ∀ items,
      fs_pathExists (fileSystem w) tempDir = Ok true →
      fs_readdir (fileSystem w) tempDir = Ok items →
      Forall (fun item =>
                ∃ born,
                  birthtimeMs w (JS.path_join tempDir item) = Ok born
                  ∧ (nowMs w - born ≤ maxAgeHours * 3600000)%Z) items →
      cleanupOldRepos maxAgeHours w = (w, Ok tt).
Proof.
  split_and!.
  - unfold GitHubHandler.cleanupOldRepos, try_catch.
    match goal with
    | |- context [match ?m w with _ => _ end] => destruct (m w) as [w' [[] | e]]
    end; by eexists.
  - intros Habsent. unfold GitHubHandler.cleanupOldRepos, try_catch.
    unfold mbind at 1, eff_bind at 1. rewrite pathExists_run, Habsent.
    reflexivity.
  - intros items Hroot Hitems Hyoung.
    unfold GitHubHandler.cleanupOldRepos, try_catch.
    unfold mbind at 1, eff_bind at 1. rewrite pathExists_run, Hroot.
    cbn [negb]. unfold mbind at 1 2 3, eff_bind at 1 2 3, current at 1 2, await at 1.
    rewrite Hitems.
    replace (maxAgeHours * 60 * 60 * 1000)%Z with (maxAgeHours * 3600000)%Z
      by lia.
    by rewrite (sweep_keeps_young _ _ _ _ Hyoung).
Qed.

End CloningFacts.

(** *** A failed clone under the controller *)

Section FailedCloneFacts.

Context (World CypressCheck : Type).
Context (fileSystem : World → FileSystem) (dateNow : World → string).
Context (remove : string → Eff World unit).
Context (clone : string → string → list string → Eff World unit).
Context (execSync : string → string → Eff World unit).
Context (checkCypressSetup : string → Eff World CypressCheck).
Context (ensureDir : string → Eff World unit).
Context (writeFile : string → string → Eff World unit).
Context (now : World → string) (specClock : World → nat → string).
Context (tempDir outputDir : string).

(** X29. A clone that fails is never cleaned up. When the directory of
    the clone is free and the clone raises, the controller answers with
    the failure envelope, 'Error clonando: ' and the message of the
    clone, and the world is as the failed clone left it: neither the
    handler nor the controller removes what was written under the
    temporary root. *)
Theorem X29_failed_clone_is_left_on_disk (githubUrl : string)
  (w w1 w2 : World) (e : string) :
  let repoPath :=
    JS.path_join tempDir (GitHubHandler.extractRepoName githubUrl (dateNow w)) in
  (fs_pathExists (fileSystem w) repoPath = Ok false ∧ w1 = w
   ∨ fs_pathExists (fileSystem w) repoPath = Ok true
     ∧ remove repoPath w = (w1, Ok tt)) →
  clone githubUrl repoPath [] w1 = (w2, Throw e) →
  Agent.processRepository World CypressCheck
    (GitHubHandler.cloneAndAnalyze World fileSystem dateNow remove clone
       execSync tempDir)
    checkCypressSetup ensureDir writeFile remove fileSystem now specClock
    tempDir outputDir githubUrl w
  = (w2, Ok (Agent.Failure CypressCheck ("Error clonando: " +:+ e) githubUrl)).
Proof.
  cbn zeta. intros Hpre Hclone.
  pose proof (cloneAndAnalyze_run World fileSystem dateNow remove clone execSync
                tempDir githubUrl w w1 Hpre) as Hrun.
  cbn zeta in Hrun. rewrite Hclone in Hrun.
  by apply processRepository_clone_failed.
Qed.

End FailedCloneFacts.

Lemma X29_failed_clone_is_left_on_disk_witness :
  fs_pathExists sampleFs partialRepoPath = Ok false
  ∧ sim_clone_partial demoUrl partialRepoPath [] fullDisk
    = (afterPartialClone, Throw "fatal: early EOF")
  ∧ Agent.processRepository SimWorld unit sim_cloneAndAnalyze_partial
      sim_checkCypressSetup sim_ensureDir sim_writeFile sim_remove
      (fun _ => sampleFs) (fun _ => sampleDate) (fun _ _ => sampleDate)
      simTempDir simOutputDir demoUrl fullDisk
    = (afterPartialClone,
       Ok (Agent.Failure unit "Error clonando: fatal: early EOF" demoUrl))
  ∧ partialRepoPath ∈ sim_dirs afterPartialClone.
Proof.
  assert (Hfree : fs_pathExists sampleFs partialRepoPath = Ok false)
    by (vm_compute; reflexivity).
  assert (Hclone : sim_clone_partial demoUrl partialRepoPath [] fullDisk
                   = (afterPartialClone, Throw "fatal: early EOF"))
    by reflexivity.
  pose proof (X29_failed_clone_is_left_on_disk SimWorld unit (fun _ => sampleFs)
                (fun _ => "1700000000000") sim_remove sim_clone_partial
                sim_execSync sim_checkCypressSetup sim_ensureDir sim_writeFile
                (fun _ => sampleDate) (fun _ _ => sampleDate) simTempDir
                simOutputDir demoUrl fullDisk fullDisk afterPartialClone
                "fatal: early EOF" (or_introl (conj Hfree eq_refl)) Hclone)
    as Hrun.
  assert (Hleft : partialRepoPath ∈ sim_dirs afterPartialClone)
    by (vm_compute; left).
  exact (conj Hfree (conj Hclone (conj Hrun Hleft))).
Defined.

(** ** The Cypress setup check *)

(** The loop over the configuration files stops at the first one that
    exists. *)
Lemma findConfig_run fs (repoPath : string) (configPaths : list string)
  (results : GitHubHandler.Results) :
  let probe configPath :=
    fs_pathExists fs (JS.path_join repoPath configPath) in
  match GitHubHandler.findConfig fs repoPath configPaths results with
  | (results', Ok _) =>
      (∃ before configPath after,
         configPaths = before ++ configPath :: after
         ∧ Forall (fun p => probe p = Ok false) before
         ∧ probe configPath = Ok true
         ∧ results'
           = GitHubHandler.set_cypressConfigPath (Some configPath)
               (GitHubHandler.set_hasCypressConfig true results))
      ∨ (Forall (fun p => probe p = Ok false) configPaths ∧ results' = results)
  | (results', Throw e) =>
      ∃ before configPath after,
        configPaths = before ++ configPath :: after
        ∧ Forall (fun p => probe p = Ok false) before
        ∧ probe configPath = Throw e
  end.
Proof.
  cbn zeta. induction configPaths as [| configPath rest IH].
  - right. by split.
  - cbn [GitHubHandler.findConfig]. unfold mbind at 1, eff_bind at 1, await at 1.
    destruct (fs_pathExists fs (JS.path_join repoPath configPath))
      as [[|] | e] eqn:Hprobe.
    + left. exists [], configPath, rest. by split_and!.
    + destruct (GitHubHandler.findConfig fs repoPath rest results)
        as [results' [[] | e]].
      * destruct IH as [(before & found & after & -> & Hb & Hf & ->) | [Hall ->]].
        -- left. exists (configPath :: before), found, after.
           split_and!; [done | by constructor | done | done].
        -- right. split; [by constructor | done].
      * destruct IH as (before & failed & after & -> & Hb & Hf).
        exists (configPath :: before), failed, after.
        split_and!; [done | by constructor | done].
    + exists [], configPath, rest. by split_and!.
Qed.

(** X21. The setup check never raises. When no probe raises it
    answers with its results: the manifest flag is the answer of the
    manifest probe (also when the manifest cannot be parsed), the
    dependency flag can be true only with the manifest flag, and the
    configuration path is the first of cypress.config.js,
    cypress.config.ts and cypress.json that exists, or null when none
    does, its flag being true exactly when there is a path. When a probe
    raises, before any configuration file was found, it answers with the
    error record instead. *)
Theorem X21_setup_check_first_config fs (repoPath : string) :
  let probe name := fs_pathExists fs (JS.path_join repoPath name) in
  ∃ check,
    GitHubHandler.checkCypressSetup fs repoPath = Ok check
    ∧ match check with
      | GitHubHandler.Checked results =>
          probe "package.json" = Ok (GitHubHandler.hasPackageJson results)
          ∧ (GitHubHandler.hasCypressDependency results = true →
             GitHubHandler.hasPackageJson results = true)
          ∧ (GitHubHandler.hasCypressConfig results = true
             ↔ is_Some (GitHubHandler.cypressConfigPath results))
          ∧ match GitHubHandler.cypressConfigPath results with
            | Some configPath =>
                ∃ before after,
                  GitHubHandler.cypressConfigPaths
                  = before ++ configPath :: after
                  ∧ Forall (fun p => probe p = Ok false) before
                  ∧ probe configPath = Ok true
            | None =>
                Forall (fun p => probe p = Ok false)
                  GitHubHandler.cypressConfigPaths
            end
      | GitHubHandler.CheckFailed error =>
          probe "package.json" = Throw error
          ∨ ∃ before configPath after,
              GitHubHandler.cypressConfigPaths = before ++ configPath :: after
              ∧ Forall (fun p => probe p = Ok false) before
              ∧ probe configPath = Throw error
      end.
Proof.
  cbn zeta.
  unfold GitHubHandler.checkCypressSetup, GitHubHandler.checkCypressSetup_try.
  unfold mbind at 1, eff_bind at 1, await at 1.
  destruct (fs_pathExists fs (JS.path_join repoPath "package.json"))
    as [[|] | e0].
  - unfold mbind at 1, eff_bind at 1.
    unfold mbind at 1, eff_bind at 1, assign at 1, try_catch at 1.
    unfold mbind at 1, eff_bind at 1, await at 1.
    set (found := GitHubHandler.findConfig fs repoPath
                    GitHubHandler.cypressConfigPaths).
    destruct (fs_readJson fs _) as [packageJson | e1].
    + unfold mbind, eff_bind, assign.
      pose proof (findConfig_run fs repoPath GitHubHandler.cypressConfigPaths
                    (GitHubHandler.set_scripts
                       (default [] (pj_scripts packageJson))
                       (GitHubHandler.set_hasCypressDependency
                          (JS.truthy_at
                             (JS.spread2 (default ∅ (pj_dependencies packageJson))
                                (default ∅ (pj_devDependencies packageJson)))
                             "cypress")
                          (GitHubHandler.set_hasPackageJson true
                             GitHubHandler.initialResults)))) as Hrun.
      cbn zeta in Hrun. fold found in Hrun.
      destruct (found _) as [results [[] | e]].
      * eexists. split; [reflexivity |].
        destruct Hrun as [(before & cp & after & Hsplit & Hb & Hf & ->) | [Hall ->]].
        -- cbn. split_and!; [done | done | | by exists before, after].
           split; [by eexists | done].
        -- cbn. split_and!; [done | done | | done].
           split; [discriminate | intros [x Hx]; discriminate].
      * eexists. split; [reflexivity |]. by right.
    + unfold mret, eff_ret.
      pose proof (findConfig_run fs repoPath GitHubHandler.cypressConfigPaths
                    (GitHubHandler.set_hasPackageJson true
                       GitHubHandler.initialResults)) as Hrun.
      cbn zeta in Hrun. fold found in Hrun.
      destruct (found _) as [results [[] | e]].
      * eexists. split; [reflexivity |].
        destruct Hrun as [(before & cp & after & Hsplit & Hb & Hf & ->) | [Hall ->]].
        -- cbn. split_and!; [done | done | | by exists before, after].
           split; [by eexists | done].
        -- cbn. split_and!; [done | done | | done].
           split; [discriminate | intros [x Hx]; discriminate].
      * eexists. split; [reflexivity |]. by right.
  - unfold mbind at 1, eff_bind at 1, mret at 1, eff_ret at 1.
    pose proof (findConfig_run fs repoPath GitHubHandler.cypressConfigPaths
                  GitHubHandler.initialResults) as Hrun.
    cbn zeta in Hrun.
    destruct (GitHubHandler.findConfig fs repoPath _ _) as [results [[] | e]].
    + eexists. split; [reflexivity |].
      destruct Hrun as [(before & cp & after & Hsplit & Hb & Hf & ->) | [Hall ->]].
      * cbn. split_and!; [done | done | | by exists before, after].
        split; [by eexists | done].
      * cbn. split_and!; [done | done | | done].
        split; [discriminate | intros [x Hx]; discriminate].
    + eexists. split; [reflexivity |]. by right.
  - eexists. split; [reflexivity |]. by left.
Qed.

(** *** The check and the analysis read the same manifest *)

(** The fields of the Analysis that hold what was read of the manifest. *)
Lemma detectFrameworkAndType_manifest (a : Analysis) :
  dependencies (detectFrameworkAndType a) = dependencies a
  ∧ devDependencies (detectFrameworkAndType a) = devDependencies a
  ∧ scripts (detectFrameworkAndType a) = scripts a
  ∧ hasPackageJson (detectFrameworkAndType a) = hasPackageJson a.
Proof.
  unfold detectFrameworkAndType.
  destruct (firstIndicated frameworkIndicators _) as [found |];
    cbn [set_framework framework];
    destruct (String.eqb _ "none"); by split_and!.
Qed.

Lemma manifest_fields_kept fs (repoPath : string) (a0 : Analysis) :
  let a1 := (analyzePackageJson fs repoPath a0).1 in
  let a := (deepAnalysis_body fs repoPath a0).1 in
  dependencies a = dependencies a1
  ∧ devDependencies a = devDependencies a1
  ∧ scripts a = scripts a1
  ∧ hasPackageJson a = hasPackageJson a1.
Proof.
  cbn zeta.
  assert (Hrun : (deepAnalysis_body fs repoPath a0).1
                 = match analyzePackageJson fs repoPath a0 with
                   | (a1, Ok _) =>
                       ((analyzeInstalledDependencies fs repoPath ;;
                         analyzeProjectStructure fs repoPath "" 0 ;;
                         assign detectFrameworkAndType ;;
                         findEntryPoints fs repoPath ;;
                         findExistingTests fs repoPath ;;
                         analyzeBuildTools fs repoPath ;;
                         current) a1).1
                   | (a1, Throw _) => a1
                   end).
  { unfold deepAnalysis_body. unfold mbind at 1, eff_bind at 1.
    by destruct (analyzePackageJson fs repoPath a0) as [a1 [[] | e]]. }
  rewrite Hrun. clear Hrun.
  destruct (analyzePackageJson fs repoPath a0) as [a1 [[] | e]];
    [| by split_and!].
  cbn [fst].
  set (P := fun a : Analysis =>
              dependencies a = dependencies a1
              ∧ devDependencies a = devDependencies a1
              ∧ scripts a = scripts a1
              ∧ hasPackageJson a = hasPackageJson a1).
  assert (Htail : preserves P
            (analyzeInstalledDependencies fs repoPath ;;
             analyzeProjectStructure fs repoPath "" 0 ;;
             assign detectFrameworkAndType ;;
             findEntryPoints fs repoPath ;;
             findExistingTests fs repoPath ;;
             analyzeBuildTools fs repoPath ;;
             current)).
  { unfold analyzeInstalledDependencies, analyzeProjectStructure,
      findEntryPoints, findExistingTests, analyzeBuildTools.
    frame.
    apply preserves_assign. intros a (Hd & Hv & Hs & Hp).
    destruct (detectFrameworkAndType_manifest a) as (Hd' & Hv' & Hs' & Hp').
    unfold P. by rewrite Hd', Hv', Hs', Hp'. }
  apply (Htail a1). by unfold P.
Qed.

Lemma analyzePackageJson_initial fs (now repoPath : string) :
  let a1 := (analyzePackageJson fs repoPath (initialAnalysis now)).1 in
  match fs_pathExists fs (JS.path_join repoPath "package.json"),
        fs_readJson fs (JS.path_join repoPath "package.json") with
  | Ok true, Ok packageJson =>
      hasPackageJson a1 = true
      ∧ dependencies a1 = default ∅ (pj_dependencies packageJson)
      ∧ devDependencies a1 = default ∅ (pj_devDependencies packageJson)
      ∧ scripts a1 = Some (default [] (pj_scripts packageJson))
  | _, _ =>
      hasPackageJson a1 = false ∧ dependencies a1 = ∅
      ∧ devDependencies a1 = ∅ ∧ scripts a1 = None
  end.
Proof.
  cbn zeta.
  unfold analyzePackageJson, try_catch, mbind, eff_bind, await, assign, mret,
    eff_ret.
  destruct (fs_pathExists fs (JS.path_join repoPath "package.json"))
    as [[|] | e0];
    destruct (fs_readJson fs (JS.path_join repoPath "package.json"))
      as [packageJson | e1]; by split_and!.
Qed.

Lemma checkCypressSetup_manifest fs (repoPath : string)
  (results : GitHubHandler.Results) :
  GitHubHandler.checkCypressSetup fs repoPath
  = Ok (GitHubHandler.Checked results) →
  match fs_pathExists fs (JS.path_join repoPath "package.json"),
        fs_readJson fs (JS.path_join repoPath "package.json") with
  | Ok true, Ok packageJson =>
      GitHubHandler.hasPackageJson results = true
      ∧ GitHubHandler.hasCypressDependency results
        = JS.truthy_at
            (JS.spread2 (default ∅ (pj_dependencies packageJson))
               (default ∅ (pj_devDependencies packageJson))) "cypress"
      ∧ GitHubHandler.scripts results = default [] (pj_scripts packageJson)
  | Ok present, _ =>
      GitHubHandler.hasPackageJson results = present
      ∧ GitHubHandler.hasCypressDependency results = false
      ∧ GitHubHandler.scripts results = []
  | Throw _, _ => False
  end.
Proof.
  unfold GitHubHandler.checkCypressSetup, GitHubHandler.checkCypressSetup_try.
  unfold mbind at 1, eff_bind at 1, await at 1.
  destruct (fs_pathExists fs (JS.path_join repoPath "package.json"))
    as [[|] | e0].
  - unfold mbind at 1, eff_bind at 1.
    unfold mbind at 1, eff_bind at 1, assign at 1, try_catch at 1.
    unfold mbind at 1, eff_bind at 1, await at 1.
    destruct (fs_readJson fs _) as [packageJson | e1].
    + unfold mbind, eff_bind, assign.
      match goal with
      | |- context [GitHubHandler.findConfig fs repoPath ?l ?r] =>
          pose proof (findConfig_run fs repoPath l r) as Hrun;
          cbn zeta in Hrun;
          destruct (GitHubHandler.findConfig fs repoPath l r)
            as [results' [[] | e]]
      end; [| discriminate].
      intros [= <-].
      by destruct Hrun as [(before & cp & after & _ & _ & _ & ->) | [_ ->]].
    + unfold mret, eff_ret.
      match goal with
      | |- context [GitHubHandler.findConfig fs repoPath ?l ?r] =>
          pose proof (findConfig_run fs repoPath l r) as Hrun;
          cbn zeta in Hrun;
          destruct (GitHubHandler.findConfig fs repoPath l r)
            as [results' [[] | e]]
      end; [| discriminate].
      intros [= <-].
      by destruct Hrun as [(before & cp & after & _ & _ & _ & ->) | [_ ->]].
  - unfold mbind at 1, eff_bind at 1, mret at 1, eff_ret at 1.
    match goal with
    | |- context [GitHubHandler.findConfig fs repoPath ?l ?r] =>
        pose proof (findConfig_run fs repoPath l r) as Hrun;
        cbn zeta in Hrun;
        destruct (GitHubHandler.findConfig fs repoPath l r)
          as [results' [[] | e]]
    end; [| discriminate].
    intros [= <-].
    destruct (fs_readJson fs (JS.path_join repoPath "package.json"));
      by destruct Hrun as [(before & cp & after & _ & _ & _ & ->) | [_ ->]].
  - discriminate.
Qed.

(** X22. The setup check and the deep analysis of the same tree agree
    on the manifest: when the check answers with its results, its
    dependency flag is the truthiness of cypress in the combined
    dependency map of the Analysis and its scripts are those of the
    Analysis (none when the Analysis has none). The manifest flags can
    differ in one way only: on a manifest that exists but cannot be
    parsed the check says true and the Analysis false. *)
Theorem X22_check_agrees_with_analysis fs (now repoPath : string)
  (a : Analysis) (results : GitHubHandler.Results) :
  deepAnalysis fs now repoPath = Ok a →
  GitHubHandler.checkCypressSetup fs repoPath
  = Ok (GitHubHandler.Checked results) →
  GitHubHandler.hasCypressDependency results
  = JS.truthy_at (combined a) "cypress"
  ∧ GitHubHandler.scripts results = default [] (scripts a)
  ∧ (hasPackageJson a = true → GitHubHandler.hasPackageJson results = true)
  ∧ (GitHubHandler.hasPackageJson results = true ∧ hasPackageJson a = false
     ↔ fs_pathExists fs (JS.path_join repoPath "package.json") = Ok true
       ∧ ∃ e, fs_readJson fs (JS.path_join repoPath "package.json") = Throw e).
Proof.
  rewrite deepAnalysis_returns. intros [= <-] Hcheck.
  destruct (manifest_fields_kept fs repoPath (initialAnalysis now))
    as (Hd & Hv & Hs & Hp).
  unfold combined. rewrite Hd, Hv, Hs, Hp.
  pose proof (analyzePackageJson_initial fs now repoPath) as Ha.
  pose proof (checkCypressSetup_manifest fs repoPath results Hcheck) as Hr.
  cbn zeta in Ha.
  destruct (fs_pathExists fs (JS.path_join repoPath "package.json"))
    as [[|] | e0]; [| | done].
  - destruct (fs_readJson fs (JS.path_join repoPath "package.json"))
      as [packageJson | e1].
    + destruct Ha as (-> & -> & -> & ->), Hr as (-> & -> & ->).
      split_and!; [done | done | done |].
      split; [intros [_ H]; discriminate | intros [_ [e H]]; discriminate].
    + destruct Ha as (-> & -> & -> & ->), Hr as (-> & -> & ->).
      split_and!; [done | done | done |].
      split; [intros _; split; [done | by eexists] | done].
  - assert (Ha' : hasPackageJson
                    (analyzePackageJson fs repoPath (initialAnalysis now)).1
                  = false
                  ∧ dependencies
                      (analyzePackageJson fs repoPath (initialAnalysis now)).1 = ∅
                  ∧ devDependencies
                      (analyzePackageJson fs repoPath (initialAnalysis now)).1 = ∅
                  ∧ scripts
                      (analyzePackageJson fs repoPath (initialAnalysis now)).1
                    = None)
      by (by destruct (fs_readJson fs (JS.path_join repoPath "package.json"))).
    assert (Hr' : GitHubHandler.hasPackageJson results = false
                  ∧ GitHubHandler.hasCypressDependency results = false
                  ∧ GitHubHandler.scripts results = [])
      by (by destruct (fs_readJson fs (JS.path_join repoPath "package.json"))).
    destruct Ha' as (-> & -> & -> & ->), Hr' as (-> & -> & ->).
    split_and!; [done | done | done |].
    split; [intros [H _]; discriminate | intros [H _]; discriminate].
Qed.

Lemma X22_check_agrees_with_analysis_witness :
  deepAnalysis sampleFs sampleDate "/repo" = Ok repoAnalysis
  ∧ GitHubHandler.checkCypressSetup sampleFs "/repo"
    = Ok (GitHubHandler.Checked repoResults)
  ∧ GitHubHandler.hasCypressDependency repoResults
    = JS.truthy_at (combined repoAnalysis) "cypress"
  ∧ GitHubHandler.scripts repoResults = default [] (scripts repoAnalysis).
Proof.
  assert (Han : deepAnalysis sampleFs sampleDate "/repo" = Ok repoAnalysis)
    by apply deepAnalysis_returns.
  assert (Hcheck : GitHubHandler.checkCypressSetup sampleFs "/repo"
                   = Ok (GitHubHandler.Checked repoResults))
    by (vm_compute; reflexivity).
  pose proof (X22_check_agrees_with_analysis sampleFs sampleDate "/repo"
                repoAnalysis repoResults Han Hcheck) as (Hdep & Hscripts & _).
  exact (conj Han (conj Hcheck (conj Hdep Hscripts))).
Defined.

(** ** Saving the specs *)

Section SavingFacts.

Context (World : Type).
Context (ensureDir : string → Eff World unit).
Context (writeFile : string → string → Eff World unit).

Local Abbreviation saveSpecsToDisk :=
  (Agent.saveSpecsToDisk World ensureDir writeFile).

Lemma for_of_app {A} (xs ys : list A) (body : A → Eff World unit) (w : World) :
  for_of (xs ++ ys) body w
  = match for_of xs body w with
    | (w', Ok _) => for_of ys body w'
    | (w', Throw e) => (w', Throw e)
    end.
Proof.
  revert w. induction xs as [| x xs IH]; intros w; [reflexivity |].
  cbn [app for_of]. unfold mbind, eff_bind.
  destruct (body x w) as [w1 [[] | e]]; [apply IH | reflexivity].
Qed.

(** X23. Saving stops at the first write that raises and answers
    false: the specs before it have been written and stay written, the
    specs after it are never written, whatever they are. *)
Theorem X23_save_stops_at_first_failure
  (written : list GeneratedSpec) (failing : GeneratedSpec)
  (unwritten : list GeneratedSpec) (outputPath : string)
  (w w1 w2 w3 : World) (e : string) :
  ensureDir outputPath w = (w1, Ok tt) →
  for_of written (fun spec =>
    writeFile (JS.path_join outputPath (gs_name spec)) (gs_content spec)) w1
  = (w2, Ok tt) →
  writeFile (JS.path_join outputPath (gs_name failing)) (gs_content failing) w2
  = (w3, Throw e) →
  saveSpecsToDisk (written ++ failing :: unwritten) outputPath w
  = (w3, Ok false).
Proof.
  intros Hdir Hwritten Hfail.
  unfold Agent.saveSpecsToDisk, try_catch, Agent.writeSpecs.
  unfold mbind at 1, eff_bind at 1. rewrite Hdir.
  unfold mbind at 1, eff_bind at 1. rewrite for_of_app, Hwritten.
  cbn [for_of]. unfold mbind at 1, eff_bind at 1. by rewrite Hfail.
Qed.

End SavingFacts.

Lemma X23_save_stops_at_first_failure_witness :
  sim_ensureDir simOutputDir emptyDisk = (quotaAfterDir, Ok tt)
  ∧ for_of writtenSpecs (fun spec =>
      sim_writeFile_quota (JS.path_join simOutputDir (gs_name spec))
        (gs_content spec)) quotaAfterDir
    = (quotaAfterTwo, Ok tt)
  ∧ Agent.saveSpecsToDisk SimWorld sim_ensureDir sim_writeFile_quota
      (writtenSpecs ++ failingSpec :: unwrittenSpecs) simOutputDir emptyDisk
    = (quotaAfterTwo, Ok false)
  ∧ map fst (sim_files quotaAfterTwo)
    = [ "/work/generated-specs/generated-spec-2.cy.js";
        "/work/generated-specs/generated-spec-1.cy.js" ].
Proof.
  assert (Hdir : sim_ensureDir simOutputDir emptyDisk = (quotaAfterDir, Ok tt))
    by reflexivity.
  assert (Hwritten : for_of writtenSpecs (fun spec =>
                       sim_writeFile_quota
                         (JS.path_join simOutputDir (gs_name spec))
                         (gs_content spec)) quotaAfterDir
                     = (quotaAfterTwo, Ok tt))
    by (vm_compute; reflexivity).
  assert (Hfail : sim_writeFile_quota
                    (JS.path_join simOutputDir (gs_name failingSpec))
                    (gs_content failingSpec) quotaAfterTwo
                  = (quotaAfterTwo, Throw "ENOSPC: no space left on device"))
    by (vm_compute; reflexivity).
  pose proof (X23_save_stops_at_first_failure SimWorld sim_ensureDir
                sim_writeFile_quota writtenSpecs failingSpec unwrittenSpecs
                simOutputDir emptyDisk quotaAfterDir quotaAfterTwo quotaAfterTwo
                "ENOSPC: no space left on device" Hdir Hwritten Hfail) as Hsave.
  assert (Hfiles : map fst (sim_files quotaAfterTwo)
                   = [ "/work/generated-specs/generated-spec-2.cy.js";
                       "/work/generated-specs/generated-spec-1.cy.js" ])
    by (vm_compute; reflexivity).
  exact (conj Hdir (conj Hwritten (conj Hsave Hfiles))).
Defined.

(** ** The n8n interface *)


Section InterfaceFacts.

Context (World : Type).
Context (cloneAndAnalyze : string → Eff World Agent.CloneResult).
Context (checkCypressSetup : string → Eff World GitHubHandler.CypressCheck).
Context (ensureDir : string → Eff World unit).
Context (writeFile : string → string → Eff World unit).
Context (remove : string → Eff World unit).
Context (fileSystem : World → FileSystem).
Context (now : World → string) (specClock : World → nat → string).
Context (tempDir outputDir : string).

Local Abbreviation processRepository :=
  (Agent.processRepository World GitHubHandler.CypressCheck cloneAndAnalyze
     checkCypressSetup ensureDir writeFile remove fileSystem now specClock
     tempDir outputDir).
Local Abbreviation processForN8N :=
  (N8N.processForN8N World cloneAndAnalyze checkCypressSetup ensureDir
     writeFile remove fileSystem now specClock tempDir outputDir).

(** The n8n interface never raises. *)
Lemma processForN8N_returns (githubUrl : string) (w : World) :
  ∃ w' response, processForN8N githubUrl w = (w', Ok response).
Proof.
  unfold N8N.processForN8N, mbind, eff_bind.
  destruct (processRepository_returns World GitHubHandler.CypressCheck
              cloneAndAnalyze checkCypressSetup ensureDir writeFile remove
              fileSystem now specClock tempDir outputDir githubUrl w)
    as (w' & envelope & ->).
  destruct envelope as [report | error repository]; by eexists _, _.
Qed.


End InterfaceFacts.


(** ** Cypress configuration *)

(** X26. For a framework that is not the name of a member every
    object inherits, the Cypress configuration falls back together with
    the strategy: the framework has settings of its own exactly when it
    has a strategy profile of its own, so the traditional settings
    (1280 x 720, 8000 ms) go with the traditional strategy and no other.
    The reporter is mochawesome, the command timeout is 8000, 10000 or
    15000 ms, and the strategy argument is not looked at. *)
Theorem X26_config_falls_back_with_strategy (a : Analysis) (s : Strategy) :
  framework a ∉ JS.objectPrototypeProps →
  let config := CypressConfig.generateCypressConfig a s in
  map fst CypressConfig.frameworkConfigs = map fst strategies
  ∧ (∃ engine,
       generateStrategy a = Ok engine
       ∧ (CypressConfig.settings config = Some CypressConfig.traditional
          ↔ name engine = "Traditional Web App Strategy")
       ∧ config = CypressConfig.generateCypressConfig a engine)
  ∧ CypressConfig.reporter config = "mochawesome"
  ∧ ∃ frameworkConfig,
      CypressConfig.settings config = Some frameworkConfig
      ∧ CypressConfig.defaultCommandTimeout frameworkConfig
        ∈ [8000; 10000; 15000]%Z.
Proof.
  intros Hown. cbn zeta. split; [reflexivity |].
  rewrite (generateStrategy_own a Hown).
  unfold CypressConfig.generateCypressConfig, JS.member.
  rewrite (bool_decide_eq_false_2 _ Hown).
  cbn [CypressConfig.settings CypressConfig.reporter name customStrategy].
  unfold CypressConfig.frameworkConfigs, strategies. cbn [JS.assoc].
  repeat (destruct (String.eqb (framework a) _);
          [cbn; split_and!;
           [eexists; split_and!;
            [reflexivity | split; discriminate || done | done]
           | done | eexists; split; [reflexivity | by_membership]] |]).
  cbn. split_and!;
    [eexists; split_and!; [reflexivity | done | done] | done
    | eexists; split; [reflexivity | by_membership]].
Qed.

Lemma X26_config_falls_back_with_strategy_witness :
  (framework svelteProject ∉ JS.objectPrototypeProps)
  ∧ ∃ engine,
      generateStrategy svelteProject = Ok engine
      ∧ (CypressConfig.settings
           (CypressConfig.generateCypressConfig svelteProject engine)
         = Some CypressConfig.traditional
         ↔ name engine = "Traditional Web App Strategy").
Proof.
  assert (Hown : framework svelteProject ∉ JS.objectPrototypeProps)
    by by_decision.
  destruct (X26_config_falls_back_with_strategy svelteProject
              (customStrategy traditional svelteProject) Hown)
    as (_ & (engine & Hs & Hback & Hsame) & _).
  rewrite Hsame in Hback.
  exact (conj Hown (ex_intro _ engine (conj Hs Hback))).
Defined.

(** At the name of an inherited member the configuration has no
    settings at all, and the engine gives no strategy. *)
Example generateCypressConfig_inherited :
  CypressConfig.settings
    (CypressConfig.generateCypressConfig
       (set_framework "constructor" bareAnalysis)
       (customStrategy traditional bareAnalysis))
  = None
  ∧ generateStrategy (set_framework "constructor" bareAnalysis)
    = Throw "basePatterns is not iterable".
Proof. split; reflexivity. Qed.

(** ** The Cypress server *)

(** X25. The command of the Cypress server starts with 'npx cypress
    run' and ends with the flag of the test type. A test type that is
    missing or is none of e2e, component, smoke and regression (the
    advertised 'basic' among them) gives the command of an e2e run. The
    run is headless unless the request says false. *)
Theorem X25_unknown_test_type_runs_e2e (url testType spec browser : option string)
  (headless : option bool) :
  let request t :=
    {| CypressServer.url := url; CypressServer.testType := t;
       CypressServer.spec := spec; CypressServer.browser := browser;
       CypressServer.headless := headless |} in
  (∃ options,
     CypressServer.runCypressCommand (request testType)
     = "npx cypress run" +:+ options +:+ CypressServer.mode_flag testType
     ∧ (JS.startsWith options " --headless" = true ↔ headless ≠ Some false))
  ∧ ((testType ∉ [Some "component"; Some "smoke"; Some "regression"]) →
     CypressServer.mode_flag testType = " --e2e"
     ∧ CypressServer.runCypressCommand (request testType)
       = CypressServer.runCypressCommand (request (Some "e2e"))).
Proof.
  cbn zeta. split.
  - unfold CypressServer.runCypressCommand.
    cbn [CypressServer.headless CypressServer.browser CypressServer.spec
         CypressServer.url CypressServer.testType].
    unfold CypressServer.option_flag.
    exists ((match headless with Some false => "" | _ => " --headless" end)
            +:+ (match browser with
                 | Some b => if JS.truthy b then " --browser " +:+ b else ""
                 | None => ""
                 end)
            +:+ (match spec with
                 | Some s =>
                     if JS.truthy s
                     then " --spec " +:+ CypressServer.quote +:+ s
                          +:+ CypressServer.quote
                     else ""
                 | None => ""
                 end)
            +:+ (match url with
                 | Some u => if JS.truthy u then " --env targetUrl=" +:+ u else ""
                 | None => ""
                 end)).
    split.
    + destruct headless as [[|] |], browser as [b |], spec as [s |],
        url as [u |];
        repeat match goal with
               | |- context [JS.truthy ?v] => destruct (JS.truthy v)
               end;
        repeat rewrite ?string_app_assoc, ?string_app_nil_l, ?string_app_nil_r;
        reflexivity.
    + unfold JS.startsWith. destruct headless as [[|] |].
      * split; [discriminate |]. intros _. apply prefix_extension. by eexists.
      * split; [intros H Heq | intros H; by destruct H].
        clear Heq. revert H.
        destruct browser as [b |]; [destruct (JS.truthy b) |];
          destruct spec as [s |]; try destruct (JS.truthy s);
          destruct url as [u |]; try destruct (JS.truthy u);
          vm_compute; discriminate.
      * split; [discriminate |]. intros _. apply prefix_extension. by eexists.
  - intros Hother.
    assert (Hflag : CypressServer.mode_flag testType = " --e2e").
    { destruct testType as [t |]; [| reflexivity]. cbn.
      destruct (String.eqb t "e2e"); [reflexivity |].
      destruct (String.eqb t "component") eqn:H1.
      { apply String.eqb_eq in H1 as ->. exfalso. apply Hother. by_membership. }
      destruct (String.eqb t "smoke") eqn:H2.
      { apply String.eqb_eq in H2 as ->. exfalso. apply Hother. by_membership. }
      destruct (String.eqb t "regression") eqn:H3.
      { apply String.eqb_eq in H3 as ->. exfalso. apply Hother. by_membership. }
      reflexivity. }
    split; [exact Hflag |].
    unfold CypressServer.runCypressCommand.
    cbn [CypressServer.headless CypressServer.browser CypressServer.spec
         CypressServer.url CypressServer.testType].
    by rewrite Hflag.
Qed.

(** ** The listing of generated files *)

Lemma collect_run (fs : Webhook.OutputFs) (outputPath : string) :
  ∀ files fileDetails,
    match Webhook.collect fs outputPath files fileDetails with
    | Ok listed =>
        ∃ added,
          listed = fileDetails ++ added
          ∧ map Webhook.fd_name added
            = List.filter (fun file => JS.endsWith file ".cy.js") files
          ∧ Forall (describes fs outputPath) added
    | Throw _ =>
        ∃ file, file ∈ files ∧ JS.endsWith file ".cy.js" = true
                ∧ unreadable fs outputPath file
    end.
Proof.
  induction files as [| file files IH]; intros fileDetails.
  - exists []. by rewrite app_nil_r.
  - cbn [Webhook.collect List.filter].
    destruct (JS.endsWith file ".cy.js") eqn:Hext.
    + unfold mbind at 1, result_bind at 1.
      destruct (Webhook.stat fs (JS.path_join outputPath file))
        as [stats | e] eqn:Hstat.
      * unfold mbind at 1, result_bind at 1.
        destruct (Webhook.readFile fs (JS.path_join outputPath file))
          as [content | e] eqn:Hread.
        -- specialize (IH (fileDetails
                             ++ [{| Webhook.fd_name := file;
                                    Webhook.fd_path := JS.path_join outputPath file;
                                    Webhook.fd_size := Webhook.size stats;
                                    Webhook.fd_created := Webhook.birthtime stats;
                                    Webhook.fd_lines := Webhook.lineCount content |}])).
           destruct (Webhook.collect fs outputPath files _) as [listed | e].
           ++ destruct IH as (added & -> & Hnames & Hall).
              eexists (_ :: added). rewrite <- app_assoc.
              split; [reflexivity |]. cbn. rewrite Hnames.
              split; [reflexivity |]. constructor; [| exact Hall].
              split; [exact Hext |]. split; [reflexivity |].
              by exists stats, content.
           ++ destruct IH as (f & Hin & Hf & Hu). exists f.
              split; [by right | by split].
        -- exists file. split; [left |]. split; [exact Hext |].
           right. by exists e.
      * exists file. split; [left |]. split; [exact Hext |]. left. by exists e.
    + specialize (IH fileDetails).
      destruct (Webhook.collect fs outputPath files fileDetails) as [listed | e].
      * exact IH.
      * destruct IH as (f & Hin & Hf & Hu). exists f. split; [by right | by split].
Qed.

Lemma collect_unreadable (fs : Webhook.OutputFs) (outputPath file : string) :
  ∀ files fileDetails,
    file ∈ files → JS.endsWith file ".cy.js" = true →
    unreadable fs outputPath file →
    ∃ e, Webhook.collect fs outputPath files fileDetails = Throw e.
Proof.
  induction files as [| x files IH]; intros fileDetails Hin Hext Hu.
  { by apply elem_of_nil in Hin. }
  cbn [Webhook.collect].
  destruct (decide (x = file)) as [-> | Hne].
  - rewrite Hext. unfold mbind, result_bind.
    destruct Hu as [[e He] | [e He]]; rewrite He; [by eexists |].
    destruct (Webhook.stat fs _); by eexists.
  - apply elem_of_cons in Hin as [Heq | Hin]; [congruence |].
    destruct (JS.endsWith x ".cy.js"); [| by apply IH].
    unfold mbind, result_bind.
    destruct (Webhook.stat fs _) as [stats | e]; [| by eexists].
    destruct (Webhook.readFile fs _) as [content | e]; [| by eexists].
    by apply IH.
Qed.

(** X27. The listing of generated files never raises and is all or
    nothing. It is empty, or it describes, in the order of the directory
    listing, exactly the files whose name ends in '.cy.js': name, path
    under the output directory, size, creation time and number of lines.
    One such file that cannot be described ([stat] or [readFile] raises)
    empties the whole listing. *)
Theorem X27_listing_is_all_or_nothing (fs : Webhook.OutputFs)
  (outputPath : string) :
  let listed := Webhook.getGeneratedFiles fs outputPath in
  (listed = []
   ∨ ∃ files,
       Webhook.readdir fs outputPath = Ok files
       ∧ map Webhook.fd_name listed
         = List.filter (fun file => JS.endsWith file ".cy.js") files)
  ∧ Forall (describes fs outputPath) listed
  ∧ ∀ files file,
      Webhook.readdir fs outputPath = Ok files →
      file ∈ files → JS.endsWith file ".cy.js" = true →
      unreadable fs outputPath file →
      listed = [].
Proof.
  cbn zeta. unfold Webhook.getGeneratedFiles, Webhook.getGeneratedFiles_try.
  unfold mbind at 1 2 3, result_bind at 1 2 3.
  destruct (Webhook.pathExists fs outputPath) as [[|] | e0]; cbn [negb].
  - unfold mbind, result_bind.
    destruct (Webhook.readdir fs outputPath) as [files | e1].
    + pose proof (collect_run fs outputPath files []) as Hrun.
      destruct (Webhook.collect fs outputPath files []) as [listed | e] eqn:Hc.
      * destruct Hrun as (added & -> & Hnames & Hall). cbn [app].
        split_and!; [right; by exists files | exact Hall |].
        intros files' file [= <-] Hin Hext Hu.
        destruct (collect_unreadable fs outputPath file files [] Hin Hext Hu)
          as [e He].
        congruence.
      * split_and!; [by left | constructor | done].
    + split_and!; [by left | constructor | done].
  - split_and!; [by left | constructor | done].
  - split_and!; [by left | constructor | done].
Qed.
